(** * Hospital management: legacy-field synchronisation and billing check

    A shallow embedding of [hospital/models.py] (the [save] overrides of
    [Patient], [Appointment] and [PatientDischargeDetails], and
    [Appointment.__str__]) and of [hospital/admin.py]
    ([PatientDischargeDetailsAdmin.calculate_total]), with the properties
    the specification states about them. *)

From Stdlib Require Import ZArith QArith Qround Lia Ascii.
From Stdlib Require Import Floats.SpecFloat.
From stdpp Require Import base option strings gmap pretty.

Local Open Scope Z_scope.

(** ** Python exceptions and the error/state monad

    A method body runs against a mutable state ([self] and, for [save],
    the relational store) and may raise. *)

Inductive Exception :=
  | AttributeError   (* attribute access on [None] *)
  | ValueError       (* Django: save() with an unsaved related object *)
  | IntegrityError.  (* the store: NOT NULL constraint failed *)

Inductive Result (A : Type) :=
  | Ok (a : A)
  | Raise (e : Exception).
Arguments Ok {A} a.
Arguments Raise {A} e.

(** A computation returns a result or raises, and in both cases leaves a
    state behind: what a method assigned before it raised stays assigned. *)
Definition M (S A : Type) : Type := S -> Result A * S.

Definition ret {S A} (a : A) : M S A := fun s => (Ok a, s).

Definition bind {S A B} (c : M S A) (k : A -> M S B) : M S B :=
  fun s => match c s with
           | (Ok a, s') => k a s'
           | (Raise e, s') => (Raise e, s')
           end.

Definition raise {S A} (e : Exception) : M S A := fun s => (Raise e, s).
Definition get {S} : M S S := fun s => (Ok s, s).
Definition put {S} (s : S) : M S unit := fun _ => (Ok tt, s).

Declare Scope py_scope.
Delimit Scope py_scope with py.
Notation "x <- c ;; k" := (bind c (fun x => k))
  (at level 100, c at next level, right associativity) : py_scope.
Notation "c ;; k" := (bind c (fun _ => k))
  (at level 100, right associativity) : py_scope.

(** ** IEEE 754 binary64, the representation of a Python [float] *)

Module Float.
Definition prec : Z := 53.
Definition emax : Z := 1024.

Definition t := spec_float.

(** [x + y] on floats *)
Definition add (x y : t) : t := SFadd prec emax x y.

(** [x == y] on floats *)
Definition eqb (x y : t) : bool := SFeqb x y.

(** The nearest float to the rational [n / d] (ties to even), which is
    what [float(str)] returns for a decimal literal. *)
Definition of_ratio (s : bool) (n d : positive) : t :=
  SFdiv prec emax (S754_finite s n 0) (S754_finite false d 0).

(** The nearest float to the integer [n]. *)
Definition of_pos (s : bool) (n : positive) : t :=
  binary_round prec emax s n 0.
End Float.

(** ** [decimal.Decimal]: sign, integer coefficient, exponent

    The finite values: [(-1)^sign * coefficient * 10^exponent].  A
    [DecimalField(decimal_places=2)] read back from the store has
    exponent [-2]. *)

Module Decimal.
Record t := mk { sign : bool; coefficient : N; exponent : Z }.

Definition signed (d : t) : Z :=
  if sign d then - Z.of_N (coefficient d) else Z.of_N (coefficient d).

(** [Decimal.__int__]: with a negative exponent the last [-exponent]
    digits of the coefficient are dropped, then the sign is applied. *)
Definition __int__ (d : t) : Z :=
  let s := if sign d then -1 else 1 in
  if 0 <=? exponent d
  then s * Z.of_N (coefficient d) * 10 ^ exponent d
  else s * (Z.of_N (coefficient d) / 10 ^ (- exponent d)).

(** [Decimal.__float__]: the correctly rounded binary64 value. *)
Definition __float__ (d : t) : Float.t :=
  match coefficient d with
  | N0 => S754_zero (sign d)
  | Npos m =>
    if 0 <=? exponent d
    then Float.of_pos (sign d) (m * Z.to_pos (10 ^ exponent d))
    else Float.of_ratio (sign d) m (Z.to_pos (10 ^ (- exponent d)))
  end.

(** The rational number a decimal denotes. *)
Definition value (d : t) : Q :=
  if 0 <=? exponent d
  then inject_Z (signed d * 10 ^ exponent d)
  else Qmake (signed d) (Z.to_pos (10 ^ (- exponent d))).

(** Exact decimal addition (no rounding: operands are aligned on the
    smaller exponent). *)
Definition add (x y : t) : t :=
  let e := Z.min (exponent x) (exponent y) in
  let v := signed x * 10 ^ (exponent x - e) + signed y * 10 ^ (exponent y - e) in
  {| sign := v <? 0; coefficient := Z.abs_N v; exponent := e |}.

(** Numerical equality of decimals, [x == y]. *)
Definition eqb (x y : t) : bool :=
  let e := Z.min (exponent x) (exponent y) in
  signed x * 10 ^ (exponent x - e) =? signed y * 10 ^ (exponent y - e).

(** A decimal with two places from a number of hundredths. *)
Definition of_cents (c : Z) : t :=
  {| sign := c <? 0; coefficient := Z.abs_N c; exponent := -2 |}.
End Decimal.


(** ** [datetime.date] and [datetime.datetime] *)

(** [str(n).zfill(w)] for a non-negative [n]. *)
Definition zfill (w : nat) (n : Z) : string :=
  let s := pretty (Z.to_N n) in
  String.concat "" (replicate (w - String.length s)%nat "0") +:+ s.

(** [s[:n]] for a non-negative [n]: the first [n] characters, or all of
    [s] when it is shorter. *)
Definition py_slice_to (n : nat) (s : string) : string := String.substring 0 n s.

(** [a < b] on pairs of integers: Python compares tuples lexicographically. *)
Definition tuple_lt (a b : Z * Z) : bool :=
  (fst a <? fst b) || ((fst a =? fst b) && (snd a <? snd b)).

Module Date.
Record t := mk { year : Z; month : Z; day : Z }.

Definition isoformat (d : t) : string :=
  zfill 4 (year d) +:+ "-" +:+ zfill 2 (month d) +:+ "-" +:+ zfill 2 (day d).

(** The order of dates: by year, then month, then day. *)
Definition lt (a b : t) : Prop :=
  year a < year b \/
  (year a = year b /\ (month a < month b \/ (month a = month b /\ day a < day b))).

Definition le (a b : t) : Prop :=
  lt a b \/ (year a = year b /\ month a = month b /\ day a = day b).

(** The anniversary of [d], [n] years later. *)
Definition anniversary (n : Z) (d : t) : t :=
  {| year := year d + n; month := month d; day := day d |}.
End Date.

Module DateTime.
(** [utcoffset] is in minutes east of UTC; [None] for a naive datetime. *)
Record t := mk {
  year : Z; month : Z; day : Z;
  hour : Z; minute : Z; second : Z; microsecond : Z;
  utcoffset : option Z }.

(** [datetime.date()] *)
Definition date (dt : t) : Date.t :=
  {| Date.year := year dt; Date.month := month dt; Date.day := day dt |}.

(** [datetime.__str__], that is [isoformat(sep=' ')]. *)
Definition __str__ (dt : t) : string :=
  Date.isoformat (date dt) +:+ " " +:+
  zfill 2 (hour dt) +:+ ":" +:+ zfill 2 (minute dt) +:+ ":" +:+ zfill 2 (second dt) +:+
  (if microsecond dt =? 0 then "" else "." +:+ zfill 6 (microsecond dt)) +:+
  match utcoffset dt with
  | None => ""
  | Some off =>
      (if off <? 0 then "-" else "+") +:+
      zfill 2 (Z.abs off / 60) +:+ ":" +:+ zfill 2 (Z.abs off mod 60)
  end.
End DateTime.

(** ** The relational store and [django.db.models.Model]

    What [super().save()] does to a record: related objects must have
    been saved, [auto_now_add] columns are filled on insert (no key yet,
    or no row under the key), NOT NULL columns must be filled, a record
    without a primary key gets the next key of its table, and the row is
    written.

    This is one table, seen from the record. What the database enforces
    across rows and tables (UNIQUE on a one-to-one [user], CHECK on a
    [PositiveIntegerField], foreign keys, column lengths on the backends
    that enforce them) is not part of it, so a save that passes here can
    still end in [IntegrityError] on a database. The general statements
    about [save] below are therefore made for every call, whatever its
    outcome, or for the saves that succeed. The script of
    [verify_fixes.py] runs against a database with uniqueness and foreign
    keys, modelled further down. *)

Module Store.
Record t (T : Type) := mk {
  rows : gmap Z T;     (* the table, by primary key *)
  seq : Z;             (* the largest key handed out so far *)
  today : Date.t }.    (* the clock *)
Arguments mk {T} _ _ _.
Arguments rows {T} _.
Arguments seq {T} _.
Arguments today {T} _.
End Store.

Class Model (T : Type) := {
  _get_pk_val : T -> option Z;
  _set_pk_val : option Z -> T -> T;
  (** the primary keys of the related objects that are set *)
  related_pks : T -> list (option Z);
  (** [Field.pre_save]: [auto_now_add] columns, given whether the record
      is being inserted *)
  pre_save : bool -> Date.t -> T -> T;
  (** every column declared without [null=True] holds a value *)
  not_null : T -> bool }.

(** The state of a method of a stored record: [self] and its table. *)
Definition getself {T St} : M (T * St) T := fun s => (Ok (fst s), s).

Definition setattr {T St} (f : T -> T) : M (T * St) unit :=
  fun s => (Ok tt, (f (fst s), snd s)).

(** Whether [Model.save] inserts: no key yet, or no row under the key. *)
Definition inserting {T} `{Model T} (self : T) (db : Store.t T) : bool :=
  match _get_pk_val self with
  | Some k => bool_decide (Store.rows db !! k = None)
  | None => true
  end.

Definition Model_save {T} `{Model T} : M (T * Store.t T) unit :=
  (self <- getself ;;
   if negb (forallb (fun k => bool_decide (is_Some k)) (related_pks self))
   then raise ValueError
   else
     s <- get ;;
     let db := snd s in
     let self := pre_save (inserting self db) (Store.today db) self in
     put (self, db) ;;
     if negb (not_null self) then raise IntegrityError
     else
       match _get_pk_val self with
       | Some k =>
           put (self, Store.mk (<[k := self]> (Store.rows db))
                               (Z.max (Store.seq db) k) (Store.today db))
       | None =>
           let k := Store.seq db + 1 in
           let self := _set_pk_val (Some k) self in
           put (self, Store.mk (<[k := self]> (Store.rows db)) k (Store.today db))
       end)%py.

(** Python truthiness of a primary key: [None] and [0] are false. *)
Definition truthy_pk (pk : option Z) : bool :=
  match pk with
  | Some k => negb (k =? 0)
  | None => false
  end.

(** ** Regular expressions, as [re] matches them

    The fragment the phone validator uses: literal characters, [\d],
    [r?], concatenation and [r{lo,hi}], matched by backtracking with the
    greedy alternatives first. *)

Module Regex.
Inductive t :=
  | Chr (c : ascii)
  | Digit
  | Opt (r : t)
  | Seq (r1 r2 : t)
  | Repeat (r : t) (lo hi : nat).

(** [\d] on the characters of a [string]: the ten ASCII digits. *)
Definition is_digit (c : ascii) : bool :=
  (48 <=? nat_of_ascii c)%nat && (nat_of_ascii c <=? 57)%nat.

(** [rep step lo hi s]: what is left of [s] after between [lo] and [hi]
    rounds of [step], the longer runs first. *)
Fixpoint rep (step : list ascii -> list (list ascii)) (lo hi : nat)
    (s : list ascii) : list (list ascii) :=
  match hi with
  | O => match lo with O => [s] | S _ => [] end
  | S hi' =>
      flat_map (rep step (Nat.pred lo) hi') (step s) ++
      match lo with O => [s] | S _ => [] end
  end.

(** [run r s]: what is left of [s] after each way of matching [r] at its
    start, in the order the matcher tries them. *)
Fixpoint run (r : t) (s : list ascii) : list (list ascii) :=
  match r with
  | Chr c =>
      match s with
      | c' :: s' => if Ascii.eqb c c' then [s'] else []
      | [] => []
      end
  | Digit =>
      match s with
      | c' :: s' => if is_digit c' then [s'] else []
      | [] => []
      end
  | Opt r => run r s ++ [s]
  | Seq r1 r2 => flat_map (run r2) (run r1 s)
  | Repeat r lo hi => rep (run r) lo hi s
  end.

(** [$]: the end of the string, or just before a newline that ends it. *)
Definition at_end (rest : list ascii) : bool :=
  match rest with
  | [] => true
  | [c] => Ascii.eqb c "010"%char
  | _ => false
  end.

(** [re.search] of the pattern [^r$]: [^] anchors the match at the start. *)
Definition search_anchored (r : t) (s : string) : bool :=
  existsb at_end (run r (String.list_ascii_of_string s)).

(** The words a regular expression denotes. *)
Fixpoint lang (r : t) (w : list ascii) : Prop :=
  match r with
  | Chr c => w = [c]
  | Digit => exists c, w = [c] /\ is_digit c = true
  | Opt r => w = [] \/ lang r w
  | Seq r1 r2 => exists w1 w2, w = w1 ++ w2 /\ lang r1 w1 /\ lang r2 w2
  | Repeat r lo hi =>
      exists ws, w = concat ws /\ Forall (lang r) ws /\
                 (lo <= length ws <= hi)%nat
  end.
End Regex.

(** ** [hospital/models.py] *)

(** [phone_validator = RegexValidator(regex=r'^\+?1?\d{9,15}$', ...)] *)
Definition phone_regex : Regex.t :=
  Regex.Seq (Regex.Opt (Regex.Chr "+"%char))
    (Regex.Seq (Regex.Opt (Regex.Chr "1"%char)) (Regex.Repeat Regex.Digit 9 15)).

(** Whether the validator lets [value] through (it raises
    [ValidationError] otherwise). *)
Definition phone_validator (value : string) : bool :=
  Regex.search_anchored phone_regex value.

(** The number of digits in a value. *)
Definition count_digits (value : string) : nat :=
  length (List.filter Regex.is_digit (String.list_ascii_of_string value)).

Module BaseModel.
Record t := mk {
  created_at : DateTime.t;
  updated_at : DateTime.t;
  is_active : bool }.
End BaseModel.

Module User.
(** [django.contrib.auth.models.User], the fields the models read. *)
Record t := mk { id : Z; first_name : string; last_name : string }.
End User.

Module Doctor.
Record t := mk {
  pk : option Z;
  base : BaseModel.t;
  user : User.t;
  profile_pic : option string;
  address : string;
  mobile : string;
  department : string;
  status : bool;
  qualifications : option string;
  experience_years : Z;
  consultation_fee : Decimal.t }.

Definition set_pk (v : option Z) (x : t) : t :=
  {| pk := v; base := base x; user := user x; profile_pic := profile_pic x;
    address := address x; mobile := mobile x; department := department x;
    status := status x; qualifications := qualifications x;
    experience_years := experience_years x;
    consultation_fee := consultation_fee x |}.

(** [Doctor] does not override [save]: saving a doctor is [Model.save]. *)
#[global] Instance model : Model t := {|
  _get_pk_val := pk;
  _set_pk_val := set_pk;
  related_pks _ := [];
  pre_save _ _ self := self;
  not_null _ := true |}.

Definition get_name (self : t) : string :=
  User.first_name (user self) +:+ " " +:+ User.last_name (user self).

Definition get_id (self : t) : Z := User.id (user self).

Definition __str__ (self : t) : string :=
  User.first_name (user self) +:+ " " +:+ User.last_name (user self) +:+
  " (" +:+ department self +:+ ")".
End Doctor.

Module Patient.
Record t := mk {
  pk : option Z;
  base : BaseModel.t;
  user : User.t;
  profile_pic : option string;
  address : string;
  mobile : string;
  symptoms : string;
  assigned_doctor : option Doctor.t;
  admit_date : option Date.t;
  status : bool;
  blood_group : string;
  date_of_birth : option Date.t;
  emergency_contact : string;
  (* Backward compatibility field (deprecated) *)
  assignedDoctorId : option Z }.

Definition set_pk (v : option Z) (x : t) : t :=
  {| pk := v; base := base x; user := user x; profile_pic := profile_pic x;
    address := address x; mobile := mobile x; symptoms := symptoms x;
    assigned_doctor := assigned_doctor x; admit_date := admit_date x;
    status := status x; blood_group := blood_group x;
    date_of_birth := date_of_birth x;
    emergency_contact := emergency_contact x;
    assignedDoctorId := assignedDoctorId x |}.
Definition set_address (v : string) (x : t) : t :=
  {| pk := pk x; base := base x; user := user x; profile_pic := profile_pic x;
    address := v; mobile := mobile x; symptoms := symptoms x;
    assigned_doctor := assigned_doctor x; admit_date := admit_date x;
    status := status x; blood_group := blood_group x;
    date_of_birth := date_of_birth x;
    emergency_contact := emergency_contact x;
    assignedDoctorId := assignedDoctorId x |}.
Definition set_mobile (v : string) (x : t) : t :=
  {| pk := pk x; base := base x; user := user x; profile_pic := profile_pic x;
    address := address x; mobile := v; symptoms := symptoms x;
    assigned_doctor := assigned_doctor x; admit_date := admit_date x;
    status := status x; blood_group := blood_group x;
    date_of_birth := date_of_birth x;
    emergency_contact := emergency_contact x;
    assignedDoctorId := assignedDoctorId x |}.
Definition set_symptoms (v : string) (x : t) : t :=
  {| pk := pk x; base := base x; user := user x; profile_pic := profile_pic x;
    address := address x; mobile := mobile x; symptoms := v;
    assigned_doctor := assigned_doctor x; admit_date := admit_date x;
    status := status x; blood_group := blood_group x;
    date_of_birth := date_of_birth x;
    emergency_contact := emergency_contact x;
    assignedDoctorId := assignedDoctorId x |}.
Definition set_assigned_doctor (v : option Doctor.t) (x : t) : t :=
  {| pk := pk x; base := base x; user := user x; profile_pic := profile_pic x;
    address := address x; mobile := mobile x; symptoms := symptoms x;
    assigned_doctor := v; admit_date := admit_date x; status := status x;
    blood_group := blood_group x; date_of_birth := date_of_birth x;
    emergency_contact := emergency_contact x;
    assignedDoctorId := assignedDoctorId x |}.
Definition set_admit_date (v : option Date.t) (x : t) : t :=
  {| pk := pk x; base := base x; user := user x; profile_pic := profile_pic x;
    address := address x; mobile := mobile x; symptoms := symptoms x;
    assigned_doctor := assigned_doctor x; admit_date := v; status := status x;
    blood_group := blood_group x; date_of_birth := date_of_birth x;
    emergency_contact := emergency_contact x;
    assignedDoctorId := assignedDoctorId x |}.
Definition set_date_of_birth (v : option Date.t) (x : t) : t :=
  {| pk := pk x; base := base x; user := user x; profile_pic := profile_pic x;
    address := address x; mobile := mobile x; symptoms := symptoms x;
    assigned_doctor := assigned_doctor x; admit_date := admit_date x;
    status := status x; blood_group := blood_group x; date_of_birth := v;
    emergency_contact := emergency_contact x;
    assignedDoctorId := assignedDoctorId x |}.
Definition set_assignedDoctorId (v : option Z) (x : t) : t :=
  {| pk := pk x; base := base x; user := user x; profile_pic := profile_pic x;
    address := address x; mobile := mobile x; symptoms := symptoms x;
    assigned_doctor := assigned_doctor x; admit_date := admit_date x;
    status := status x; blood_group := blood_group x;
    date_of_birth := date_of_birth x;
    emergency_contact := emergency_contact x; assignedDoctorId := v |}.

(** Of the [pre_save] hooks only [auto_now_add] is modelled. The one of
    [profile_pic] (an [ImageField], here and in [Doctor]), which commits a
    freshly uploaded file to storage and renames it, is not: no statement
    is made about [profile_pic]. *)
#[global] Instance model : Model t := {|
  _get_pk_val := pk;
  _set_pk_val := set_pk;
  related_pks self :=
    match assigned_doctor self with Some d => [Doctor.pk d] | None => [] end;
  pre_save adding today self :=
    if adding then set_admit_date (Some today) self else self;
  not_null self := bool_decide (is_Some (admit_date self)) |}.

Definition save : M (t * Store.t t) unit :=
  ((* Maintain backward compatibility *)
   self <- getself ;;
   match assigned_doctor self with
   | Some d => setattr (set_assignedDoctorId (Some (User.id (Doctor.user d))))
   | None => ret tt
   end ;;
   Model_save)%py.

Definition get_name (self : t) : string :=
  User.first_name (user self) +:+ " " +:+ User.last_name (user self).

Definition get_id (self : t) : Z := User.id (user self).

(** [age], with [today] for [timezone.now().date()]. *)
Definition age (today : Date.t) (self : t) : option Z :=
  match date_of_birth self with
  | Some dob =>
      Some (Date.year today - Date.year dob -
            (if tuple_lt (Date.month today, Date.day today)
                         (Date.month dob, Date.day dob)
             then 1 else 0))
  | None => None
  end.

Definition __str__ (self : t) : string :=
  User.first_name (user self) +:+ " " +:+ User.last_name (user self) +:+
  " (" +:+ py_slice_to 30 (symptoms self) +:+ ")".

(** [address = models.CharField(max_length=200, ...)] and
    [mobile = models.CharField(max_length=20, ...)] *)
Definition address_max_length : nat := 200.
Definition mobile_max_length : nat := 20.
End Patient.

Module Appointment.
Record t := mk {
  pk : option Z;
  base : BaseModel.t;
  patient : option Patient.t;
  doctor : option Doctor.t;
  appointment_date : option DateTime.t;
  description : string;
  status : bool;
  (* Backward compatibility fields (deprecated) *)
  patientId : option Z;
  doctorId : option Z;
  patientName : string;
  doctorName : string;
  appointmentDate : option Date.t }.

Definition set_pk (v : option Z) (x : t) : t :=
  {| pk := v; base := base x; patient := patient x; doctor := doctor x;
    appointment_date := appointment_date x; description := description x;
    status := status x; patientId := patientId x; doctorId := doctorId x;
    patientName := patientName x; doctorName := doctorName x;
    appointmentDate := appointmentDate x |}.
Definition set_patient (v : option Patient.t) (x : t) : t :=
  {| pk := pk x; base := base x; patient := v; doctor := doctor x;
    appointment_date := appointment_date x; description := description x;
    status := status x; patientId := patientId x; doctorId := doctorId x;
    patientName := patientName x; doctorName := doctorName x;
    appointmentDate := appointmentDate x |}.
Definition set_doctor (v : option Doctor.t) (x : t) : t :=
  {| pk := pk x; base := base x; patient := patient x; doctor := v;
    appointment_date := appointment_date x; description := description x;
    status := status x; patientId := patientId x; doctorId := doctorId x;
    patientName := patientName x; doctorName := doctorName x;
    appointmentDate := appointmentDate x |}.
Definition set_appointment_date (v : option DateTime.t) (x : t) : t :=
  {| pk := pk x; base := base x; patient := patient x; doctor := doctor x;
    appointment_date := v; description := description x; status := status x;
    patientId := patientId x; doctorId := doctorId x;
    patientName := patientName x; doctorName := doctorName x;
    appointmentDate := appointmentDate x |}.
Definition set_patientId (v : option Z) (x : t) : t :=
  {| pk := pk x; base := base x; patient := patient x; doctor := doctor x;
    appointment_date := appointment_date x; description := description x;
    status := status x; patientId := v; doctorId := doctorId x;
    patientName := patientName x; doctorName := doctorName x;
    appointmentDate := appointmentDate x |}.
Definition set_patientName (v : string) (x : t) : t :=
  {| pk := pk x; base := base x; patient := patient x; doctor := doctor x;
    appointment_date := appointment_date x; description := description x;
    status := status x; patientId := patientId x; doctorId := doctorId x;
    patientName := v; doctorName := doctorName x;
    appointmentDate := appointmentDate x |}.
Definition set_doctorId (v : option Z) (x : t) : t :=
  {| pk := pk x; base := base x; patient := patient x; doctor := doctor x;
    appointment_date := appointment_date x; description := description x;
    status := status x; patientId := patientId x; doctorId := v;
    patientName := patientName x; doctorName := doctorName x;
    appointmentDate := appointmentDate x |}.
Definition set_doctorName (v : string) (x : t) : t :=
  {| pk := pk x; base := base x; patient := patient x; doctor := doctor x;
    appointment_date := appointment_date x; description := description x;
    status := status x; patientId := patientId x; doctorId := doctorId x;
    patientName := patientName x; doctorName := v;
    appointmentDate := appointmentDate x |}.
Definition set_appointmentDate (v : option Date.t) (x : t) : t :=
  {| pk := pk x; base := base x; patient := patient x; doctor := doctor x;
    appointment_date := appointment_date x; description := description x;
    status := status x; patientId := patientId x; doctorId := doctorId x;
    patientName := patientName x; doctorName := doctorName x;
    appointmentDate := v |}.

#[global] Instance model : Model t := {|
  _get_pk_val := pk;
  _set_pk_val := set_pk;
  related_pks self :=
    match patient self with Some p => [Patient.pk p] | None => [] end ++
    match doctor self with Some d => [Doctor.pk d] | None => [] end;
  pre_save _ _ self := self;
  not_null self := bool_decide (is_Some (appointment_date self)) |}.

Definition save : M (t * Store.t t) unit :=
  ((* Maintain backward compatibility *)
   self <- getself ;;
   match patient self with
   | Some p =>
       setattr (set_patientId (Some (User.id (Patient.user p)))) ;;
       setattr (set_patientName (Patient.get_name p))
   | None => ret tt
   end ;;
   self <- getself ;;
   match doctor self with
   | Some d =>
       setattr (set_doctorId (Some (User.id (Doctor.user d)))) ;;
       setattr (set_doctorName (Doctor.get_name d))
   | None => ret tt
   end ;;
   self <- getself ;;
   match appointment_date self with
   | Some dt => setattr (set_appointmentDate (Some (DateTime.date dt)))
   | None => ret tt
   end ;;
   Model_save)%py.

(** [f"{self.patient.get_name} -> {self.doctor.get_name} on {self.appointment_date}"]:
    the replacement fields are evaluated left to right, and reading
    [get_name] from [None] raises. *)
Definition __str__ : M t string :=
  (self <- get ;;
   pn <- match patient self with
         | Some p => ret (Patient.get_name p)
         | None => raise AttributeError
         end ;;
   dn <- match doctor self with
         | Some d => ret (Doctor.get_name d)
         | None => raise AttributeError
         end ;;
   let on := match appointment_date self with
             | Some dt => DateTime.__str__ dt
             | None => "None"
             end in
   ret (pn +:+ " -> " +:+ dn +:+ " on " +:+ on))%py.

(** [patientName] and [doctorName] are [CharField(max_length=100, ...)]. *)
Definition patientName_max_length : nat := 100.
Definition doctorName_max_length : nat := 100.
End Appointment.

Module PatientDischargeDetails.
Record t := mk {
  pk : option Z;
  base : BaseModel.t;
  patient : option Patient.t;
  assigned_doctor : option Doctor.t;
  admit_date : Date.t;
  release_date : Date.t;
  day_spent : Z;
  room_charge : Decimal.t;
  medicine_cost : Decimal.t;
  doctor_fee : Decimal.t;
  other_charge : Decimal.t;
  total : Decimal.t;
  (* Backward compatibility fields (deprecated) *)
  patientId : option Z;
  patientName : string;
  assignedDoctorName : string;
  address : string;
  mobile : string;
  symptoms : string;
  admitDate : option Date.t;
  releaseDate : option Date.t;
  daySpent : option Z;
  roomCharge : option Z;
  medicineCost : option Z;
  doctorFee : option Z;
  OtherCharge : option Z }.

(** [symptoms = models.CharField(max_length=500, ...)] *)
Definition symptoms_max_length : nat := 500.

Definition set_pk (v : option Z) (x : t) : t :=
  {| pk := v; base := base x; patient := patient x;
    assigned_doctor := assigned_doctor x; admit_date := admit_date x;
    release_date := release_date x; day_spent := day_spent x;
    room_charge := room_charge x; medicine_cost := medicine_cost x;
    doctor_fee := doctor_fee x; other_charge := other_charge x;
    total := total x; patientId := patientId x; patientName := patientName x;
    assignedDoctorName := assignedDoctorName x; address := address x;
    mobile := mobile x; symptoms := symptoms x; admitDate := admitDate x;
    releaseDate := releaseDate x; daySpent := daySpent x;
    roomCharge := roomCharge x; medicineCost := medicineCost x;
    doctorFee := doctorFee x; OtherCharge := OtherCharge x |}.
Definition set_patient (v : option Patient.t) (x : t) : t :=
  {| pk := pk x; base := base x; patient := v;
    assigned_doctor := assigned_doctor x; admit_date := admit_date x;
    release_date := release_date x; day_spent := day_spent x;
    room_charge := room_charge x; medicine_cost := medicine_cost x;
    doctor_fee := doctor_fee x; other_charge := other_charge x;
    total := total x; patientId := patientId x; patientName := patientName x;
    assignedDoctorName := assignedDoctorName x; address := address x;
    mobile := mobile x; symptoms := symptoms x; admitDate := admitDate x;
    releaseDate := releaseDate x; daySpent := daySpent x;
    roomCharge := roomCharge x; medicineCost := medicineCost x;
    doctorFee := doctorFee x; OtherCharge := OtherCharge x |}.
Definition set_assigned_doctor (v : option Doctor.t) (x : t) : t :=
  {| pk := pk x; base := base x; patient := patient x; assigned_doctor := v;
    admit_date := admit_date x; release_date := release_date x;
    day_spent := day_spent x; room_charge := room_charge x;
    medicine_cost := medicine_cost x; doctor_fee := doctor_fee x;
    other_charge := other_charge x; total := total x;
    patientId := patientId x; patientName := patientName x;
    assignedDoctorName := assignedDoctorName x; address := address x;
    mobile := mobile x; symptoms := symptoms x; admitDate := admitDate x;
    releaseDate := releaseDate x; daySpent := daySpent x;
    roomCharge := roomCharge x; medicineCost := medicineCost x;
    doctorFee := doctorFee x; OtherCharge := OtherCharge x |}.
Definition set_patientId (v : option Z) (x : t) : t :=
  {| pk := pk x; base := base x; patient := patient x;
    assigned_doctor := assigned_doctor x; admit_date := admit_date x;
    release_date := release_date x; day_spent := day_spent x;
    room_charge := room_charge x; medicine_cost := medicine_cost x;
    doctor_fee := doctor_fee x; other_charge := other_charge x;
    total := total x; patientId := v; patientName := patientName x;
    assignedDoctorName := assignedDoctorName x; address := address x;
    mobile := mobile x; symptoms := symptoms x; admitDate := admitDate x;
    releaseDate := releaseDate x; daySpent := daySpent x;
    roomCharge := roomCharge x; medicineCost := medicineCost x;
    doctorFee := doctorFee x; OtherCharge := OtherCharge x |}.
Definition set_patientName (v : string) (x : t) : t :=
  {| pk := pk x; base := base x; patient := patient x;
    assigned_doctor := assigned_doctor x; admit_date := admit_date x;
    release_date := release_date x; day_spent := day_spent x;
    room_charge := room_charge x; medicine_cost := medicine_cost x;
    doctor_fee := doctor_fee x; other_charge := other_charge x;
    total := total x; patientId := patientId x; patientName := v;
    assignedDoctorName := assignedDoctorName x; address := address x;
    mobile := mobile x; symptoms := symptoms x; admitDate := admitDate x;
    releaseDate := releaseDate x; daySpent := daySpent x;
    roomCharge := roomCharge x; medicineCost := medicineCost x;
    doctorFee := doctorFee x; OtherCharge := OtherCharge x |}.
Definition set_address (v : string) (x : t) : t :=
  {| pk := pk x; base := base x; patient := patient x;
    assigned_doctor := assigned_doctor x; admit_date := admit_date x;
    release_date := release_date x; day_spent := day_spent x;
    room_charge := room_charge x; medicine_cost := medicine_cost x;
    doctor_fee := doctor_fee x; other_charge := other_charge x;
    total := total x; patientId := patientId x; patientName := patientName x;
    assignedDoctorName := assignedDoctorName x; address := v;
    mobile := mobile x; symptoms := symptoms x; admitDate := admitDate x;
    releaseDate := releaseDate x; daySpent := daySpent x;
    roomCharge := roomCharge x; medicineCost := medicineCost x;
    doctorFee := doctorFee x; OtherCharge := OtherCharge x |}.
Definition set_mobile (v : string) (x : t) : t :=
  {| pk := pk x; base := base x; patient := patient x;
    assigned_doctor := assigned_doctor x; admit_date := admit_date x;
    release_date := release_date x; day_spent := day_spent x;
    room_charge := room_charge x; medicine_cost := medicine_cost x;
    doctor_fee := doctor_fee x; other_charge := other_charge x;
    total := total x; patientId := patientId x; patientName := patientName x;
    assignedDoctorName := assignedDoctorName x; address := address x;
    mobile := v; symptoms := symptoms x; admitDate := admitDate x;
    releaseDate := releaseDate x; daySpent := daySpent x;
    roomCharge := roomCharge x; medicineCost := medicineCost x;
    doctorFee := doctorFee x; OtherCharge := OtherCharge x |}.
Definition set_symptoms (v : string) (x : t) : t :=
  {| pk := pk x; base := base x; patient := patient x;
    assigned_doctor := assigned_doctor x; admit_date := admit_date x;
    release_date := release_date x; day_spent := day_spent x;
    room_charge := room_charge x; medicine_cost := medicine_cost x;
    doctor_fee := doctor_fee x; other_charge := other_charge x;
    total := total x; patientId := patientId x; patientName := patientName x;
    assignedDoctorName := assignedDoctorName x; address := address x;
    mobile := mobile x; symptoms := v; admitDate := admitDate x;
    releaseDate := releaseDate x; daySpent := daySpent x;
    roomCharge := roomCharge x; medicineCost := medicineCost x;
    doctorFee := doctorFee x; OtherCharge := OtherCharge x |}.
Definition set_assignedDoctorName (v : string) (x : t) : t :=
  {| pk := pk x; base := base x; patient := patient x;
    assigned_doctor := assigned_doctor x; admit_date := admit_date x;
    release_date := release_date x; day_spent := day_spent x;
    room_charge := room_charge x; medicine_cost := medicine_cost x;
    doctor_fee := doctor_fee x; other_charge := other_charge x;
    total := total x; patientId := patientId x; patientName := patientName x;
    assignedDoctorName := v; address := address x; mobile := mobile x;
    symptoms := symptoms x; admitDate := admitDate x;
    releaseDate := releaseDate x; daySpent := daySpent x;
    roomCharge := roomCharge x; medicineCost := medicineCost x;
    doctorFee := doctorFee x; OtherCharge := OtherCharge x |}.
Definition set_admitDate (v : option Date.t) (x : t) : t :=
  {| pk := pk x; base := base x; patient := patient x;
    assigned_doctor := assigned_doctor x; admit_date := admit_date x;
    release_date := release_date x; day_spent := day_spent x;
    room_charge := room_charge x; medicine_cost := medicine_cost x;
    doctor_fee := doctor_fee x; other_charge := other_charge x;
    total := total x; patientId := patientId x; patientName := patientName x;
    assignedDoctorName := assignedDoctorName x; address := address x;
    mobile := mobile x; symptoms := symptoms x; admitDate := v;
    releaseDate := releaseDate x; daySpent := daySpent x;
    roomCharge := roomCharge x; medicineCost := medicineCost x;
    doctorFee := doctorFee x; OtherCharge := OtherCharge x |}.
Definition set_releaseDate (v : option Date.t) (x : t) : t :=
  {| pk := pk x; base := base x; patient := patient x;
    assigned_doctor := assigned_doctor x; admit_date := admit_date x;
    release_date := release_date x; day_spent := day_spent x;
    room_charge := room_charge x; medicine_cost := medicine_cost x;
    doctor_fee := doctor_fee x; other_charge := other_charge x;
    total := total x; patientId := patientId x; patientName := patientName x;
    assignedDoctorName := assignedDoctorName x; address := address x;
    mobile := mobile x; symptoms := symptoms x; admitDate := admitDate x;
    releaseDate := v; daySpent := daySpent x; roomCharge := roomCharge x;
    medicineCost := medicineCost x; doctorFee := doctorFee x;
    OtherCharge := OtherCharge x |}.
Definition set_daySpent (v : option Z) (x : t) : t :=
  {| pk := pk x; base := base x; patient := patient x;
    assigned_doctor := assigned_doctor x; admit_date := admit_date x;
    release_date := release_date x; day_spent := day_spent x;
    room_charge := room_charge x; medicine_cost := medicine_cost x;
    doctor_fee := doctor_fee x; other_charge := other_charge x;
    total := total x; patientId := patientId x; patientName := patientName x;
    assignedDoctorName := assignedDoctorName x; address := address x;
    mobile := mobile x; symptoms := symptoms x; admitDate := admitDate x;
    releaseDate := releaseDate x; daySpent := v; roomCharge := roomCharge x;
    medicineCost := medicineCost x; doctorFee := doctorFee x;
    OtherCharge := OtherCharge x |}.
Definition set_roomCharge (v : option Z) (x : t) : t :=
  {| pk := pk x; base := base x; patient := patient x;
    assigned_doctor := assigned_doctor x; admit_date := admit_date x;
    release_date := release_date x; day_spent := day_spent x;
    room_charge := room_charge x; medicine_cost := medicine_cost x;
    doctor_fee := doctor_fee x; other_charge := other_charge x;
    total := total x; patientId := patientId x; patientName := patientName x;
    assignedDoctorName := assignedDoctorName x; address := address x;
    mobile := mobile x; symptoms := symptoms x; admitDate := admitDate x;
    releaseDate := releaseDate x; daySpent := daySpent x; roomCharge := v;
    medicineCost := medicineCost x; doctorFee := doctorFee x;
    OtherCharge := OtherCharge x |}.
Definition set_medicineCost (v : option Z) (x : t) : t :=
  {| pk := pk x; base := base x; patient := patient x;
    assigned_doctor := assigned_doctor x; admit_date := admit_date x;
    release_date := release_date x; day_spent := day_spent x;
    room_charge := room_charge x; medicine_cost := medicine_cost x;
    doctor_fee := doctor_fee x; other_charge := other_charge x;
    total := total x; patientId := patientId x; patientName := patientName x;
    assignedDoctorName := assignedDoctorName x; address := address x;
    mobile := mobile x; symptoms := symptoms x; admitDate := admitDate x;
    releaseDate := releaseDate x; daySpent := daySpent x;
    roomCharge := roomCharge x; medicineCost := v; doctorFee := doctorFee x;
    OtherCharge := OtherCharge x |}.
Definition set_doctorFee (v : option Z) (x : t) : t :=
  {| pk := pk x; base := base x; patient := patient x;
    assigned_doctor := assigned_doctor x; admit_date := admit_date x;
    release_date := release_date x; day_spent := day_spent x;
    room_charge := room_charge x; medicine_cost := medicine_cost x;
    doctor_fee := doctor_fee x; other_charge := other_charge x;
    total := total x; patientId := patientId x; patientName := patientName x;
    assignedDoctorName := assignedDoctorName x; address := address x;
    mobile := mobile x; symptoms := symptoms x; admitDate := admitDate x;
    releaseDate := releaseDate x; daySpent := daySpent x;
    roomCharge := roomCharge x; medicineCost := medicineCost x;
    doctorFee := v; OtherCharge := OtherCharge x |}.
Definition set_OtherCharge (v : option Z) (x : t) : t :=
  {| pk := pk x; base := base x; patient := patient x;
    assigned_doctor := assigned_doctor x; admit_date := admit_date x;
    release_date := release_date x; day_spent := day_spent x;
    room_charge := room_charge x; medicine_cost := medicine_cost x;
    doctor_fee := doctor_fee x; other_charge := other_charge x;
    total := total x; patientId := patientId x; patientName := patientName x;
    assignedDoctorName := assignedDoctorName x; address := address x;
    mobile := mobile x; symptoms := symptoms x; admitDate := admitDate x;
    releaseDate := releaseDate x; daySpent := daySpent x;
    roomCharge := roomCharge x; medicineCost := medicineCost x;
    doctorFee := doctorFee x; OtherCharge := v |}.

#[global] Instance model : Model t := {|
  _get_pk_val := pk;
  _set_pk_val := set_pk;
  related_pks self :=
    match patient self with Some p => [Patient.pk p] | None => [] end ++
    match assigned_doctor self with Some d => [Doctor.pk d] | None => [] end;
  pre_save _ _ self := self;
  not_null _ := true |}.

(** The record type holds a decimal in each charge. On a record whose
    charge is not set, [int(self.room_charge)] raises [TypeError] after
    the assignments before it and before [Model.save]; such a record is
    outside the type, and what is stated about the four integer charges
    is stated for charges that are set. *)
Definition save : M (t * Store.t t) unit :=
  ((* Maintain backward compatibility *)
   self <- getself ;;
   match patient self with
   | Some p =>
       setattr (set_patientId (Some (User.id (Patient.user p)))) ;;
       setattr (set_patientName (Patient.get_name p)) ;;
       setattr (set_address (Patient.address p)) ;;
       setattr (set_mobile (Patient.mobile p)) ;;
       setattr (set_symptoms (Patient.symptoms p))
   | None => ret tt
   end ;;
   self <- getself ;;
   match assigned_doctor self with
   | Some d => setattr (set_assignedDoctorName (Doctor.get_name d))
   | None => ret tt
   end ;;
   self <- getself ;; setattr (set_admitDate (Some (admit_date self))) ;;
   self <- getself ;; setattr (set_releaseDate (Some (release_date self))) ;;
   self <- getself ;; setattr (set_daySpent (Some (day_spent self))) ;;
   self <- getself ;; setattr (set_roomCharge (Some (Decimal.__int__ (room_charge self)))) ;;
   self <- getself ;; setattr (set_medicineCost (Some (Decimal.__int__ (medicine_cost self)))) ;;
   self <- getself ;; setattr (set_doctorFee (Some (Decimal.__int__ (doctor_fee self)))) ;;
   self <- getself ;; setattr (set_OtherCharge (Some (Decimal.__int__ (other_charge self)))) ;;
   Model_save)%py.

(** [f"Discharge: {self.patient.get_name} on {self.release_date}"] *)
Definition __str__ : M t string :=
  (self <- get ;;
   pn <- match patient self with
         | Some p => ret (Patient.get_name p)
         | None => raise AttributeError
         end ;;
   ret ("Discharge: " +:+ pn +:+ " on " +:+ Date.isoformat (release_date self)))%py.

(** The declared [max_length] of the other mirrored [CharField]s. *)
Definition patientName_max_length : nat := 100.
Definition assignedDoctorName_max_length : nat := 100.
Definition address_max_length : nat := 200.
Definition mobile_max_length : nat := 20.
End PatientDischargeDetails.

(** ** [hospital/admin.py] *)

Module DoctorAdmin.
Definition get_name (obj : Doctor.t) : string := Doctor.get_name obj.
End DoctorAdmin.

Module PatientAdmin.
Definition get_name (obj : Patient.t) : string := Patient.get_name obj.

(** [obj.symptoms[:50] + '...' if len(obj.symptoms) > 50 else obj.symptoms] *)
Definition symptoms_short (obj : Patient.t) : string :=
  if (50 <? String.length (Patient.symptoms obj))%nat
  then py_slice_to 50 (Patient.symptoms obj) +:+ "..."
  else Patient.symptoms obj.
End PatientAdmin.

Module PatientDischargeDetailsAdmin.
Import PatientDischargeDetails.

(** The three returns of [calculate_total]:
    ['-'], ['✓ Correct: ${calculated}'] and
    ['⚠ Mismatch: ${total} (should be {calculated})']. *)
Inductive Display :=
  | Dash
  | Correct (calculated : Float.t)
  | Mismatch (total : Decimal.t) (calculated : Float.t).

Definition calculate_total : M (t * Store.t t) Display :=
  (obj <- getself ;;
   if truthy_pk (pk obj) then
     let calculated :=
       Float.add (Float.add (Float.add (Decimal.__float__ (room_charge obj))
                                       (Decimal.__float__ (medicine_cost obj)))
                            (Decimal.__float__ (doctor_fee obj)))
                 (Decimal.__float__ (other_charge obj)) in
     if Float.eqb calculated (Decimal.__float__ (total obj))
     then ret (Correct calculated)
     else ret (Mismatch (total obj) calculated)
   else ret Dash)%py.
End PatientDischargeDetailsAdmin.

(** ** [verify_fixes.py]

    The script runs against the whole database: the user table of
    [django.contrib.auth], the four tables of the application, the clock
    and the standard output. Every statement of the script is committed
    as it runs (Django's autocommit). *)

Module Table.
Record t (T : Type) := mk {
  rows : gmap Z T;     (* the table, by primary key *)
  seq : Z }.           (* the largest key handed out so far *)
Arguments mk {T} _ _.
Arguments rows {T} _.
Arguments seq {T} _.

Definition with_rows {T} (f : gmap Z T -> gmap Z T) (tb : t T) : t T :=
  mk (f (rows tb)) (seq tb).
End Table.

(** What the script writes: a line, or the line [TEST FAILED: {e}] of the
    exception handler, whose text is that of the exception. *)
Inductive Output (E : Type) :=
  | Line (s : string)
  | TestFailed (e : E).
Arguments Line {E} s.
Arguments TestFailed {E} e.

(** What stops the script: an exception of the models or the database, or
    a failed [assert]. *)
Inductive Error :=
  | Raised (e : Exception)
  | AssertionError (msg : string).

Module World.
Record t := mk {
  users : gmap string Z;                  (* auth_user: the id under each user name *)
  user_seq : Z;                           (* the largest user id handed out so far *)
  clock : nat -> DateTime.t * Date.t;     (* the successive readings of the clock:
                                             [timezone.now()] and [date.today()] *)
  ticks : nat;                            (* the number of readings taken *)
  doctors : Table.t Doctor.t;
  patients : Table.t Patient.t;
  appointments : Table.t Appointment.t;
  discharges : Table.t PatientDischargeDetails.t;
  stdout : list (Output Error) }.

Definition set_users (v : gmap string Z) (n : Z) (w : t) : t :=
  {| users := v; user_seq := n; clock := clock w; ticks := ticks w;
     doctors := doctors w; patients := patients w; appointments := appointments w;
     discharges := discharges w; stdout := stdout w |}.
Definition tick (w : t) : t :=
  {| users := users w; user_seq := user_seq w; clock := clock w; ticks := S (ticks w);
     doctors := doctors w; patients := patients w; appointments := appointments w;
     discharges := discharges w; stdout := stdout w |}.
Definition set_doctors (v : Table.t Doctor.t) (w : t) : t :=
  {| users := users w; user_seq := user_seq w; clock := clock w; ticks := ticks w;
     doctors := v; patients := patients w; appointments := appointments w;
     discharges := discharges w; stdout := stdout w |}.
Definition set_patients (v : Table.t Patient.t) (w : t) : t :=
  {| users := users w; user_seq := user_seq w; clock := clock w; ticks := ticks w;
     doctors := doctors w; patients := v; appointments := appointments w;
     discharges := discharges w; stdout := stdout w |}.
Definition set_appointments (v : Table.t Appointment.t) (w : t) : t :=
  {| users := users w; user_seq := user_seq w; clock := clock w; ticks := ticks w;
     doctors := doctors w; patients := patients w; appointments := v;
     discharges := discharges w; stdout := stdout w |}.
Definition set_discharges (v : Table.t PatientDischargeDetails.t) (w : t) : t :=
  {| users := users w; user_seq := user_seq w; clock := clock w; ticks := ticks w;
     doctors := doctors w; patients := patients w; appointments := appointments w;
     discharges := v; stdout := stdout w |}.
Definition set_stdout (v : list (Output Error)) (w : t) : t :=
  {| users := users w; user_seq := user_seq w; clock := clock w; ticks := ticks w;
     doctors := doctors w; patients := patients w; appointments := appointments w;
     discharges := discharges w; stdout := v |}.
End World.

(** Whether the reference [r] points at the row with key [k]. *)
Definition refers {T} (pk_of : T -> option Z) (r : option T) (k : Z) : bool :=
  match r with
  | Some x => bool_decide (pk_of x = Some k)
  | None => false
  end.

(** A foreign key is null or the key of a row of the table it points to. *)
Definition fk_valid {T} (pk_of : T -> option Z) (r : option T) (tb : Table.t T) : bool :=
  match r with
  | Some x =>
      match pk_of x with
      | Some k => bool_decide (is_Some (Table.rows tb !! k))
      | None => false
      end
  | None => true
  end.

(** The user of a profile exists, and no other row of the table is a
    profile of the same user ([OneToOneField]). *)
Definition one_to_one {T} (user_of : T -> User.t) (pk : option Z) (u : User.t)
    (users : gmap string Z) (tb : Table.t T) : bool :=
  bool_decide (map_Exists (fun _ id => id = User.id u) users) &&
  bool_decide (map_Forall (fun k row => Some k = pk \/ User.id (user_of row) <> User.id u)
                          (Table.rows tb)).

Module verify_fixes.
Inductive Outcome (A : Type) :=
  | Done (a : A)
  | Failed (e : Error).
Arguments Done {A} a.
Arguments Failed {A} e.

(** A piece of the script: it runs in a world and finishes or fails. *)
Definition Script (A : Type) : Type := World.t -> Outcome A * World.t.

Definition sret {A} (a : A) : Script A := fun w => (Done a, w).

Definition sbind {A B} (c : Script A) (k : A -> Script B) : Script B :=
  fun w => match c w with
           | (Done a, w') => k a w'
           | (Failed e, w') => (Failed e, w')
           end.

Declare Scope script_scope.
Delimit Scope script_scope with script.
Notation "x <- c ;; k" := (sbind c (fun x => k))
  (at level 100, c at next level, right associativity) : script_scope.
Notation "c ;; k" := (sbind c (fun _ => k))
  (at level 100, right associativity) : script_scope.

Definition print (line : string) : Script unit :=
  fun w => (Done tt, World.set_stdout (World.stdout w ++ [Line line]) w).

(** [assert c, msg] *)
Definition assert (c : bool) (msg : string) : Script unit :=
  fun w => if c then (Done tt, w) else (Failed (AssertionError msg), w).

(** [str(x)] for an optional integer. *)
Definition str_opt (x : option Z) : string :=
  match x with
  | Some n => pretty n
  | None => "None"
  end.

(** [timezone.now()] *)
Definition timezone_now : Script DateTime.t :=
  fun w => (Done (World.clock w (World.ticks w)).1, World.tick w).

(** [date.today()] *)
Definition date_today : Script Date.t :=
  fun w => (Done (World.clock w (World.ticks w)).2, World.tick w).

(** [User.objects.create_user(username=..., password=...)]: the user gets
    the next id and empty names; a user name already taken is rejected. *)
Definition create_user (username : string) : Script User.t :=
  fun w =>
    match World.users w !! username with
    | Some _ => (Failed (Raised IntegrityError), w)
    | None =>
        let id := World.user_seq w + 1 in
        (Done {| User.id := id; User.first_name := ""; User.last_name := "" |},
         World.set_users (<[username := id]> (World.users w)) id w)
    end.

(** [objects.create] of a model builds the object and saves it: [save]
    runs against the table, and the row is written unless a constraint of
    the database rejects it. *)
Definition objects_create {T} (table : World.t -> Table.t T)
    (set_table : Table.t T -> World.t -> World.t)
    (save : M (T * Store.t T) unit) (constraints : T -> World.t -> bool)
    (self : T) : Script T :=
  (today <- date_today ;;
   fun w =>
     match save (self, Store.mk (Table.rows (table w)) (Table.seq (table w)) today) with
     | (Ok _, (self', db')) =>
         if constraints self' w
         then (Done self', set_table (Table.mk (Store.rows db') (Store.seq db')) w)
         else (Failed (Raised IntegrityError), w)
     | (Raise e, _) => (Failed (Raised e), w)
     end)%script.

(** [str(obj)] through a [__str__] that may raise. *)
Definition str_of {T} (__str__ : M T string) (self : T) : Script string :=
  fun w =>
    match __str__ self with
    | (Ok s, _) => (Done s, w)
    | (Raise e, _) => (Failed (Raised e), w)
    end.

(** The fields of [BaseModel], from their defaults. *)
Definition BaseModel_defaults : Script BaseModel.t :=
  (created_at <- timezone_now ;;
   updated_at <- timezone_now ;;
   sret {| BaseModel.created_at := created_at; BaseModel.updated_at := updated_at;
           BaseModel.is_active := true |})%script.

(** An integer given for a [DecimalField]. *)
Definition decimal_of_int (n : Z) : Decimal.t :=
  {| Decimal.sign := n <? 0; Decimal.coefficient := Z.abs_N n; Decimal.exponent := 0 |}.

(** [Doctor.objects.create(user=..., address=..., mobile=...,
    department=..., status=...)]: the other fields take their defaults. *)
Definition Doctor_objects_create (user : User.t) (address mobile department : string)
    (status : bool) : Script Doctor.t :=
  (base <- BaseModel_defaults ;;
   objects_create World.doctors World.set_doctors Model_save
     (fun self w => one_to_one Doctor.user (Doctor.pk self) (Doctor.user self)
                               (World.users w) (World.doctors w))
     {| Doctor.pk := None; Doctor.base := base; Doctor.user := user;
        Doctor.profile_pic := None; Doctor.address := address;
        Doctor.mobile := mobile; Doctor.department := department;
        Doctor.status := status; Doctor.qualifications := None;
        Doctor.experience_years := 0;
        Doctor.consultation_fee := decimal_of_int 0 |})%script.

(** [Patient.objects.create(user=..., address=..., mobile=..., symptoms=...,
    assigned_doctor=..., status=...)] *)
Definition Patient_objects_create (user : User.t) (address mobile symptoms : string)
    (assigned_doctor : option Doctor.t) (status : bool) : Script Patient.t :=
  (base <- BaseModel_defaults ;;
   objects_create World.patients World.set_patients Patient.save
     (fun self w => one_to_one Patient.user (Patient.pk self) (Patient.user self)
                               (World.users w) (World.patients w) &&
                    fk_valid Doctor.pk (Patient.assigned_doctor self) (World.doctors w))
     {| Patient.pk := None; Patient.base := base; Patient.user := user;
        Patient.profile_pic := None; Patient.address := address;
        Patient.mobile := mobile; Patient.symptoms := symptoms;
        Patient.assigned_doctor := assigned_doctor; Patient.admit_date := None;
        Patient.status := status; Patient.blood_group := "";
        Patient.date_of_birth := None; Patient.emergency_contact := "";
        Patient.assignedDoctorId := None |})%script.

(** [Appointment.objects.create(doctor=..., patient=..., description=...,
    status=...)] *)
Definition Appointment_objects_create (doctor : option Doctor.t)
    (patient : option Patient.t) (description : string) (status : bool) :
    Script Appointment.t :=
  (base <- BaseModel_defaults ;;
   appointment_date <- timezone_now ;;
   objects_create World.appointments World.set_appointments Appointment.save
     (fun self w => fk_valid Patient.pk (Appointment.patient self) (World.patients w) &&
                    fk_valid Doctor.pk (Appointment.doctor self) (World.doctors w))
     {| Appointment.pk := None; Appointment.base := base;
        Appointment.patient := patient; Appointment.doctor := doctor;
        Appointment.appointment_date := Some appointment_date;
        Appointment.description := description; Appointment.status := status;
        Appointment.patientId := None; Appointment.doctorId := None;
        Appointment.patientName := ""; Appointment.doctorName := "";
        Appointment.appointmentDate := None |})%script.

(** [PatientDischargeDetails.objects.create(patient=..., assigned_doctor=...,
    admit_date=..., release_date=..., day_spent=..., room_charge=...,
    medicine_cost=..., doctor_fee=..., other_charge=..., total=...)] *)
Definition PatientDischargeDetails_objects_create (patient : option Patient.t)
    (assigned_doctor : option Doctor.t) (admit_date release_date : Date.t)
    (day_spent : Z) (room_charge medicine_cost doctor_fee other_charge total : Decimal.t) :
    Script PatientDischargeDetails.t :=
  (base <- BaseModel_defaults ;;
   objects_create World.discharges World.set_discharges PatientDischargeDetails.save
     (fun self w =>
        fk_valid Patient.pk (PatientDischargeDetails.patient self) (World.patients w) &&
        fk_valid Doctor.pk (PatientDischargeDetails.assigned_doctor self) (World.doctors w))
     {| PatientDischargeDetails.pk := None;
        PatientDischargeDetails.base := base;
        PatientDischargeDetails.patient := patient;
        PatientDischargeDetails.assigned_doctor := assigned_doctor;
        PatientDischargeDetails.admit_date := admit_date;
        PatientDischargeDetails.release_date := release_date;
        PatientDischargeDetails.day_spent := day_spent;
        PatientDischargeDetails.room_charge := room_charge;
        PatientDischargeDetails.medicine_cost := medicine_cost;
        PatientDischargeDetails.doctor_fee := doctor_fee;
        PatientDischargeDetails.other_charge := other_charge;
        PatientDischargeDetails.total := total;
        PatientDischargeDetails.patientId := None;
        PatientDischargeDetails.patientName := "";
        PatientDischargeDetails.assignedDoctorName := "";
        PatientDischargeDetails.address := "";
        PatientDischargeDetails.mobile := "";
        PatientDischargeDetails.symptoms := "";
        PatientDischargeDetails.admitDate := None;
        PatientDischargeDetails.releaseDate := None;
        PatientDischargeDetails.daySpent := None;
        PatientDischargeDetails.roomCharge := None;
        PatientDischargeDetails.medicineCost := None;
        PatientDischargeDetails.doctorFee := None;
        PatientDischargeDetails.OtherCharge := None |})%script.

(** *** Deletion, by the [on_delete] policy each reference declares

    [Appointment.patient], [Appointment.doctor] and
    [PatientDischargeDetails.patient] are [CASCADE];
    [Patient.assigned_doctor] and [PatientDischargeDetails.assigned_doctor]
    are [SET_NULL], which empties the column and nothing else: no [save]
    runs; the [user] of a doctor or of a patient is [CASCADE]. *)

Definition delete_appointment_row (k : Z) (w : World.t) : World.t :=
  World.set_appointments (Table.with_rows (delete k) (World.appointments w)) w.

Definition delete_discharge_row (k : Z) (w : World.t) : World.t :=
  World.set_discharges (Table.with_rows (delete k) (World.discharges w)) w.

Definition delete_patient_row (k : Z) (w : World.t) : World.t :=
  let w := World.set_appointments
             (Table.with_rows
                (filter (fun kv => refers Patient.pk (Appointment.patient kv.2) k = false))
                (World.appointments w)) w in
  let w := World.set_discharges
             (Table.with_rows
                (filter (fun kv => refers Patient.pk (PatientDischargeDetails.patient kv.2) k
                                   = false))
                (World.discharges w)) w in
  World.set_patients (Table.with_rows (delete k) (World.patients w)) w.

Definition delete_doctor_row (k : Z) (w : World.t) : World.t :=
  let w := World.set_appointments
             (Table.with_rows
                (filter (fun kv => refers Doctor.pk (Appointment.doctor kv.2) k = false))
                (World.appointments w)) w in
  let w := World.set_patients
             (Table.with_rows
                (fmap (fun p => if refers Doctor.pk (Patient.assigned_doctor p) k
                                then Patient.set_assigned_doctor None p
                                else p))
                (World.patients w)) w in
  let w := World.set_discharges
             (Table.with_rows
                (fmap (fun d => if refers Doctor.pk
                                     (PatientDischargeDetails.assigned_doctor d) k
                                then PatientDischargeDetails.set_assigned_doctor None d
                                else d))
                (World.discharges w)) w in
  World.set_doctors (Table.with_rows (delete k) (World.doctors w)) w.

Definition delete_user_rows (id : Z) (w : World.t) : World.t :=
  let doctor_keys :=
    (map_to_list (filter (fun kv => User.id (Doctor.user kv.2) = id)
                         (Table.rows (World.doctors w)))).*1 in
  let w := foldr delete_doctor_row w doctor_keys in
  let patient_keys :=
    (map_to_list (filter (fun kv => User.id (Patient.user kv.2) = id)
                         (Table.rows (World.patients w)))).*1 in
  let w := foldr delete_patient_row w patient_keys in
  World.set_users (filter (fun kv => kv.2 <> id) (World.users w)) (World.user_seq w) w.

(** [obj.delete()]: an object without key cannot be deleted ([ValueError]
    since Django 4.1). *)
Definition delete (pk : option Z) (delete_row : Z -> World.t -> World.t) : Script unit :=
  fun w =>
    match pk with
    | Some k => (Done tt, delete_row k w)
    | None => (Failed (Raised ValueError), w)
    end.

Definition verify_relationships : Script unit :=
  (print "Verifying relationships..." ;;

   (* 1. Create Doctor *)
   print "Creating Doctor..." ;;
   doc_user <- create_user "testdoc" ;;
   doctor <- Doctor_objects_create doc_user "123 Doc St" "1234567890" "Cardiologist" true ;;
   print ("Doctor created: " +:+ Doctor.__str__ doctor) ;;

   (* 2. Create Patient and assign Doctor via FK *)
   print "Creating Patient..." ;;
   pat_user <- create_user "testpat" ;;
   patient <- Patient_objects_create pat_user "456 Pat St" "0987654321" "Fever"
                (Some doctor) true ;;
   print ("Patient created: " +:+ Patient.__str__ patient) ;;

   (* Verify Legacy Field Sync *)
   print ("Patient assignedDoctorId (Legacy): "
          +:+ str_opt (Patient.assignedDoctorId patient)) ;;
   print ("Doctor User ID: " +:+ pretty (User.id doc_user)) ;;
   assert (bool_decide (Patient.assignedDoctorId patient = Some (User.id doc_user)))
     "Patient assignedDoctorId not synced!" ;;
   print "PASS: Patient assignedDoctorId synced correctly." ;;

   (* 3. Create Appointment via FK *)
   print "Creating Appointment..." ;;
   appointment <- Appointment_objects_create (Some doctor) (Some patient) "Checkup" true ;;
   s <- str_of Appointment.__str__ appointment ;;
   print ("Appointment created: " +:+ s) ;;

   (* Verify Legacy Fields Sync *)
   print ("Appointment doctorId (Legacy): " +:+ str_opt (Appointment.doctorId appointment)) ;;
   print ("Appointment patientId (Legacy): "
          +:+ str_opt (Appointment.patientId appointment)) ;;
   assert (bool_decide (Appointment.doctorId appointment = Some (User.id doc_user)))
     "Appointment doctorId not synced!" ;;
   assert (bool_decide (Appointment.patientId appointment = Some (User.id pat_user)))
     "Appointment patientId not synced!" ;;
   print "PASS: Appointment legacy fields synced correctly." ;;

   (* 4. Create Discharge Details via FK *)
   print "Creating Discharge Details..." ;;
   admit_date <- date_today ;;
   release_date <- date_today ;;
   discharge <- PatientDischargeDetails_objects_create (Some patient) (Some doctor)
                  admit_date release_date 1
                  (decimal_of_int 100) (decimal_of_int 50) (decimal_of_int 200)
                  (decimal_of_int 10) (decimal_of_int 360) ;;
   s <- str_of PatientDischargeDetails.__str__ discharge ;;
   print ("Discharge created: " +:+ s) ;;

   (* Verify Legacy Fields Sync *)
   print ("Discharge patientId (Legacy): "
          +:+ str_opt (PatientDischargeDetails.patientId discharge)) ;;
   print ("Discharge assignedDoctorName (Legacy): "
          +:+ PatientDischargeDetails.assignedDoctorName discharge) ;;
   assert (bool_decide (PatientDischargeDetails.patientId discharge
                        = Some (User.id pat_user)))
     "Discharge patientId not synced!" ;;
   assert (bool_decide (PatientDischargeDetails.assignedDoctorName discharge
                        = Doctor.get_name doctor))
     "Discharge assignedDoctorName not synced!" ;;
   print "PASS: Discharge legacy fields synced correctly." ;;

   (* Cleanup *)
   delete (PatientDischargeDetails.pk discharge) delete_discharge_row ;;
   delete (Appointment.pk appointment) delete_appointment_row ;;
   delete (Patient.pk patient) delete_patient_row ;;
   delete (Doctor.pk doctor) delete_doctor_row ;;
   delete (Some (User.id pat_user)) delete_user_rows ;;
   delete (Some (User.id doc_user)) delete_user_rows ;;
   print "Cleanup complete.")%script.

(** The [__main__] block; the result is the exit status, 1 after [exit(1)]. *)
Definition main : World.t -> Z * World.t :=
  fun w =>
    match verify_relationships w with
    | (Done _, w') =>
        (0, World.set_stdout (World.stdout w' ++ [Line "ALL TESTS PASSED"]) w')
    | (Failed e, w') =>
        (1, World.set_stdout (World.stdout w' ++ [TestFailed e]) w')
    end.
End verify_fixes.

(** The sequences are ahead of every key in use: no row, and no reference
    of a row, carries a key that has not been handed out yet. *)
Definition key_le {T} (pk_of : T -> option Z) (r : option T) (n : Z) : Prop :=
  match r with
  | Some x => match pk_of x with Some k => k <= n | None => True end
  | None => True
  end.

Definition sequences_ahead (w : World.t) : Prop :=
  map_Forall (fun _ id => id <= World.user_seq w) (World.users w) /\
  map_Forall (fun k d => k <= Table.seq (World.doctors w) /\
                         User.id (Doctor.user d) <= World.user_seq w)
             (Table.rows (World.doctors w)) /\
  map_Forall (fun k p => k <= Table.seq (World.patients w) /\
                         User.id (Patient.user p) <= World.user_seq w /\
                         key_le Doctor.pk (Patient.assigned_doctor p)
                                (Table.seq (World.doctors w)))
             (Table.rows (World.patients w)) /\
  map_Forall (fun k a => k <= Table.seq (World.appointments w) /\
                         key_le Patient.pk (Appointment.patient a)
                                (Table.seq (World.patients w)) /\
                         key_le Doctor.pk (Appointment.doctor a)
                                (Table.seq (World.doctors w)))
             (Table.rows (World.appointments w)) /\
  map_Forall (fun k d => k <= Table.seq (World.discharges w) /\
                         key_le Patient.pk (PatientDischargeDetails.patient d)
                                (Table.seq (World.patients w)) /\
                         key_le Doctor.pk (PatientDischargeDetails.assigned_doctor d)
                                (Table.seq (World.doctors w)))
             (Table.rows (World.discharges w)).

(** ** Derived definitions used by the statements *)

(** The assignments each [save] makes before it calls [super().save()],
    read as a function on [self]. *)
Definition patient_sync (self : Patient.t) : Patient.t :=
  match Patient.assigned_doctor self with
  | Some d => Patient.set_assignedDoctorId (Some (User.id (Doctor.user d))) self
  | None => self
  end.

Definition appointment_sync (self : Appointment.t) : Appointment.t :=
  let self :=
    match Appointment.patient self with
    | Some p =>
        Appointment.set_patientName (Patient.get_name p)
          (Appointment.set_patientId (Some (User.id (Patient.user p))) self)
    | None => self
    end in
  let self :=
    match Appointment.doctor self with
    | Some d =>
        Appointment.set_doctorName (Doctor.get_name d)
          (Appointment.set_doctorId (Some (User.id (Doctor.user d))) self)
    | None => self
    end in
  match Appointment.appointment_date self with
  | Some dt => Appointment.set_appointmentDate (Some (DateTime.date dt)) self
  | None => self
  end.

Definition discharge_sync (self : PatientDischargeDetails.t) : PatientDischargeDetails.t :=
  let self :=
    match PatientDischargeDetails.patient self with
    | Some p =>
        PatientDischargeDetails.set_symptoms (Patient.symptoms p)
          (PatientDischargeDetails.set_mobile (Patient.mobile p)
             (PatientDischargeDetails.set_address (Patient.address p)
                (PatientDischargeDetails.set_patientName (Patient.get_name p)
                   (PatientDischargeDetails.set_patientId
                      (Some (User.id (Patient.user p))) self))))
    | None => self
    end in
  let self :=
    match PatientDischargeDetails.assigned_doctor self with
    | Some d => PatientDischargeDetails.set_assignedDoctorName (Doctor.get_name d) self
    | None => self
    end in
  let self := PatientDischargeDetails.set_admitDate
                (Some (PatientDischargeDetails.admit_date self)) self in
  let self := PatientDischargeDetails.set_releaseDate
                (Some (PatientDischargeDetails.release_date self)) self in
  let self := PatientDischargeDetails.set_daySpent
                (Some (PatientDischargeDetails.day_spent self)) self in
  let self := PatientDischargeDetails.set_roomCharge
                (Some (Decimal.__int__ (PatientDischargeDetails.room_charge self))) self in
  let self := PatientDischargeDetails.set_medicineCost
                (Some (Decimal.__int__ (PatientDischargeDetails.medicine_cost self))) self in
  let self := PatientDischargeDetails.set_doctorFee
                (Some (Decimal.__int__ (PatientDischargeDetails.doctor_fee self))) self in
  PatientDischargeDetails.set_OtherCharge
    (Some (Decimal.__int__ (PatientDischargeDetails.other_charge self))) self.




(** Truncation of a rational toward zero: the floor of a non-negative
    number, the ceiling of a negative one. *)
Definition truncate (q : Q) : Z :=
  if Qle_bool 0 q then Qfloor q else Qceiling q.

(** Rounding half to even (banker's rounding), for comparison. *)
Definition round_half_even (q : Q) : Z :=
  let f := Qfloor q in
  match Qcompare (q - inject_Z f) (1 # 2) with
  | Lt => f
  | Gt => f + 1
  | Eq => if Z.even f then f else f + 1
  end.

(** The expected total of the specification: the exact decimal sum of the
    four charges. *)
Definition expected_decimal (obj : PatientDischargeDetails.t) : Decimal.t :=
  Decimal.add
    (Decimal.add
       (Decimal.add (PatientDischargeDetails.room_charge obj)
                    (PatientDischargeDetails.medicine_cost obj))
       (PatientDischargeDetails.doctor_fee obj))
    (PatientDischargeDetails.other_charge obj).

(** The sum [calculate_total] computes, in binary floating point. *)
Definition calculated_float (obj : PatientDischargeDetails.t) : Float.t :=
  Float.add
    (Float.add
       (Float.add (Decimal.__float__ (PatientDischargeDetails.room_charge obj))
                  (Decimal.__float__ (PatientDischargeDetails.medicine_cost obj)))
       (Decimal.__float__ (PatientDischargeDetails.doctor_fee obj)))
    (Decimal.__float__ (PatientDischargeDetails.other_charge obj)).

(** A related object, when set, has been saved. *)
Definition saved {T} (pk_of : T -> option Z) (r : option T) : Prop :=
  match r with
  | Some x => is_Some (pk_of x)
  | None => True
  end.

(** The laws of the accessors: the key is a field of its own, and neither
    it nor the [pre_save] columns are references or NOT NULL columns that
    an update could empty. *)
Class ModelLaws (T : Type) `{Model T} := {
  get_set_pk : forall (v : option Z) (x : T), _get_pk_val (_set_pk_val v x) = v;
  set_get_pk : forall (k : option Z) (x : T), _get_pk_val x = k -> _set_pk_val k x = x;
  pre_save_update : forall (today : Date.t) (x : T), pre_save false today x = x;
  related_pks_set_pk : forall (v : option Z) (x : T),
    related_pks (_set_pk_val v x) = related_pks x;
  related_pks_pre_save : forall (b : bool) (today : Date.t) (x : T),
    related_pks (pre_save b today x) = related_pks x;
  not_null_set_pk : forall (v : option Z) (x : T),
    not_null (_set_pk_val v x) = not_null x }.

(** ** The scenario of [verify_fixes.py] and of the specification

    Doctor D (identity 7, name "A B"), a patient assigned to D, an
    appointment of the two, and a discharge record with charges
    100.00, 50.00, 200.00 and 10.00. *)

Definition epoch : DateTime.t :=
  {| DateTime.year := 2024; DateTime.month := 3; DateTime.day := 9;
     DateTime.hour := 14; DateTime.minute := 30; DateTime.second := 5;
     DateTime.microsecond := 0; DateTime.utcoffset := Some 0 |}.

Definition base0 : BaseModel.t :=
  {| BaseModel.created_at := epoch; BaseModel.updated_at := epoch;
     BaseModel.is_active := true |}.

Definition doc_user : User.t :=
  {| User.id := 7; User.first_name := "A"; User.last_name := "B" |}.

Definition pat_user : User.t :=
  {| User.id := 8; User.first_name := "Test"; User.last_name := "Pat" |}.

Definition doctor0 : Doctor.t :=
  {| Doctor.pk := Some 1; Doctor.base := base0; Doctor.user := doc_user;
     Doctor.profile_pic := None; Doctor.address := "123 Doc St";
     Doctor.mobile := "1234567890"; Doctor.department := "Cardiologist";
     Doctor.status := true; Doctor.qualifications := None;
     Doctor.experience_years := 0; Doctor.consultation_fee := Decimal.of_cents 0 |}.

(** [Patient(user=pat_user, ..., assigned_doctor=doctor)], not saved yet. *)
Definition patient_new (d : option Doctor.t) : Patient.t :=
  {| Patient.pk := None; Patient.base := base0; Patient.user := pat_user;
     Patient.profile_pic := None; Patient.address := "456 Pat St";
     Patient.mobile := "0987654321"; Patient.symptoms := "Fever";
     Patient.assigned_doctor := d; Patient.admit_date := None;
     Patient.status := true; Patient.blood_group := "";
     Patient.date_of_birth := None; Patient.emergency_contact := "";
     Patient.assignedDoctorId := None |}.

Definition empty_store {T} : Store.t T :=
  {| Store.rows := ∅; Store.seq := 0; Store.today := DateTime.date epoch |}.

(** The state a method leaves behind. *)
Definition self_after {T St A} (r : Result A * (T * St)) : T := fst (snd r).
Definition store_after {T St A} (r : Result A * (T * St)) : St := snd (snd r).

(** The patient of the scenario, once saved. *)
Definition patient0 : Patient.t :=
  Eval vm_compute in self_after (Patient.save (patient_new (Some doctor0), empty_store)).

Definition appointment_new (p : option Patient.t) (d : option Doctor.t)
    (dt : option DateTime.t) : Appointment.t :=
  {| Appointment.pk := None; Appointment.base := base0;
     Appointment.patient := p; Appointment.doctor := d;
     Appointment.appointment_date := dt;
     Appointment.description := "Checkup"; Appointment.status := true;
     Appointment.patientId := None; Appointment.doctorId := None;
     Appointment.patientName := ""; Appointment.doctorName := "";
     Appointment.appointmentDate := None |}.

Definition discharge_new (p : option Patient.t) (d : option Doctor.t)
    (room medicine fee other total : Decimal.t) : PatientDischargeDetails.t :=
  {| PatientDischargeDetails.pk := None;
     PatientDischargeDetails.base := base0;
     PatientDischargeDetails.patient := p;
     PatientDischargeDetails.assigned_doctor := d;
     PatientDischargeDetails.admit_date := DateTime.date epoch;
     PatientDischargeDetails.release_date := DateTime.date epoch;
     PatientDischargeDetails.day_spent := 1;
     PatientDischargeDetails.room_charge := room;
     PatientDischargeDetails.medicine_cost := medicine;
     PatientDischargeDetails.doctor_fee := fee;
     PatientDischargeDetails.other_charge := other;
     PatientDischargeDetails.total := total;
     PatientDischargeDetails.patientId := None;
     PatientDischargeDetails.patientName := "";
     PatientDischargeDetails.assignedDoctorName := "";
     PatientDischargeDetails.address := "";
     PatientDischargeDetails.mobile := "";
     PatientDischargeDetails.symptoms := "";
     PatientDischargeDetails.admitDate := None;
     PatientDischargeDetails.releaseDate := None;
     PatientDischargeDetails.daySpent := None;
     PatientDischargeDetails.roomCharge := None;
     PatientDischargeDetails.medicineCost := None;
     PatientDischargeDetails.doctorFee := None;
     PatientDischargeDetails.OtherCharge := None |}.

(** The appointment of the scenario, once saved. *)
Definition appointment0 : Appointment.t :=
  Eval vm_compute in
    self_after (Appointment.save
                  (appointment_new (Some patient0) (Some doctor0) (Some epoch),
                   empty_store)).

(** The discharge record of the scenario, with a stated total, once saved. *)
Definition discharge0 (total : Decimal.t) : PatientDischargeDetails.t :=
  self_after (PatientDischargeDetails.save
                (discharge_new (Some patient0) (Some doctor0)
                   (Decimal.of_cents 10000) (Decimal.of_cents 5000)
                   (Decimal.of_cents 20000) (Decimal.of_cents 1000) total,
                 empty_store)).

(** An appointment whose timestamp has been cleared: it still carries the
    legacy date of an earlier save. *)
Definition appointment_stale : Appointment.t :=
  Appointment.set_appointmentDate
    (Some {| Date.year := 2020; Date.month := 1; Date.day := 1 |})
    (appointment_new (Some patient0) (Some doctor0) None).

(** A discharge record whose charges have a fractional part:
    100.75, 50.50, 200.25 and 10.99. *)
Definition discharge_fractional : PatientDischargeDetails.t :=
  discharge_new (Some patient0) (Some doctor0)
    (Decimal.of_cents 10075) (Decimal.of_cents 5050)
    (Decimal.of_cents 20025) (Decimal.of_cents 1099) (Decimal.of_cents 36249).

(** The fractional discharge record, once saved. *)
Definition discharge_fractional_saved : PatientDischargeDetails.t :=
  Eval vm_compute in
    self_after (PatientDischargeDetails.save (discharge_fractional, empty_store)).


Definition appointment_no_patient : Appointment.t :=
  Appointment.set_patient None appointment0.

Definition appointment_no_doctor : Appointment.t :=
  Appointment.set_doctor None appointment0.


Definition discharge_no_patient : PatientDischargeDetails.t :=
  PatientDischargeDetails.set_patient None discharge_fractional_saved.

Definition discharge_no_doctor : PatientDischargeDetails.t :=
  PatientDischargeDetails.set_assigned_doctor None discharge_fractional_saved.

(** A patient whose symptoms text has 501 characters, and a discharge
    record for that patient. *)
Definition long_symptoms : string :=
  Eval vm_compute in String.concat "" (replicate 501 "x").

Definition patient_long : Patient.t := Patient.set_symptoms long_symptoms patient0.

Definition discharge_long : PatientDischargeDetails.t :=
  discharge_new (Some patient_long) (Some doctor0)
    (Decimal.of_cents 10000) (Decimal.of_cents 5000)
    (Decimal.of_cents 20000) (Decimal.of_cents 1000) (Decimal.of_cents 36000).

(** A saved discharge record with charges 0.10, 0.20, 0.00 and 0.00 and
    the stated total 0.30. *)
Definition discharge_drift : PatientDischargeDetails.t :=
  PatientDischargeDetails.set_pk (Some 1)
    (discharge_new (Some patient0) (Some doctor0)
       (Decimal.of_cents 10) (Decimal.of_cents 20)
       (Decimal.of_cents 0) (Decimal.of_cents 0) (Decimal.of_cents 30)).

(** A patient born on 29 February 2000. *)
Definition patient_leap : Patient.t :=
  Patient.set_date_of_birth
    (Some {| Date.year := 2000; Date.month := 2; Date.day := 29 |}) patient0.

(** A doctor whose first and last names have 60 and 40 characters. *)
Definition long_first_name : string :=
  Eval vm_compute in String.concat "" (replicate 60 "x").

Definition long_last_name : string :=
  Eval vm_compute in String.concat "" (replicate 40 "y").

Definition doctor_long_name : Doctor.t :=
  {| Doctor.pk := Some 2; Doctor.base := base0;
     Doctor.user :=
       {| User.id := 9;
          User.first_name := long_first_name;
          User.last_name := long_last_name |};
     Doctor.profile_pic := None; Doctor.address := "123 Doc St";
     Doctor.mobile := "1234567890"; Doctor.department := "Cardiologist";
     Doctor.status := true; Doctor.qualifications := None;
     Doctor.experience_years := 0; Doctor.consultation_fee := Decimal.of_cents 0 |}.

(** A clock that stands still, and two databases for [verify_fixes.py]:
    an empty one, and one where the user name [testpat] is taken. *)
Definition clock0 : nat -> DateTime.t * Date.t :=
  fun _ => (epoch, DateTime.date epoch).

Definition world_empty : World.t :=
  {| World.users := ∅; World.user_seq := 0; World.clock := clock0; World.ticks := 0;
     World.doctors := Table.mk ∅ 0; World.patients := Table.mk ∅ 0;
     World.appointments := Table.mk ∅ 0; World.discharges := Table.mk ∅ 0;
     World.stdout := [] |}.

Definition world_testpat_taken : World.t :=
  World.set_users {["testpat" := 1]} 1 world_empty.

(** A database with doctor D and the patient assigned to D. *)
Definition world_assigned : World.t :=
  World.set_patients (Table.mk {[1 := patient0]} 1)
    (World.set_doctors (Table.mk {[1 := doctor0]} 1)
       (World.set_users {["doc" := 7; "pat" := 8]} 8 world_empty)).

(** ** [Model.save] *)

Section ModelSave.
Context {T : Type} `{Model T}.

Lemma Model_save_raises_unsaved (self : T) (db : Store.t T) :
  forallb (fun k => bool_decide (is_Some k)) (related_pks self) = false ->
  Model_save (self, db) = (Raise ValueError, (self, db)).
Proof.
  intros Hrel. unfold Model_save, bind, getself, raise. cbn.
  rewrite Hrel. reflexivity.
Qed.

Lemma Model_save_raises_null (self : T) (db : Store.t T) :
  forallb (fun k => bool_decide (is_Some k)) (related_pks self) = true ->
  not_null (pre_save (inserting self db) (Store.today db) self) = false ->
  Model_save (self, db) =
    (Raise IntegrityError, (pre_save (inserting self db) (Store.today db) self, db)).
Proof.
  intros Hrel Hnull. unfold Model_save, bind, getself, raise, get, put. cbn.
  rewrite Hrel. cbn. fold (inserting self db). rewrite Hnull. reflexivity.
Qed.

Lemma Model_save_update (self : T) (db : Store.t T) (k : Z) :
  forallb (fun k => bool_decide (is_Some k)) (related_pks self) = true ->
  let self' := pre_save (inserting self db) (Store.today db) self in
  not_null self' = true ->
  _get_pk_val self' = Some k ->
  Model_save (self, db) =
    (Ok tt, (self', Store.mk (<[k := self']> (Store.rows db))
                             (Z.max (Store.seq db) k) (Store.today db))).
Proof.
  intros Hrel self' Hnull Hpk. unfold Model_save, bind, getself, raise, get, put. cbn.
  rewrite Hrel. cbn. fold (inserting self db). fold self'.
  rewrite Hnull, Hpk. reflexivity.
Qed.

Lemma Model_save_insert (self : T) (db : Store.t T) :
  forallb (fun k => bool_decide (is_Some k)) (related_pks self) = true ->
  let self' := pre_save (inserting self db) (Store.today db) self in
  not_null self' = true ->
  _get_pk_val self' = None ->
  let k := Store.seq db + 1 in
  Model_save (self, db) =
    (Ok tt, (_set_pk_val (Some k) self',
             Store.mk (<[k := _set_pk_val (Some k) self']> (Store.rows db))
                      k (Store.today db))).
Proof.
  intros Hrel self' Hnull Hpk k. unfold Model_save, bind, getself, raise, get, put. cbn.
  rewrite Hrel. cbn. fold (inserting self db). fold self'.
  rewrite Hnull, Hpk. reflexivity.
Qed.

(** A successful [Model.save] went through one of the two write paths. *)
Lemma Model_save_inv (self : T) (db : Store.t T) (u : unit) (s' : T * Store.t T) :
  Model_save (self, db) = (Ok u, s') ->
  let self' := pre_save (inserting self db) (Store.today db) self in
  forallb (fun k => bool_decide (is_Some k)) (related_pks self) = true /\
  not_null self' = true /\
  ((exists k, _get_pk_val self' = Some k /\
      s' = (self', Store.mk (<[k := self']> (Store.rows db))
                            (Z.max (Store.seq db) k) (Store.today db)))
   \/ (_get_pk_val self' = None /\
       s' = (_set_pk_val (Some (Store.seq db + 1)) self',
             Store.mk (<[Store.seq db + 1 := _set_pk_val (Some (Store.seq db + 1)) self']>
                         (Store.rows db))
                      (Store.seq db + 1) (Store.today db)))).
Proof.
  intros Hs self'.
  destruct (forallb (fun k => bool_decide (is_Some k)) (related_pks self)) eqn:Hrel.
  2: { rewrite Model_save_raises_unsaved in Hs by assumption. discriminate. }
  destruct (not_null self') eqn:Hnull.
  2: { rewrite Model_save_raises_null in Hs by assumption. discriminate. }
  split; [reflexivity | split; [reflexivity |]].
  destruct (_get_pk_val self') as [k|] eqn:Hpk.
  - left. exists k. split; [reflexivity |].
    rewrite (Model_save_update self db k Hrel Hnull Hpk) in Hs.
    inversion Hs. reflexivity.
  - right. split; [reflexivity |].
    rewrite (Model_save_insert self db Hrel Hnull Hpk) in Hs.
    inversion Hs. reflexivity.
Qed.

(** After a successful [Model.save] the record has a key, its row is the
    record, and nothing but the key and the [pre_save] columns changed. *)
Lemma Model_save_ok_inv `{!ModelLaws T} (self self' : T) (db db' : Store.t T) (u : unit) :
  Model_save (self, db) = (Ok u, (self', db')) ->
  exists k,
    _get_pk_val self' = Some k /\
    Store.rows db' !! k = Some self' /\
    self' = _set_pk_val (Some k) (pre_save (inserting self db) (Store.today db) self) /\
    forallb (fun k => bool_decide (is_Some k)) (related_pks self) = true /\
    not_null (pre_save (inserting self db) (Store.today db) self) = true /\
    k <= Store.seq db' /\ Store.today db' = Store.today db.
Proof.
  intros Hs. apply Model_save_inv in Hs. cbn zeta in Hs.
  destruct Hs as (Hrel & Hnull & [(k & Hpk & Heq) | (Hpk & Heq)]);
    inversion Heq; subst self' db'; clear Heq.
  - exists k. cbn [Store.rows Store.seq Store.today]. rewrite lookup_insert_eq.
    rewrite (set_get_pk (Some k) _ Hpk). repeat split; auto; lia.
  - exists (Store.seq db + 1). cbn [Store.rows Store.seq Store.today].
    rewrite lookup_insert_eq, get_set_pk. repeat split; auto; lia.
Qed.

(** Saving again what [Model.save] has just written changes nothing. *)
Lemma Model_save_again `{!ModelLaws T} (self self' : T) (db db' : Store.t T) (u : unit) :
  Model_save (self, db) = (Ok u, (self', db')) ->
  Model_save (self', db') = (Ok tt, (self', db')).
Proof.
  intros Hs. apply Model_save_ok_inv in Hs.
  destruct Hs as (k & Hpk & Hrow & Heq & Hrel & Hnull & Hseq & _).
  assert (Hins : inserting self' db' = false).
  { unfold inserting. rewrite Hpk. apply bool_decide_eq_false. congruence. }
  assert (Hrel' : forallb (fun k => bool_decide (is_Some k)) (related_pks self') = true).
  { rewrite Heq, related_pks_set_pk, related_pks_pre_save. exact Hrel. }
  assert (Hnull' : not_null self' = true).
  { rewrite Heq, not_null_set_pk. exact Hnull. }
  rewrite (Model_save_update self' db' k Hrel');
    rewrite Hins, pre_save_update; try assumption.
  rewrite (insert_id _ _ _ Hrow), Z.max_l by lia.
  destruct db'; reflexivity.
Qed.

(** Whatever the outcome, [Model.save] leaves [self] as it was up to its
    [pre_save] columns and its key. *)
Lemma Model_save_self_after (self : T) (db : Store.t T) :
  let self' := pre_save (inserting self db) (Store.today db) self in
  self_after (Model_save (self, db)) = self \/
  self_after (Model_save (self, db)) = self' \/
  self_after (Model_save (self, db)) = _set_pk_val (Some (Store.seq db + 1)) self'.
Proof.
  intros self'.
  destruct (forallb (fun k => bool_decide (is_Some k)) (related_pks self)) eqn:Hrel.
  2: { left. rewrite Model_save_raises_unsaved by assumption. reflexivity. }
  destruct (not_null self') eqn:Hnull.
  2: { right. left. rewrite Model_save_raises_null by assumption. reflexivity. }
  destruct (_get_pk_val self') as [k|] eqn:Hpk.
  - right. left. rewrite (Model_save_update self db k Hrel Hnull Hpk). reflexivity.
  - right. right. rewrite (Model_save_insert self db Hrel Hnull Hpk). reflexivity.
Qed.

End ModelSave.

(** ** Each [save] is its assignments followed by [Model.save] *)

#[global] Instance patient_laws : ModelLaws Patient.t.
Proof.
  split.
  - intros v x. reflexivity.
  - intros k [] Hk. cbn in Hk. subst k. reflexivity.
  - intros today x. reflexivity.
  - intros v x. reflexivity.
  - intros [] today x; reflexivity.
  - intros v x. reflexivity.
Qed.

#[global] Instance appointment_laws : ModelLaws Appointment.t.
Proof.
  split.
  - intros v x. reflexivity.
  - intros k [] Hk. cbn in Hk. subst k. reflexivity.
  - intros today x. reflexivity.
  - intros v x. reflexivity.
  - intros b today x. reflexivity.
  - intros v x. reflexivity.
Qed.

#[global] Instance discharge_laws : ModelLaws PatientDischargeDetails.t.
Proof.
  split.
  - intros v x. reflexivity.
  - intros k [] Hk. cbn in Hk. subst k. reflexivity.
  - intros today x. reflexivity.
  - intros v x. reflexivity.
  - intros b today x. reflexivity.
  - intros v x. reflexivity.
Qed.

Lemma patient_save_eq (self : Patient.t) (db : Store.t Patient.t) :
  Patient.save (self, db) = Model_save (patient_sync self, db).
Proof.
  unfold Patient.save, patient_sync, bind, getself, setattr, ret.
  destruct self as [? ? ? ? ? ? ? [d|] ? ? ? ? ? ?]; reflexivity.
Qed.

Lemma appointment_save_eq (self : Appointment.t) (db : Store.t Appointment.t) :
  Appointment.save (self, db) = Model_save (appointment_sync self, db).
Proof.
  unfold Appointment.save, appointment_sync, bind, getself, setattr, ret.
  destruct self as [? ? [p|] [d|] [dt|] ? ? ? ? ? ? ?]; reflexivity.
Qed.

Lemma discharge_save_eq (self : PatientDischargeDetails.t)
    (db : Store.t PatientDischargeDetails.t) :
  PatientDischargeDetails.save (self, db) = Model_save (discharge_sync self, db).
Proof.
  unfold PatientDischargeDetails.save, discharge_sync, bind, getself, setattr, ret.
  destruct self as [? ? [p|] [d|] ? ? ? ? ? ? ? ? ? ? ? ? ? ? ? ? ? ? ? ? ?];
    lazy -[Model_save Decimal.__int__ Patient.get_name Doctor.get_name];
    reflexivity.
Qed.

Lemma forallb_saved_cons {A} (pk_of : A -> option Z) (r : option A) (l : list (option Z)) :
  forallb (fun k => bool_decide (is_Some k))
    (match r with Some x => [pk_of x] | None => [] end ++ l) = true <->
  saved pk_of r /\ forallb (fun k => bool_decide (is_Some k)) l = true.
Proof.
  destruct r as [x|]; cbn.
  - rewrite andb_true_iff, bool_decide_eq_true. reflexivity.
  - tauto.
Qed.

Lemma forallb_saved_one {A} (pk_of : A -> option Z) (r : option A) :
  forallb (fun k => bool_decide (is_Some k))
    (match r with Some x => [pk_of x] | None => [] end) = true <->
  saved pk_of r.
Proof.
  pose proof (forallb_saved_cons pk_of r []) as Hc.
  rewrite app_nil_r in Hc. rewrite Hc. cbn. tauto.
Qed.

(** The assignments touch the legacy fields only. *)
Lemma patient_sync_assigned_doctor (self : Patient.t) :
  Patient.assigned_doctor (patient_sync self) = Patient.assigned_doctor self.
Proof. destruct self as [? ? ? ? ? ? ? [d|] ? ? ? ? ? ?]; reflexivity. Qed.

Lemma patient_sync_pk (self : Patient.t) :
  Patient.pk (patient_sync self) = Patient.pk self.
Proof. destruct self as [? ? ? ? ? ? ? [d|] ? ? ? ? ? ?]; reflexivity. Qed.

(** What a successful [Patient.save] leaves: the synchronised record, with
    its key and admission date filled in, written under its key. *)
Lemma patient_save_inv (self self' : Patient.t) (db db' : Store.t Patient.t) (u : unit) :
  Patient.save (self, db) = (Ok u, (self', db')) ->
  exists k b,
    Patient.pk self' = Some k /\
    Store.rows db' !! k = Some self' /\
    self' = Patient.set_pk (Some k)
              (pre_save b (Store.today db) (patient_sync self)) /\
    saved Doctor.pk (Patient.assigned_doctor self) /\
    is_Some (Patient.admit_date self').
Proof.
  rewrite patient_save_eq. intros Hs.
  apply Model_save_ok_inv in Hs.
  destruct Hs as (k & Hpk & Hrow & Heq & Hrel & Hnull & _).
  exists k, (inserting (patient_sync self) db).
  repeat split; try assumption.
  - apply forallb_saved_one. rewrite <- patient_sync_assigned_doctor. exact Hrel.
  - apply bool_decide_eq_true in Hnull. rewrite Heq. exact Hnull.
Qed.

(** ** Patient: the legacy doctor id *)

(** C2. For every Patient whose [assigned_doctor] is set, after a
    successful [save] the legacy field [assignedDoctorId] equals the id of
    the assigned doctor's user; the reference itself is unchanged and the
    row written to the store carries the same value. *)
Theorem patient_save_syncs_assignedDoctorId
    (self self' : Patient.t) (db db' : Store.t Patient.t) (d : Doctor.t) :
  Patient.assigned_doctor self = Some d ->
  Patient.save (self, db) = (Ok tt, (self', db')) ->
  Patient.assigned_doctor self' = Some d /\
  Patient.assignedDoctorId self' = Some (User.id (Doctor.user d)) /\
  exists k row, Patient.pk self' = Some k /\ Store.rows db' !! k = Some row /\
    Patient.assignedDoctorId row = Some (User.id (Doctor.user d)).
Proof.
  intros Hd Hs.
  destruct (patient_save_inv _ _ _ _ _ Hs) as (k & b & Hpk & Hrow & Heq & _ & _).
  assert (Hsync : Patient.assignedDoctorId (patient_sync self)
                  = Some (User.id (Doctor.user d))).
  { unfold patient_sync. rewrite Hd. reflexivity. }
  assert (Hid : Patient.assignedDoctorId self' = Some (User.id (Doctor.user d))).
  { rewrite Heq, <- Hsync. cbn. destruct b; reflexivity. }
  split; [| split; [exact Hid |]].
  - pose proof (patient_sync_assigned_doctor self) as Hf. rewrite Hd in Hf.
    rewrite Heq, <- Hf. cbn. destruct b; reflexivity.
  - exists k, self'. auto.
Qed.

Lemma patient_save_syncs_assignedDoctorId_witness :
  Patient.assigned_doctor patient0 = Some doctor0 /\
  Patient.assignedDoctorId patient0 = Some 7.
Proof.
  destruct (patient_save_syncs_assignedDoctorId
              (patient_new (Some doctor0)) patient0 empty_store
              (store_after (Patient.save (patient_new (Some doctor0), empty_store)))
              doctor0) as (H1 & H2 & _).
  - reflexivity.
  - vm_compute. reflexivity.
  - split; [exact H1 | exact H2].
Defined.

(** ** Appointment: legacy ids, names and date *)

(** The fields of an appointment after the assignments of [save]. *)
Lemma appointment_sync_spec (self : Appointment.t) :
  let self' := appointment_sync self in
  Appointment.pk self' = Appointment.pk self /\
  Appointment.patient self' = Appointment.patient self /\
  Appointment.doctor self' = Appointment.doctor self /\
  Appointment.appointment_date self' = Appointment.appointment_date self /\
  Appointment.patientId self' =
    match Appointment.patient self with
    | Some p => Some (User.id (Patient.user p))
    | None => Appointment.patientId self
    end /\
  Appointment.patientName self' =
    match Appointment.patient self with
    | Some p => Patient.get_name p
    | None => Appointment.patientName self
    end /\
  Appointment.doctorId self' =
    match Appointment.doctor self with
    | Some d => Some (User.id (Doctor.user d))
    | None => Appointment.doctorId self
    end /\
  Appointment.doctorName self' =
    match Appointment.doctor self with
    | Some d => Doctor.get_name d
    | None => Appointment.doctorName self
    end /\
  Appointment.appointmentDate self' =
    match Appointment.appointment_date self with
    | Some dt => Some (DateTime.date dt)
    | None => Appointment.appointmentDate self
    end.
Proof.
  destruct self as [? ? [p|] [d|] [dt|] ? ? ? ? ? ? ?]; cbn; repeat split.
Qed.

(** What a successful [Appointment.save] leaves. *)
Lemma appointment_save_inv (self self' : Appointment.t)
    (db db' : Store.t Appointment.t) (u : unit) :
  Appointment.save (self, db) = (Ok u, (self', db')) ->
  exists k,
    Appointment.pk self' = Some k /\
    Store.rows db' !! k = Some self' /\
    self' = Appointment.set_pk (Some k) (appointment_sync self) /\
    saved Patient.pk (Appointment.patient self) /\
    saved Doctor.pk (Appointment.doctor self) /\
    is_Some (Appointment.appointment_date self).
Proof.
  rewrite appointment_save_eq. intros Hs.
  apply Model_save_ok_inv in Hs.
  destruct Hs as (k & Hpk & Hrow & Heq & Hrel & Hnull & _).
  destruct (appointment_sync_spec self) as (_ & Hp & Hd & Hdt & _).
  cbn -[appointment_sync] in Hrel, Hnull. rewrite Hp, Hd in Hrel. rewrite Hdt in Hnull.
  apply forallb_saved_cons in Hrel. destruct Hrel as [Hsp Hsd].
  apply forallb_saved_one in Hsd. apply bool_decide_eq_true in Hnull.
  exists k. auto 10.
Qed.

(** C3. For every Appointment with both [patient] and [doctor] set, after
    a successful [save] the legacy fields [patientId] and [doctorId] are
    the ids of the users of the referenced records, and [patientName] and
    [doctorName] are those users' first and last names joined by one
    space; the row written to the store is the record. *)
Theorem appointment_save_syncs_ids_and_names
    (self self' : Appointment.t) (db db' : Store.t Appointment.t)
    (p : Patient.t) (d : Doctor.t) :
  Appointment.patient self = Some p ->
  Appointment.doctor self = Some d ->
  Appointment.save (self, db) = (Ok tt, (self', db')) ->
  (Appointment.patient self' = Some p /\ Appointment.doctor self' = Some d) /\
  Appointment.patientId self' = Some (User.id (Patient.user p)) /\
  Appointment.doctorId self' = Some (User.id (Doctor.user d)) /\
  Appointment.patientName self' =
    User.first_name (Patient.user p) +:+ " " +:+ User.last_name (Patient.user p) /\
  Appointment.doctorName self' =
    User.first_name (Doctor.user d) +:+ " " +:+ User.last_name (Doctor.user d) /\
  exists k, Appointment.pk self' = Some k /\ Store.rows db' !! k = Some self'.
Proof.
  intros Hp Hd Hs.
  destruct (appointment_save_inv _ _ _ _ _ Hs) as (k & Hpk & Hrow & Heq & _).
  destruct (appointment_sync_spec self)
    as (_ & Hp' & Hd' & _ & Hpi & Hpn & Hdi & Hdn & _).
  rewrite Hp in Hp', Hpi, Hpn. rewrite Hd in Hd', Hdi, Hdn.
  rewrite Heq. cbn.
  repeat split; try assumption.
  exists k. rewrite <- Heq. auto.
Qed.

Lemma appointment_save_syncs_ids_and_names_witness :
  Appointment.patientId appointment0 = Some 8 /\
  Appointment.doctorId appointment0 = Some 7 /\
  Appointment.patientName appointment0 = "Test Pat" /\
  Appointment.doctorName appointment0 = "A B".
Proof.
  destruct (appointment_save_syncs_ids_and_names
              (appointment_new (Some patient0) (Some doctor0) (Some epoch))
              appointment0 empty_store
              (store_after
                 (Appointment.save
                    (appointment_new (Some patient0) (Some doctor0) (Some epoch),
                     empty_store)))
              patient0 doctor0) as (_ & H1 & H2 & H3 & H4 & _).
  - reflexivity.
  - reflexivity.
  - vm_compute. reflexivity.
  - repeat split; assumption.
Defined.

(** [Model.save] never touches the legacy date of an appointment. *)
Lemma appointment_model_save_appointmentDate (x : Appointment.t)
    (db : Store.t Appointment.t) :
  Appointment.appointmentDate (self_after (Model_save (x, db)))
  = Appointment.appointmentDate x.
Proof.
  destruct (Model_save_self_after x db) as [-> | [-> | ->]]; reflexivity.
Qed.

(** C5, as stated, fails: the copy of the date is not unconditional.  On
    [appointment_stale], whose timestamp is [None], [save] leaves the old
    legacy date in place. *)
Lemma appointment_date_copy_not_unconditional :
  ~ (forall (self : Appointment.t) (db : Store.t Appointment.t),
       let self' := self_after (Appointment.save (self, db)) in
       Appointment.appointmentDate self' =
       option_map DateTime.date (Appointment.appointment_date self')).
Proof.
  intros Hall. specialize (Hall appointment_stale empty_store).
  vm_compute in Hall. discriminate Hall.
Qed.

(** C5, amended. After a successful [save] the legacy [appointmentDate]
    is the date component of [appointment_date]. The copy is guarded by
    [if self.appointment_date]: when the timestamp is [None], [save]
    leaves [appointmentDate] as it was, and the save is not successful
    (the column is NOT NULL). *)
Theorem appointment_save_copies_date_when_present :
  (forall (self self' : Appointment.t) (db db' : Store.t Appointment.t),
     Appointment.save (self, db) = (Ok tt, (self', db')) ->
     exists dt, Appointment.appointment_date self' = Some dt /\
                Appointment.appointmentDate self' = Some (DateTime.date dt)) /\
  (forall (self : Appointment.t) (db : Store.t Appointment.t) (dt : DateTime.t),
     Appointment.appointment_date self = Some dt ->
     Appointment.appointmentDate (self_after (Appointment.save (self, db)))
     = Some (DateTime.date dt)) /\
  (forall (self : Appointment.t) (db : Store.t Appointment.t),
     Appointment.appointment_date self = None ->
     Appointment.appointmentDate (self_after (Appointment.save (self, db)))
     = Appointment.appointmentDate self /\
     fst (Appointment.save (self, db)) <> Ok tt).
Proof.
  split; [| split].
  - intros self self' db db' Hs.
    destruct (appointment_save_inv _ _ _ _ _ Hs) as (k & _ & _ & Heq & _ & _ & [dt Hdt]).
    destruct (appointment_sync_spec self) as (_ & _ & _ & Hd & _ & _ & _ & _ & Hl).
    rewrite Hdt in Hd, Hl. exists dt. rewrite Heq. cbn. auto.
  - intros self db dt Hdt.
    rewrite appointment_save_eq, appointment_model_save_appointmentDate.
    destruct (appointment_sync_spec self) as (_ & _ & _ & _ & _ & _ & _ & _ & Hl).
    rewrite Hdt in Hl. exact Hl.
  - intros self db Hdt. split.
    + rewrite appointment_save_eq, appointment_model_save_appointmentDate.
      destruct (appointment_sync_spec self) as (_ & _ & _ & _ & _ & _ & _ & _ & Hl).
      rewrite Hdt in Hl. exact Hl.
    + intros Hok.
      destruct (Appointment.save (self, db)) as [r [self' db']] eqn:Hs.
      cbn in Hok. subst r.
      destruct (appointment_save_inv _ _ _ _ _ Hs) as (k & _ & _ & _ & _ & _ & [dt Hsome]).
      congruence.
Qed.

Lemma appointment_save_copies_date_when_present_witness :
  Appointment.appointmentDate appointment0
    = Some {| Date.year := 2024; Date.month := 3; Date.day := 9 |} /\
  Appointment.appointmentDate
    (self_after (Appointment.save (appointment_stale, empty_store)))
    = Some {| Date.year := 2020; Date.month := 1; Date.day := 1 |}.
Proof.
  destruct appointment_save_copies_date_when_present as (Hok & _ & Hnone).
  split.
  - destruct (Hok (appointment_new (Some patient0) (Some doctor0) (Some epoch))
                  appointment0 empty_store
                  (store_after
                     (Appointment.save
                        (appointment_new (Some patient0) (Some doctor0) (Some epoch),
                         empty_store))))
      as (dt & Hdt & Hl).
    + vm_compute. reflexivity.
    + rewrite Hl. vm_compute in Hdt. injection Hdt as <-. reflexivity.
  - destruct (Hnone appointment_stale empty_store) as [Hkeep _].
    + reflexivity.
    + rewrite Hkeep. reflexivity.
Defined.

(** ** Discharge details: mirrored patient data and truncated charges *)

(** The fields of a discharge record after the assignments of [save]. *)
Lemma discharge_sync_spec (self : PatientDischargeDetails.t) :
  let self' := discharge_sync self in
  (PatientDischargeDetails.pk self' = PatientDischargeDetails.pk self /\
   PatientDischargeDetails.patient self' = PatientDischargeDetails.patient self /\
   PatientDischargeDetails.assigned_doctor self'
     = PatientDischargeDetails.assigned_doctor self) /\
  (PatientDischargeDetails.room_charge self' = PatientDischargeDetails.room_charge self /\
   PatientDischargeDetails.medicine_cost self'
     = PatientDischargeDetails.medicine_cost self /\
   PatientDischargeDetails.doctor_fee self' = PatientDischargeDetails.doctor_fee self /\
   PatientDischargeDetails.other_charge self'
     = PatientDischargeDetails.other_charge self /\
   PatientDischargeDetails.total self' = PatientDischargeDetails.total self) /\
  (match PatientDischargeDetails.patient self with
   | Some p =>
       PatientDischargeDetails.patientId self' = Some (User.id (Patient.user p)) /\
       PatientDischargeDetails.patientName self' = Patient.get_name p /\
       PatientDischargeDetails.address self' = Patient.address p /\
       PatientDischargeDetails.mobile self' = Patient.mobile p /\
       PatientDischargeDetails.symptoms self' = Patient.symptoms p
   | None =>
       PatientDischargeDetails.patientId self' = PatientDischargeDetails.patientId self /\
       PatientDischargeDetails.patientName self'
         = PatientDischargeDetails.patientName self /\
       PatientDischargeDetails.address self' = PatientDischargeDetails.address self /\
       PatientDischargeDetails.mobile self' = PatientDischargeDetails.mobile self /\
       PatientDischargeDetails.symptoms self' = PatientDischargeDetails.symptoms self
   end) /\
  PatientDischargeDetails.assignedDoctorName self' =
    match PatientDischargeDetails.assigned_doctor self with
    | Some d => Doctor.get_name d
    | None => PatientDischargeDetails.assignedDoctorName self
    end /\
  (PatientDischargeDetails.admitDate self'
     = Some (PatientDischargeDetails.admit_date self) /\
   PatientDischargeDetails.releaseDate self'
     = Some (PatientDischargeDetails.release_date self) /\
   PatientDischargeDetails.daySpent self'
     = Some (PatientDischargeDetails.day_spent self)) /\
  (PatientDischargeDetails.roomCharge self'
     = Some (Decimal.__int__ (PatientDischargeDetails.room_charge self)) /\
   PatientDischargeDetails.medicineCost self'
     = Some (Decimal.__int__ (PatientDischargeDetails.medicine_cost self)) /\
   PatientDischargeDetails.doctorFee self'
     = Some (Decimal.__int__ (PatientDischargeDetails.doctor_fee self)) /\
   PatientDischargeDetails.OtherCharge self'
     = Some (Decimal.__int__ (PatientDischargeDetails.other_charge self))).
Proof.
  destruct self as [? ? [p|] [d|] ? ? ? ? ? ? ? ? ? ? ? ? ? ? ? ? ? ? ? ? ?];
    repeat split.
Qed.

Lemma discharge_related_pks (x : PatientDischargeDetails.t) :
  related_pks x =
    match PatientDischargeDetails.patient x with Some p => [Patient.pk p] | None => [] end ++
    match PatientDischargeDetails.assigned_doctor x with Some d => [Doctor.pk d] | None => [] end.
Proof. reflexivity. Qed.

Lemma discharge_pre_save (b : bool) (today : Date.t) (x : PatientDischargeDetails.t) :
  pre_save b today x = x.
Proof. reflexivity. Qed.

(** What a successful [PatientDischargeDetails.save] leaves. *)
Lemma discharge_save_inv (self self' : PatientDischargeDetails.t)
    (db db' : Store.t PatientDischargeDetails.t) (u : unit) :
  PatientDischargeDetails.save (self, db) = (Ok u, (self', db')) ->
  exists k,
    PatientDischargeDetails.pk self' = Some k /\
    Store.rows db' !! k = Some self' /\
    self' = PatientDischargeDetails.set_pk (Some k) (discharge_sync self) /\
    saved Patient.pk (PatientDischargeDetails.patient self) /\
    saved Doctor.pk (PatientDischargeDetails.assigned_doctor self).
Proof.
  rewrite discharge_save_eq. intros Hs.
  apply Model_save_ok_inv in Hs.
  destruct Hs as (k & Hpk & Hrow & Heq & Hrel & _).
  destruct (discharge_sync_spec self) as ((_ & Hp & Hd) & _).
  rewrite discharge_related_pks, Hp, Hd in Hrel.
  apply forallb_saved_cons in Hrel. destruct Hrel as [Hsp Hsd].
  apply forallb_saved_one in Hsd.
  rewrite discharge_pre_save in Heq.
  exists k. repeat split; assumption.
Qed.

(** [truncate] is the truncation toward zero: it keeps the sign and drops
    less than one unit of magnitude. *)
Lemma truncate_toward_zero (q : Q) :
  ((0 <= q)%Q ->
   0 <= truncate q /\
   (inject_Z (truncate q) <= q)%Q /\ (q < inject_Z (truncate q + 1))%Q) /\
  ((q < 0)%Q ->
   truncate q <= 0 /\
   (inject_Z (truncate q - 1) < q)%Q /\ (q <= inject_Z (truncate q))%Q).
Proof.
  unfold truncate. split; intros Hq.
  - assert (Hb : Qle_bool 0 q = true) by (apply Qle_bool_iff; exact Hq).
    rewrite Hb. split; [| split].
    + change 0 with (Qfloor 0). apply Qfloor_resp_le. exact Hq.
    + apply Qfloor_le.
    + apply Qlt_floor.
  - assert (Hb : Qle_bool 0 q = false).
    { destruct (Qle_bool 0 q) eqn:Hb; [| reflexivity].
      apply Qle_bool_iff in Hb. exfalso. apply (Qlt_not_le _ _ Hq Hb). }
    rewrite Hb. split; [| split].
    + change 0 with (Qceiling 0). apply Qceiling_resp_le. apply Qlt_le_weak. exact Hq.
    + apply Qceiling_lt.
    + apply Qle_ceiling.
Qed.

(** [Decimal.__int__] truncates the value of the decimal toward zero. *)
Lemma decimal_int_truncates (d : Decimal.t) :
  Decimal.__int__ d = truncate (Decimal.value d).
Proof.
  destruct d as [s c e].
  unfold Decimal.__int__, Decimal.value, Decimal.signed, truncate.
  cbn [Decimal.sign Decimal.coefficient Decimal.exponent].
  destruct (0 <=? e) eqn:He.
  - destruct (Qle_bool _ _); rewrite ?Qfloor_Z, ?Qceiling_Z; destruct s; lia.
  - apply Z.leb_gt in He.
    assert (Hpos : 0 < 10 ^ (- e)) by (apply Z.pow_pos_nonneg; lia).
    set (P := Z.to_pos (10 ^ (- e))).
    assert (HP : Z.pos P = 10 ^ (- e)) by (apply Z2Pos.id; exact Hpos).
    rewrite <- HP.
    unfold Qle_bool, Qceiling, Qfloor, Qopp. cbn [Qnum Qden].
    assert (Hc : 0 <= Z.of_N c) by lia.
    destruct s.
    + destruct (Z.eq_dec (Z.of_N c) 0) as [Hz | Hnz].
      * rewrite Hz. cbn. reflexivity.
      * replace (0 * Z.pos P <=? - Z.of_N c * 1) with false
          by (symmetry; apply Z.leb_gt; lia).
        rewrite Z.opp_involutive. lia.
    + replace (0 * Z.pos P <=? Z.of_N c * 1) with true
        by (symmetry; apply Z.leb_le; lia).
      lia.
Qed.

(** C4. For every PatientDischargeDetails record, after a successful
    [save] each of the four integer legacy charge fields ([roomCharge],
    [medicineCost], [doctorFee], [OtherCharge]) is the canonical decimal
    charge truncated toward zero; a canonical 100.75 gives the legacy
    value 100, where rounding would give 101. *)
Theorem discharge_save_truncates_charges
    (self self' : PatientDischargeDetails.t)
    (db db' : Store.t PatientDischargeDetails.t) :
  PatientDischargeDetails.save (self, db) = (Ok tt, (self', db')) ->
  (PatientDischargeDetails.roomCharge self'
     = Some (truncate (Decimal.value (PatientDischargeDetails.room_charge self'))) /\
   PatientDischargeDetails.medicineCost self'
     = Some (truncate (Decimal.value (PatientDischargeDetails.medicine_cost self'))) /\
   PatientDischargeDetails.doctorFee self'
     = Some (truncate (Decimal.value (PatientDischargeDetails.doctor_fee self'))) /\
   PatientDischargeDetails.OtherCharge self'
     = Some (truncate (Decimal.value (PatientDischargeDetails.other_charge self')))) /\
  (PatientDischargeDetails.room_charge self = Decimal.of_cents 10075 ->
   PatientDischargeDetails.roomCharge self' = Some 100 /\
   round_half_even (Decimal.value (PatientDischargeDetails.room_charge self)) = 101).
Proof.
  intros Hs.
  destruct (discharge_save_inv _ _ _ _ _ Hs) as (k & _ & _ & Heq & _).
  pose proof (discharge_sync_spec self) as Hspec. cbv zeta in Hspec.
  revert Hspec Heq. generalize (discharge_sync self). intros y Hspec Heq.
  destruct Hspec as (_ & (Hr & Hm & Hf & Ho & _) & _ & _ & _ & (Hlr & Hlm & Hlf & Hlo)).
  subst self'. cbn.
  rewrite Hr, Hm, Hf, Ho, Hlr, Hlm, Hlf, Hlo, <- !decimal_int_truncates.
  split; [auto |].
  intros H100. rewrite H100. split; vm_compute; reflexivity.
Qed.

Lemma discharge_save_truncates_charges_witness :
  PatientDischargeDetails.roomCharge discharge_fractional_saved = Some 100 /\
  PatientDischargeDetails.medicineCost discharge_fractional_saved = Some 50 /\
  PatientDischargeDetails.doctorFee discharge_fractional_saved = Some 200 /\
  PatientDischargeDetails.OtherCharge discharge_fractional_saved = Some 10.
Proof.
  destruct (discharge_save_truncates_charges
              discharge_fractional discharge_fractional_saved empty_store
              (store_after (PatientDischargeDetails.save (discharge_fractional, empty_store))))
    as ((H1 & H2 & H3 & H4) & _).
  - vm_compute. reflexivity.
  - rewrite H1, H2, H3, H4. vm_compute. repeat split.
Defined.

(** ** Saving twice *)

(** The assignments of [save] change nothing on a record they have
    already been applied to, whatever key and [pre_save] columns
    [Model.save] has filled in since. *)
Lemma patient_sync_fix (v : option Z) (b : bool) (today : Date.t) (self : Patient.t) :
  patient_sync (Patient.set_pk v (pre_save b today (patient_sync self)))
  = Patient.set_pk v (pre_save b today (patient_sync self)).
Proof.
  destruct self as [? ? ? ? ? ? ? [d|] ? ? ? ? ? ?], b; reflexivity.
Qed.

Lemma appointment_sync_fix (v : option Z) (self : Appointment.t) :
  appointment_sync (Appointment.set_pk v (appointment_sync self))
  = Appointment.set_pk v (appointment_sync self).
Proof.
  destruct self as [? ? [p|] [d|] [dt|] ? ? ? ? ? ? ?]; reflexivity.
Qed.

Lemma discharge_sync_fix (v : option Z) (self : PatientDischargeDetails.t) :
  discharge_sync (PatientDischargeDetails.set_pk v (discharge_sync self))
  = PatientDischargeDetails.set_pk v (discharge_sync self).
Proof.
  destruct self as [? ? [p|] [d|] ? ? ? ? ? ? ? ? ? ? ? ? ? ? ? ? ? ? ? ? ?];
    lazy -[Decimal.__int__ Patient.get_name Doctor.get_name]; reflexivity.
Qed.

(** C8. The synchroniser is idempotent: saving a record again right
    after a successful [save], with its canonical fields and the records
    it refers to unchanged, succeeds and leaves the record, hence every
    legacy field, and the store exactly as the first save left them. *)
Theorem save_twice_same_legacy_fields :
  (forall (self self1 : Patient.t) (db db1 : Store.t Patient.t),
     Patient.save (self, db) = (Ok tt, (self1, db1)) ->
     Patient.save (self1, db1) = (Ok tt, (self1, db1))) /\
  (forall (self self1 : Appointment.t) (db db1 : Store.t Appointment.t),
     Appointment.save (self, db) = (Ok tt, (self1, db1)) ->
     Appointment.save (self1, db1) = (Ok tt, (self1, db1))) /\
  (forall (self self1 : PatientDischargeDetails.t)
          (db db1 : Store.t PatientDischargeDetails.t),
     PatientDischargeDetails.save (self, db) = (Ok tt, (self1, db1)) ->
     PatientDischargeDetails.save (self1, db1) = (Ok tt, (self1, db1))).
Proof.
  split; [| split]; intros self self1 db db1 Hs.
  - destruct (patient_save_inv _ _ _ _ _ Hs) as (k & b & _ & _ & Heq & _).
    assert (Hfix : patient_sync self1 = self1)
      by (rewrite Heq; apply patient_sync_fix).
    rewrite patient_save_eq in Hs |- *. rewrite Hfix.
    apply (Model_save_again _ _ _ _ _ Hs).
  - destruct (appointment_save_inv _ _ _ _ _ Hs) as (k & _ & _ & Heq & _).
    assert (Hfix : appointment_sync self1 = self1)
      by (rewrite Heq; apply appointment_sync_fix).
    rewrite appointment_save_eq in Hs |- *. rewrite Hfix.
    apply (Model_save_again _ _ _ _ _ Hs).
  - destruct (discharge_save_inv _ _ _ _ _ Hs) as (k & _ & _ & Heq & _).
    assert (Hfix : discharge_sync self1 = self1)
      by (rewrite Heq; apply discharge_sync_fix).
    rewrite discharge_save_eq in Hs |- *. rewrite Hfix.
    apply (Model_save_again _ _ _ _ _ Hs).
Qed.

Lemma save_twice_same_legacy_fields_witness :
  Patient.save
    (patient0, store_after (Patient.save (patient_new (Some doctor0), empty_store)))
  = (Ok tt,
     (patient0, store_after (Patient.save (patient_new (Some doctor0), empty_store)))) /\
  Appointment.save
    (appointment0,
     store_after (Appointment.save
                    (appointment_new (Some patient0) (Some doctor0) (Some epoch),
                     empty_store)))
  = (Ok tt,
     (appointment0,
      store_after (Appointment.save
                     (appointment_new (Some patient0) (Some doctor0) (Some epoch),
                      empty_store)))) /\
  PatientDischargeDetails.save
    (self_after (PatientDischargeDetails.save (discharge_fractional, empty_store)),
     store_after (PatientDischargeDetails.save (discharge_fractional, empty_store)))
  = (Ok tt,
     (self_after (PatientDischargeDetails.save (discharge_fractional, empty_store)),
      store_after (PatientDischargeDetails.save (discharge_fractional, empty_store)))).
Proof.
  destruct save_twice_same_legacy_fields as (Hp & Ha & Hd).
  split; [| split].
  - apply (Hp (patient_new (Some doctor0)) patient0 empty_store).
    vm_compute. reflexivity.
  - apply (Ha (appointment_new (Some patient0) (Some doctor0) (Some epoch))
              appointment0 empty_store).
    vm_compute. reflexivity.
  - apply (Hd discharge_fractional _ empty_store).
    vm_compute. reflexivity.
Defined.

(** ** Null references *)












(** ** Discharge details: the mirrored symptoms text *)

(** C10. The discharge synchroniser copies the patient's symptoms text,
    which has no length bound, into the legacy [symptoms] field as it is,
    and that field is declared with [max_length=500]: for a patient whose
    text has more than 500 characters the saved legacy value is longer
    than the declared bound. *)
Theorem discharge_save_copies_symptoms_untruncated :
  (forall (self self' : PatientDischargeDetails.t)
          (db db' : Store.t PatientDischargeDetails.t) (p : Patient.t),
     PatientDischargeDetails.patient self = Some p ->
     PatientDischargeDetails.save (self, db) = (Ok tt, (self', db')) ->
     PatientDischargeDetails.symptoms self' = Patient.symptoms p) /\
  (exists (self self' : PatientDischargeDetails.t)
          (db db' : Store.t PatientDischargeDetails.t) (p : Patient.t),
     PatientDischargeDetails.patient self = Some p /\
     (PatientDischargeDetails.symptoms_max_length
        < String.length (Patient.symptoms p))%nat /\
     PatientDischargeDetails.save (self, db) = (Ok tt, (self', db')) /\
     (PatientDischargeDetails.symptoms_max_length
        < String.length (PatientDischargeDetails.symptoms self'))%nat).
Proof.
  assert (Hcopy : forall (self self' : PatientDischargeDetails.t)
                         (db db' : Store.t PatientDischargeDetails.t) (p : Patient.t),
             PatientDischargeDetails.patient self = Some p ->
             PatientDischargeDetails.save (self, db) = (Ok tt, (self', db')) ->
             PatientDischargeDetails.symptoms self' = Patient.symptoms p).
  { intros self self' db db' p Hp Hs.
    destruct (discharge_save_inv _ _ _ _ _ Hs) as (k & _ & _ & Heq & _).
    pose proof (discharge_sync_spec self) as Hspec. cbv zeta in Hspec.
    revert Hspec Heq. generalize (discharge_sync self). intros y Hspec Heq.
    destruct Hspec as (_ & _ & Hl & _). rewrite Hp in Hl.
    destruct Hl as (_ & _ & _ & _ & Hsy). subst self'. exact Hsy. }
  split; [exact Hcopy |].
  exists discharge_long,
         (self_after (PatientDischargeDetails.save (discharge_long, empty_store))),
         empty_store,
         (store_after (PatientDischargeDetails.save (discharge_long, empty_store))),
         patient_long.
  assert (Hs : PatientDischargeDetails.save (discharge_long, empty_store)
               = (Ok tt,
                  (self_after (PatientDischargeDetails.save (discharge_long, empty_store)),
                   store_after (PatientDischargeDetails.save (discharge_long, empty_store)))))
    by (vm_compute; reflexivity).
  assert (Hlen : (PatientDischargeDetails.symptoms_max_length
                    < String.length (Patient.symptoms patient_long))%nat)
    by (vm_compute; lia).
  split; [reflexivity |]. split; [exact Hlen |]. split; [exact Hs |].
  rewrite (Hcopy discharge_long _ _ _ patient_long eq_refl Hs). exact Hlen.
Qed.

Lemma discharge_save_copies_symptoms_untruncated_witness :
  String.length
    (PatientDischargeDetails.symptoms
       (self_after (PatientDischargeDetails.save (discharge_long, empty_store))))
  = 501%nat.
Proof.
  destruct discharge_save_copies_symptoms_untruncated as [Hcopy _].
  rewrite (Hcopy discharge_long _ empty_store
             (store_after (PatientDischargeDetails.save (discharge_long, empty_store)))
             patient_long).
  - vm_compute. reflexivity.
  - reflexivity.
  - vm_compute. reflexivity.
Defined.

(** ** Appointment: the string representation *)

(** C9. Both references of an Appointment are nullable, and [__str__]
    reads [get_name] from both: it raises [AttributeError] whenever
    [patient] or [doctor] is [None], and returns a string exactly when
    both are present. *)
Theorem appointment_str_needs_both_references (self : Appointment.t) :
  (Appointment.patient self = None \/ Appointment.doctor self = None ->
   Appointment.__str__ self = (Raise AttributeError, self)) /\
  ((exists s, Appointment.__str__ self = (Ok s, self)) <->
   is_Some (Appointment.patient self) /\ is_Some (Appointment.doctor self)).
Proof.
  unfold Appointment.__str__, bind, get, ret, raise.
  destruct (Appointment.patient self) as [p|], (Appointment.doctor self) as [d|];
    cbn; split.
  - intros [H | H]; discriminate.
  - split; [intros _; split; eexists; reflexivity | intros _; eexists; reflexivity].
  - reflexivity.
  - split; [intros [s Hs]; discriminate | intros [_ [x Hx]]; discriminate].
  - reflexivity.
  - split; [intros [s Hs]; discriminate | intros [[x Hx] _]; discriminate].
  - reflexivity.
  - split; [intros [s Hs]; discriminate | intros [[x Hx] _]; discriminate].
Qed.

Lemma appointment_str_needs_both_references_witness :
  Appointment.__str__ appointment_no_patient
    = (Raise AttributeError, appointment_no_patient) /\
  Appointment.__str__ appointment_no_doctor
    = (Raise AttributeError, appointment_no_doctor) /\
  Appointment.__str__ appointment0
    = (Ok "Test Pat -> A B on 2024-03-09 14:30:05+00:00", appointment0).
Proof.
  split; [| split].
  - apply (appointment_str_needs_both_references appointment_no_patient).
    left. reflexivity.
  - apply (appointment_str_needs_both_references appointment_no_doctor).
    right. reflexivity.
  - destruct (appointment_str_needs_both_references appointment0) as [_ [_ Hboth]].
    destruct Hboth as [s Hs]; [split; eexists; reflexivity |].
    rewrite Hs. vm_compute in Hs. injection Hs as <-. reflexivity.
Defined.

(** ** Exact decimal arithmetic *)

(** The value of a decimal over any power of ten that its exponent allows. *)
Lemma decimal_value_scaled (d : Decimal.t) (e : Z) :
  e <= Decimal.exponent d -> e <= 0 ->
  (Decimal.value d ==
   Qmake (Decimal.signed d * 10 ^ (Decimal.exponent d - e)) (Z.to_pos (10 ^ (- e))))%Q.
Proof.
  intros He He0. unfold Decimal.value, Qeq.
  assert (Hp : forall n, 0 <= n -> Z.pos (Z.to_pos (10 ^ n)) = 10 ^ n).
  { intros n Hn. apply Z2Pos.id. apply Z.pow_pos_nonneg; lia. }
  destruct (0 <=? Decimal.exponent d) eqn:Hexp; cbn [Qnum Qden inject_Z].
  - apply Z.leb_le in Hexp. rewrite Hp by lia.
    replace (Decimal.exponent d - e) with (Decimal.exponent d + - e) by lia.
    rewrite Z.pow_add_r by lia. ring.
  - apply Z.leb_gt in Hexp. rewrite !Hp by lia.
    replace (- e) with ((Decimal.exponent d - e) + - Decimal.exponent d) at 1 by lia.
    rewrite Z.pow_add_r by lia. ring.
Qed.

Lemma decimal_signed_mk (v e : Z) :
  Decimal.signed {| Decimal.sign := v <? 0; Decimal.coefficient := Z.abs_N v;
                    Decimal.exponent := e |} = v.
Proof.
  unfold Decimal.signed. cbn [Decimal.sign Decimal.coefficient].
  destruct (Z.ltb_spec v 0); lia.
Qed.

(** [Decimal.add] is exact. *)
Lemma decimal_add_exact (x y : Decimal.t) :
  (Decimal.value (Decimal.add x y) == Decimal.value x + Decimal.value y)%Q.
Proof.
  set (e := Z.min (Decimal.exponent x) (Decimal.exponent y)).
  set (e0 := Z.min e 0).
  rewrite (decimal_value_scaled x e0), (decimal_value_scaled y e0) by lia.
  rewrite (decimal_value_scaled (Decimal.add x y) e0)
    by (unfold Decimal.add; cbn [Decimal.exponent]; lia).
  unfold Decimal.add. fold e. rewrite decimal_signed_mk. cbn [Decimal.exponent].
  replace (Decimal.exponent x - e0) with ((Decimal.exponent x - e) + (e - e0)) by lia.
  replace (Decimal.exponent y - e0) with ((Decimal.exponent y - e) + (e - e0)) by lia.
  rewrite !Z.pow_add_r by lia.
  unfold Qeq, Qplus. cbn [Qnum Qden]. rewrite Pos2Z.inj_mul. ring.
Qed.

(** [Decimal.eqb] decides equality of values. *)
Lemma decimal_eqb_value (x y : Decimal.t) :
  Decimal.eqb x y = true <-> (Decimal.value x == Decimal.value y)%Q.
Proof.
  set (e := Z.min (Decimal.exponent x) (Decimal.exponent y)).
  set (e0 := Z.min e 0).
  rewrite (decimal_value_scaled x e0), (decimal_value_scaled y e0) by lia.
  unfold Decimal.eqb. fold e. rewrite Z.eqb_eq.
  replace (Decimal.exponent x - e0) with ((Decimal.exponent x - e) + (e - e0)) by lia.
  replace (Decimal.exponent y - e0) with ((Decimal.exponent y - e) + (e - e0)) by lia.
  rewrite !Z.pow_add_r by lia.
  unfold Qeq. cbn [Qnum Qden].
  assert (Hpos : 0 < 10 ^ (e - e0)) by (apply Z.pow_pos_nonneg; lia).
  split; intros Heq.
  - rewrite !Z.mul_assoc, Heq. reflexivity.
  - apply Z.mul_cancel_r in Heq; [| lia].
    rewrite !Z.mul_assoc in Heq. apply Z.mul_cancel_r in Heq; [exact Heq | lia].
Qed.

(** The expected total of the specification is the exact sum of the four
    charges. *)
Lemma expected_decimal_exact (obj : PatientDischargeDetails.t) :
  (Decimal.value (expected_decimal obj) ==
   Decimal.value (PatientDischargeDetails.room_charge obj)
   + Decimal.value (PatientDischargeDetails.medicine_cost obj)
   + Decimal.value (PatientDischargeDetails.doctor_fee obj)
   + Decimal.value (PatientDischargeDetails.other_charge obj))%Q.
Proof.
  unfold expected_decimal. rewrite !decimal_add_exact. reflexivity.
Qed.

(** ** The billing total checker *)

(** Keys handed out by the store are positive, so a saved record has a
    true primary key. *)
Lemma Model_save_key_positive {T} `{Model T} `{!ModelLaws T}
    (self self' : T) (db db' : Store.t T) :
  0 <= Store.seq db ->
  (forall k, _get_pk_val self = Some k -> 0 < k) ->
  (forall b today, _get_pk_val (pre_save b today self) = _get_pk_val self) ->
  Model_save (self, db) = (Ok tt, (self', db')) ->
  exists k, _get_pk_val self' = Some k /\ 0 < k /\ truthy_pk (Some k) = true.
Proof.
  intros Hseq Hpos Hpre Hs. apply Model_save_inv in Hs. cbn zeta in Hs.
  destruct Hs as (_ & _ & [(k & Hpk & Heq) | (Hpk & Heq)]);
    inversion Heq; subst self' db'; clear Heq.
  - exists k. rewrite Hpre in Hpk. specialize (Hpos k Hpk).
    rewrite Hpre. repeat split; try assumption.
    cbn. apply negb_true_iff, Z.eqb_neq. lia.
  - exists (Store.seq db + 1). rewrite get_set_pk.
    repeat split; try lia. cbn. apply negb_true_iff, Z.eqb_neq. lia.
Qed.

Lemma discharge_pk_val (x : PatientDischargeDetails.t) :
  _get_pk_val x = PatientDischargeDetails.pk x.
Proof. reflexivity. Qed.

(** A discharge record that [save] has inserted has a true primary key:
    it is "persisted" for [calculate_total]. *)
Lemma discharge_saved_key_truthy (self self' : PatientDischargeDetails.t)
    (db db' : Store.t PatientDischargeDetails.t) :
  0 <= Store.seq db ->
  PatientDischargeDetails.pk self = None ->
  PatientDischargeDetails.save (self, db) = (Ok tt, (self', db')) ->
  truthy_pk (PatientDischargeDetails.pk self') = true.
Proof.
  intros Hseq Hnone Hs. rewrite discharge_save_eq in Hs.
  destruct (discharge_sync_spec self) as ((Hpk & _) & _).
  assert (Hfresh : forall k, _get_pk_val (discharge_sync self) = Some k -> 0 < k).
  { intros k Hk. rewrite discharge_pk_val, Hpk, Hnone in Hk. discriminate. }
  assert (Hpre : forall b today,
             _get_pk_val (pre_save b today (discharge_sync self))
             = _get_pk_val (discharge_sync self)).
  { intros b today. rewrite discharge_pre_save. reflexivity. }
  destruct (Model_save_key_positive _ _ _ _ Hseq Hfresh Hpre Hs) as (k & Hk & _ & Ht).
  rewrite discharge_pk_val in Hk. rewrite Hk. exact Ht.
Qed.

(** What [calculate_total] returns, and that it leaves its state alone. *)
Lemma calculate_total_eq (obj : PatientDischargeDetails.t)
    (db : Store.t PatientDischargeDetails.t) :
  PatientDischargeDetailsAdmin.calculate_total (obj, db) =
  (Ok (if truthy_pk (PatientDischargeDetails.pk obj)
       then if Float.eqb (calculated_float obj)
                         (Decimal.__float__ (PatientDischargeDetails.total obj))
            then PatientDischargeDetailsAdmin.Correct (calculated_float obj)
            else PatientDischargeDetailsAdmin.Mismatch
                   (PatientDischargeDetails.total obj) (calculated_float obj)
       else PatientDischargeDetailsAdmin.Dash),
   (obj, db)).
Proof.
  unfold PatientDischargeDetailsAdmin.calculate_total, bind, getself, ret,
    calculated_float.
  cbn [fst snd].
  destruct (truthy_pk (PatientDischargeDetails.pk obj)); [| reflexivity].
  destruct (Float.eqb _ _); reflexivity.
Qed.

(** C7 (the code departs from it). The checker does return one of three
    mutually exclusive values, without raising and without touching the
    record or the store: [Dash] exactly when the record has no true
    primary key, and otherwise [Correct] or [Mismatch] carrying the sum it
    computed, [Mismatch] also the stated total. But what decides between
    the two is not whether the expected sum equals the stated total: on
    the saved record [discharge_drift] the exact decimal sum of the
    charges, 0.10 + 0.20 + 0.00 + 0.00, equals the stated total 0.30, and
    the checker answers [Mismatch]; the sum it carries is the float
    0.30000000000000004, not the expected sum. *)
Theorem calculate_total_tri_state_by_float :
  (forall (obj : PatientDischargeDetails.t) (db : Store.t PatientDischargeDetails.t),
     exists v,
       PatientDischargeDetailsAdmin.calculate_total (obj, db) = (Ok v, (obj, db)) /\
       (v = PatientDischargeDetailsAdmin.Dash <->
        truthy_pk (PatientDischargeDetails.pk obj) = false) /\
       (truthy_pk (PatientDischargeDetails.pk obj) = true ->
        v = PatientDischargeDetailsAdmin.Correct (calculated_float obj) \/
        v = PatientDischargeDetailsAdmin.Mismatch
              (PatientDischargeDetails.total obj) (calculated_float obj))) /\
  (truthy_pk (PatientDischargeDetails.pk discharge_drift) = true /\
   Decimal.eqb (expected_decimal discharge_drift)
               (PatientDischargeDetails.total discharge_drift) = true /\
   (forall db : Store.t PatientDischargeDetails.t,
      PatientDischargeDetailsAdmin.calculate_total (discharge_drift, db)
      = (Ok (PatientDischargeDetailsAdmin.Mismatch
               (PatientDischargeDetails.total discharge_drift)
               (calculated_float discharge_drift)),
         (discharge_drift, db))) /\
   Float.eqb (calculated_float discharge_drift)
             (Decimal.__float__ (expected_decimal discharge_drift)) = false /\
   calculated_float discharge_drift = S754_finite false 0x13333333333334 (-54) /\
   Decimal.__float__ (expected_decimal discharge_drift)
     = S754_finite false 0x13333333333333 (-54)).
Proof.
  split.
  - intros obj db. eexists. split; [apply calculate_total_eq |].
    destruct (truthy_pk (PatientDischargeDetails.pk obj)).
    + destruct (Float.eqb _ _); split;
        [split; discriminate | auto | split; discriminate | auto].
    + split; [split; reflexivity | discriminate].
  - split; [reflexivity |].
    split; [vm_compute; reflexivity |].
    split; [intros db; rewrite calculate_total_eq; vm_compute; reflexivity |].
    split; [vm_compute; reflexivity |].
    split; vm_compute; reflexivity.
Qed.

(** The binary64 values of 0.1, 0.2 and 0.3, and of the float sum
    0.1 + 0.2, which is one unit in the last place above 0.3. *)
Lemma float_of_tenths :
  Decimal.__float__ (Decimal.of_cents 10) = S754_finite false 0x1999999999999a (-56) /\
  Decimal.__float__ (Decimal.of_cents 20) = S754_finite false 0x1999999999999a (-55) /\
  Decimal.__float__ (Decimal.of_cents 30) = S754_finite false 0x13333333333333 (-54) /\
  Float.add (Decimal.__float__ (Decimal.of_cents 10))
            (Decimal.__float__ (Decimal.of_cents 20))
    = S754_finite false 0x13333333333334 (-54).
Proof. vm_compute. repeat split. Qed.

(** C1 (the code departs from it). On the saved record [discharge_drift]
    the four charges 0.10 + 0.20 + 0.00 + 0.00 sum to the stated total
    0.30 in exact decimal arithmetic, yet [calculate_total], which adds
    the charges as binary floats, reports a mismatch: its sum is
    0.30000000000000004 and the float of the total is 0.3. *)
Theorem calculate_total_float_drift (db : Store.t PatientDischargeDetails.t) :
  (Decimal.value (PatientDischargeDetails.room_charge discharge_drift)
   + Decimal.value (PatientDischargeDetails.medicine_cost discharge_drift)
   + Decimal.value (PatientDischargeDetails.doctor_fee discharge_drift)
   + Decimal.value (PatientDischargeDetails.other_charge discharge_drift)
   == Decimal.value (PatientDischargeDetails.total discharge_drift))%Q /\
  Decimal.eqb (expected_decimal discharge_drift)
              (PatientDischargeDetails.total discharge_drift) = true /\
  PatientDischargeDetailsAdmin.calculate_total (discharge_drift, db)
  = (Ok (PatientDischargeDetailsAdmin.Mismatch
           (Decimal.of_cents 30) (S754_finite false 0x13333333333334 (-54))),
     (discharge_drift, db)) /\
  Decimal.__float__ (PatientDischargeDetails.total discharge_drift)
  = S754_finite false 0x13333333333333 (-54).
Proof.
  split; [vm_compute; reflexivity |].
  split; [vm_compute; reflexivity |].
  split; [| vm_compute; reflexivity].
  rewrite calculate_total_eq. vm_compute. reflexivity.
Qed.

(** * Further properties of the code *)

(** ** [Patient.age] *)

Lemma tuple_lt_spec (a b c d : Z) :
  tuple_lt (a, b) (c, d) = true <-> a < c \/ (a = c /\ b < d).
Proof.
  unfold tuple_lt. cbn [fst snd].
  rewrite orb_true_iff, andb_true_iff, !Z.ltb_lt, Z.eqb_eq. reflexivity.
Qed.

(** X1. [Patient.age] is the number of completed years: it is [a] exactly
    when today lies on or after the [a]-th anniversary of the date of birth
    and before the next one; it is [None] exactly when there is no date of
    birth. *)
Theorem patient_age_completed_years (today : Date.t) (self : Patient.t) :
  (Patient.age today self = None <-> Patient.date_of_birth self = None) /\
  (forall a,
     Patient.age today self = Some a <->
     exists dob, Patient.date_of_birth self = Some dob /\
                 Date.le (Date.anniversary a dob) today /\
                 Date.lt today (Date.anniversary (a + 1) dob)).
Proof.
  unfold Patient.age, Date.le, Date.lt, Date.anniversary.
  destruct (Patient.date_of_birth self) as [dob|]; cbn [Date.year Date.month Date.day].
  - split; [split; discriminate |].
    intros a.
    destruct (tuple_lt _ _) eqn:Hlt;
      [apply tuple_lt_spec in Hlt
      | assert (Hge : ~ (Date.month today < Date.month dob \/
                         (Date.month today = Date.month dob /\
                          Date.day today < Date.day dob)))
          by (rewrite <- tuple_lt_spec, Hlt; discriminate)];
      (split; [intros [= <-]; exists dob; split; [reflexivity | lia]
              | intros (dob' & [= <-] & H1 & H2); f_equal; lia]).
  - split; [split; reflexivity |].
    intros a. split; [discriminate | intros (dob & Hd & _); discriminate].
Qed.

(** X2. The age is negative exactly when the date of birth lies after
    today: nothing in [age] rejects a date of birth in the future. *)
Theorem patient_age_negative_iff_born_later
    (today dob : Date.t) (self : Patient.t) :
  Patient.date_of_birth self = Some dob ->
  exists a, Patient.age today self = Some a /\ (a < 0 <-> Date.lt today dob).
Proof.
  intros Hd. unfold Patient.age. rewrite Hd. eexists. split; [reflexivity |].
  unfold Date.lt.
  destruct (tuple_lt _ _) eqn:Hlt;
    [apply tuple_lt_spec in Hlt
    | assert (Hge : ~ (Date.month today < Date.month dob \/
                       (Date.month today = Date.month dob /\
                        Date.day today < Date.day dob)))
        by (rewrite <- tuple_lt_spec, Hlt; discriminate)];
    lia.
Qed.

(** X3. The age never decreases as the clock advances. *)
Theorem patient_age_monotone (today today' : Date.t) (self : Patient.t) (a a' : Z) :
  Date.le today today' ->
  Patient.age today self = Some a ->
  Patient.age today' self = Some a' ->
  a <= a'.
Proof.
  unfold Patient.age, Date.le, Date.lt.
  destruct (Patient.date_of_birth self) as [dob|]; [| discriminate].
  intros Hle [= <-] [= <-].
  destruct (tuple_lt (Date.month today, _) _) eqn:Hlt;
    destruct (tuple_lt (Date.month today', _) _) eqn:Hlt';
    try (apply tuple_lt_spec in Hlt);
    try (apply tuple_lt_spec in Hlt');
    try (assert (Hge : ~ (Date.month today < Date.month dob \/
                          (Date.month today = Date.month dob /\
                           Date.day today < Date.day dob)))
           by (rewrite <- tuple_lt_spec, Hlt; discriminate));
    try (assert (Hge' : ~ (Date.month today' < Date.month dob \/
                           (Date.month today' = Date.month dob /\
                            Date.day today' < Date.day dob)))
           by (rewrite <- tuple_lt_spec, Hlt'; discriminate));
    lia.
Qed.

Lemma patient_age_completed_years_witness :
  Patient.age {| Date.year := 2024; Date.month := 2; Date.day := 28 |} patient_leap
    = Some 23 /\
  Patient.age {| Date.year := 2024; Date.month := 2; Date.day := 29 |} patient_leap
    = Some 24.
Proof.
  split.
  - apply (patient_age_completed_years _ patient_leap).
    eexists. split; [reflexivity |].
    unfold Date.le, Date.lt. cbn. lia.
  - apply (patient_age_completed_years _ patient_leap).
    eexists. split; [reflexivity |].
    unfold Date.le, Date.lt. cbn. lia.
Defined.

Lemma patient_age_negative_iff_born_later_witness :
  Patient.age {| Date.year := 2000; Date.month := 2; Date.day := 28 |} patient_leap
    = Some (-1).
Proof.
  destruct (patient_age_negative_iff_born_later
              {| Date.year := 2000; Date.month := 2; Date.day := 28 |}
              {| Date.year := 2000; Date.month := 2; Date.day := 29 |}
              patient_leap) as (a & Ha & _).
  - reflexivity.
  - rewrite Ha. vm_compute in Ha. injection Ha as <-. reflexivity.
Defined.

Lemma patient_age_monotone_witness : 23 <= 24.
Proof.
  apply (patient_age_monotone
           {| Date.year := 2024; Date.month := 2; Date.day := 28 |}
           {| Date.year := 2024; Date.month := 2; Date.day := 29 |}
           patient_leap).
  - unfold Date.le, Date.lt. cbn. lia.
  - reflexivity.
  - reflexivity.
Defined.

(** ** Slices and lengths of strings *)

Lemma string_length_app (a b : string) :
  String.length (a +:+ b) = (String.length a + String.length b)%nat.
Proof. induction a as [| c a IH]; simpl; [reflexivity | f_equal; exact IH]. Qed.

Lemma py_slice_to_length (n : nat) (s : string) :
  String.length (py_slice_to n s) = Nat.min n (String.length s).
Proof.
  unfold py_slice_to. revert n.
  induction s as [| c s IH]; intros [| n]; simpl; try reflexivity.
  f_equal. apply IH.
Qed.

Lemma py_slice_to_prefix (n : nat) (s : string) :
  exists rest, s = py_slice_to n s +:+ rest.
Proof.
  unfold py_slice_to. revert n.
  induction s as [| c s IH]; intros [| n]; simpl.
  - exists "". reflexivity.
  - exists "". reflexivity.
  - exists (String c s). reflexivity.
  - destruct (IH n) as [rest Hrest]. exists rest.
    change (String c s = String c (String.substring 0 n s +:+ rest)).
    f_equal. exact Hrest.
Qed.

Lemma py_slice_to_app (a b : string) :
  py_slice_to (String.length a) (a +:+ b) = a.
Proof.
  unfold py_slice_to. induction a as [| c a IH]; simpl.
  - destruct b; reflexivity.
  - f_equal. exact IH.
Qed.

(** ** [PatientAdmin.symptoms_short] *)

(** X4. [symptoms_short] shows a text of at most 50 characters as it is,
    and a longer one as its first 50 characters followed by three dots;
    the column is never wider than 53 characters. *)
Theorem symptoms_short_spec (obj : Patient.t) :
  ((String.length (Patient.symptoms obj) <= 50)%nat ->
   PatientAdmin.symptoms_short obj = Patient.symptoms obj) /\
  ((50 < String.length (Patient.symptoms obj))%nat ->
   exists head rest,
     Patient.symptoms obj = head +:+ rest /\ String.length head = 50%nat /\
     PatientAdmin.symptoms_short obj = head +:+ "...") /\
  (String.length (PatientAdmin.symptoms_short obj) <= 53)%nat.
Proof.
  unfold PatientAdmin.symptoms_short.
  destruct (Nat.ltb_spec 50 (String.length (Patient.symptoms obj))) as [Hlong | Hshort];
    cbv iota.
  - split; [lia |]. split.
    + intros _. destruct (py_slice_to_prefix 50 (Patient.symptoms obj)) as [rest Hrest].
      exists (py_slice_to 50 (Patient.symptoms obj)), rest.
      split; [exact Hrest |]. split; [| reflexivity].
      rewrite py_slice_to_length. lia.
    + rewrite string_length_app, py_slice_to_length.
    change (String.length "...") with 3%nat. lia.
  - split; [reflexivity |]. split; [lia | lia].
Qed.

(** X5. For a text of 51 or 52 characters, and for no other, what
    [symptoms_short] shows is longer than the text itself. *)
Theorem symptoms_short_longer_than_text (obj : Patient.t) :
  (String.length (Patient.symptoms obj)
     < String.length (PatientAdmin.symptoms_short obj))%nat <->
  String.length (Patient.symptoms obj) = 51%nat \/
  String.length (Patient.symptoms obj) = 52%nat.
Proof.
  unfold PatientAdmin.symptoms_short.
  destruct (Nat.ltb_spec 50 (String.length (Patient.symptoms obj))) as [Hlong | Hshort];
    cbv iota.
  - rewrite string_length_app, py_slice_to_length.
    change (String.length "...") with 3%nat. lia.
  - lia.
Qed.

(** X6. Shortening is idempotent: shortening the shortened text gives the
    same text again. *)
Theorem symptoms_short_idempotent (obj : Patient.t) :
  PatientAdmin.symptoms_short
    (Patient.set_symptoms (PatientAdmin.symptoms_short obj) obj)
  = PatientAdmin.symptoms_short obj.
Proof.
  unfold PatientAdmin.symptoms_short. cbn [Patient.symptoms Patient.set_symptoms].
  destruct (Nat.ltb_spec 50 (String.length (Patient.symptoms obj))) as [Hlong | Hshort];
    cbv iota.
  - set (head := py_slice_to 50 (Patient.symptoms obj)).
    assert (Hhead : String.length head = 50%nat)
      by (unfold head; rewrite py_slice_to_length; lia).
    rewrite string_length_app, Hhead. change (String.length "...") with 3%nat.
    replace (50 <? 50 + 3)%nat with true by (symmetry; apply Nat.ltb_lt; lia).
    rewrite <- Hhead, py_slice_to_app. reflexivity.
  - destruct (Nat.ltb_spec 50 (String.length (Patient.symptoms obj))); [lia | reflexivity].
Qed.

Lemma symptoms_short_spec_witness :
  PatientAdmin.symptoms_short patient0 = "Fever" /\
  String.length (PatientAdmin.symptoms_short patient_long) = 53%nat.
Proof.
  destruct (symptoms_short_spec patient0) as (Hshort & _ & _).
  destruct (symptoms_short_spec patient_long) as (_ & Hlong & _).
  split.
  - rewrite Hshort; [reflexivity | vm_compute; lia].
  - destruct Hlong as (head & rest & _ & Hlen & ->); [vm_compute; lia |].
    rewrite string_length_app, Hlen. reflexivity.
Defined.

Lemma symptoms_short_longer_than_text_witness :
  (51 < String.length
          (PatientAdmin.symptoms_short
             (Patient.set_symptoms (String.concat "" (replicate 51 "x")) patient0)))%nat.
Proof.
  apply (symptoms_short_longer_than_text
           (Patient.set_symptoms (String.concat "" (replicate 51 "x")) patient0)).
  left. vm_compute. reflexivity.
Defined.

(** ** What [save] leaves in [self], whatever its outcome *)

Lemma Model_save_self_after_shape {T} `{Model T} `{!ModelLaws T}
    (self : T) (db : Store.t T) :
  exists v b,
    self_after (Model_save (self, db))
    = _set_pk_val v (pre_save b (Store.today db) self).
Proof.
  destruct (Model_save_self_after self db) as [Hs | [Hs | Hs]]; rewrite Hs.
  - exists (_get_pk_val self), false.
    rewrite pre_save_update. symmetry. apply set_get_pk. reflexivity.
  - exists (_get_pk_val (pre_save (inserting self db) (Store.today db) self)),
           (inserting self db).
    symmetry. apply set_get_pk. reflexivity.
  - eauto.
Qed.

Lemma patient_self_after (self : Patient.t) (db : Store.t Patient.t) :
  exists v b,
    self_after (Patient.save (self, db))
    = Patient.set_pk v (pre_save b (Store.today db) (patient_sync self)).
Proof.
  rewrite patient_save_eq.
  destruct (Model_save_self_after_shape (patient_sync self) db) as (v & b & Hs).
  exists v, b. exact Hs.
Qed.

Lemma appointment_self_after (self : Appointment.t) (db : Store.t Appointment.t) :
  exists v,
    self_after (Appointment.save (self, db))
    = Appointment.set_pk v (appointment_sync self).
Proof.
  rewrite appointment_save_eq.
  destruct (Model_save_self_after_shape (appointment_sync self) db) as (v & b & Hs).
  exists v. exact Hs.
Qed.

Lemma discharge_self_after (self : PatientDischargeDetails.t)
    (db : Store.t PatientDischargeDetails.t) :
  exists v,
    self_after (PatientDischargeDetails.save (self, db))
    = PatientDischargeDetails.set_pk v (discharge_sync self).
Proof.
  rewrite discharge_save_eq.
  destruct (Model_save_self_after_shape (discharge_sync self) db) as (v & b & Hs).
  exists v. rewrite Hs, discharge_pre_save. reflexivity.
Qed.

(** The assignments of the discharge [save] leave the stay details alone. *)
Lemma discharge_sync_frame (self : PatientDischargeDetails.t) :
  PatientDischargeDetails.base (discharge_sync self)
    = PatientDischargeDetails.base self /\
  PatientDischargeDetails.admit_date (discharge_sync self)
    = PatientDischargeDetails.admit_date self /\
  PatientDischargeDetails.release_date (discharge_sync self)
    = PatientDischargeDetails.release_date self /\
  PatientDischargeDetails.day_spent (discharge_sync self)
    = PatientDischargeDetails.day_spent self.
Proof.
  destruct self as [? ? [p|] [d|] ? ? ? ? ? ? ? ? ? ? ? ? ? ? ? ? ? ? ? ? ?];
    repeat split.
Qed.

(** ** The sync invariant *)

(** The legacy fields [save] leaves, in terms of the record it was
    called on. *)
Lemma appointment_after_save_names (self : Appointment.t) (db : Store.t Appointment.t) :
  Appointment.patientName (self_after (Appointment.save (self, db))) =
    match Appointment.patient self with
    | Some p => Patient.get_name p
    | None => Appointment.patientName self
    end /\
  Appointment.doctorName (self_after (Appointment.save (self, db))) =
    match Appointment.doctor self with
    | Some d => Doctor.get_name d
    | None => Appointment.doctorName self
    end.
Proof.
  destruct (appointment_self_after self db) as (v & ->).
  destruct (appointment_sync_spec self) as (_ & _ & _ & _ & _ & Hpn & _ & Hdn & _).
  split; [exact Hpn | exact Hdn].
Qed.

Lemma discharge_after_save_mirrors (self : PatientDischargeDetails.t)
    (db : Store.t PatientDischargeDetails.t) :
  match PatientDischargeDetails.patient self with
  | Some p =>
      PatientDischargeDetails.patientName
        (self_after (PatientDischargeDetails.save (self, db))) = Patient.get_name p /\
      PatientDischargeDetails.address
        (self_after (PatientDischargeDetails.save (self, db))) = Patient.address p /\
      PatientDischargeDetails.mobile
        (self_after (PatientDischargeDetails.save (self, db))) = Patient.mobile p
  | None => True
  end /\
  PatientDischargeDetails.assignedDoctorName
    (self_after (PatientDischargeDetails.save (self, db))) =
    match PatientDischargeDetails.assigned_doctor self with
    | Some d => Doctor.get_name d
    | None => PatientDischargeDetails.assignedDoctorName self
    end /\
  PatientDischargeDetails.roomCharge
    (self_after (PatientDischargeDetails.save (self, db)))
    = Some (Decimal.__int__ (PatientDischargeDetails.room_charge self)) /\
  PatientDischargeDetails.medicineCost
    (self_after (PatientDischargeDetails.save (self, db)))
    = Some (Decimal.__int__ (PatientDischargeDetails.medicine_cost self)) /\
  PatientDischargeDetails.doctorFee
    (self_after (PatientDischargeDetails.save (self, db)))
    = Some (Decimal.__int__ (PatientDischargeDetails.doctor_fee self)) /\
  PatientDischargeDetails.OtherCharge
    (self_after (PatientDischargeDetails.save (self, db)))
    = Some (Decimal.__int__ (PatientDischargeDetails.other_charge self)).
Proof.
  destruct (discharge_self_after self db) as (v & ->).
  pose proof (discharge_sync_spec self) as Hspec. cbv zeta in Hspec.
  revert Hspec. generalize (discharge_sync self). intros y Hspec.
  destruct Hspec as (_ & _ & Hpat & Hdoc & _ & (Hlr & Hlm & Hlf & Hlo)).
  cbn. split; [| auto 10].
  destruct (PatientDischargeDetails.patient self); [| exact I].
  destruct Hpat as (_ & Hn & Ha & Hm & _). auto.
Qed.


(** X8. No call of [save] changes a canonical field of [self], the
    profile picture apart: only the legacy fields, the key and, for a
    patient, the admission date that is filled in on insert can differ
    afterwards. (The profile picture is left out: [Model.save] commits a
    freshly uploaded file to storage, which renames it.) *)
Theorem save_keeps_canonical_fields :
  (forall (self : Patient.t) (db : Store.t Patient.t),
     let self' := self_after (Patient.save (self, db)) in
     Patient.base self' = Patient.base self /\
     Patient.user self' = Patient.user self /\
     Patient.address self' = Patient.address self /\
     Patient.mobile self' = Patient.mobile self /\
     Patient.symptoms self' = Patient.symptoms self /\
     Patient.assigned_doctor self' = Patient.assigned_doctor self /\
     Patient.status self' = Patient.status self /\
     Patient.blood_group self' = Patient.blood_group self /\
     Patient.date_of_birth self' = Patient.date_of_birth self /\
     Patient.emergency_contact self' = Patient.emergency_contact self /\
     (Patient.admit_date self' = Patient.admit_date self \/
      Patient.admit_date self' = Some (Store.today db))) /\
  (forall (self : Appointment.t) (db : Store.t Appointment.t),
     let self' := self_after (Appointment.save (self, db)) in
     Appointment.base self' = Appointment.base self /\
     Appointment.patient self' = Appointment.patient self /\
     Appointment.doctor self' = Appointment.doctor self /\
     Appointment.appointment_date self' = Appointment.appointment_date self /\
     Appointment.description self' = Appointment.description self /\
     Appointment.status self' = Appointment.status self) /\
  (forall (self : PatientDischargeDetails.t) (db : Store.t PatientDischargeDetails.t),
     let self' := self_after (PatientDischargeDetails.save (self, db)) in
     PatientDischargeDetails.base self' = PatientDischargeDetails.base self /\
     PatientDischargeDetails.patient self' = PatientDischargeDetails.patient self /\
     PatientDischargeDetails.assigned_doctor self'
       = PatientDischargeDetails.assigned_doctor self /\
     PatientDischargeDetails.admit_date self'
       = PatientDischargeDetails.admit_date self /\
     PatientDischargeDetails.release_date self'
       = PatientDischargeDetails.release_date self /\
     PatientDischargeDetails.day_spent self'
       = PatientDischargeDetails.day_spent self /\
     PatientDischargeDetails.room_charge self'
       = PatientDischargeDetails.room_charge self /\
     PatientDischargeDetails.medicine_cost self'
       = PatientDischargeDetails.medicine_cost self /\
     PatientDischargeDetails.doctor_fee self'
       = PatientDischargeDetails.doctor_fee self /\
     PatientDischargeDetails.other_charge self'
       = PatientDischargeDetails.other_charge self /\
     PatientDischargeDetails.total self' = PatientDischargeDetails.total self).
Proof.
  split; [| split]; intros self db self'; subst self'.
  - destruct (patient_self_after self db) as (v & b & ->).
    destruct self as [? ? ? ? ? ? ? [d|] ? ? ? ? ? ?], b; cbn; auto 20.
  - destruct (appointment_self_after self db) as (v & ->).
    destruct self as [? ? [p|] [d|] [dt|] ? ? ? ? ? ? ?]; cbn; auto 10.
  - destruct (discharge_self_after self db) as (v & ->).
    pose proof (discharge_sync_spec self) as Hspec. cbv zeta in Hspec.
    pose proof (discharge_sync_frame self) as Hframe.
    revert Hspec Hframe. generalize (discharge_sync self). intros y Hspec Hframe.
    destruct Hspec as ((_ & Hp & Hd) & (Hr & Hm & Hf & Ho & Ht) & _).
    destruct Hframe as (Hb & Ha & Hre & Hds).
    cbn. auto 20.
Qed.

(** ** Mirrored names and contact data against their declared lengths *)

Lemma doctor_get_name_length (d : Doctor.t) :
  String.length (Doctor.get_name d)
  = (String.length (User.first_name (Doctor.user d))
     + String.length (User.last_name (Doctor.user d)) + 1)%nat.
Proof.
  unfold Doctor.get_name. rewrite !string_length_app.
  change (String.length " ") with 1%nat. lia.
Qed.

Lemma patient_get_name_length (p : Patient.t) :
  String.length (Patient.get_name p)
  = (String.length (User.first_name (Patient.user p))
     + String.length (User.last_name (Patient.user p)) + 1)%nat.
Proof.
  unfold Patient.get_name. rewrite !string_length_app.
  change (String.length " ") with 1%nat. lia.
Qed.

(** X9. [save] mirrors names whole: a legacy name has as many characters
    as the first and last name together plus one, so it is longer than the
    100 characters its field declares exactly when the two names have 100
    characters or more between them. *)
Theorem save_legacy_names_exceed_max_length :
  (forall (self : Appointment.t) (db : Store.t Appointment.t) (p : Patient.t),
     Appointment.patient self = Some p ->
     (Appointment.patientName_max_length
        < String.length (Appointment.patientName
                           (self_after (Appointment.save (self, db)))))%nat
     <-> (100 <= String.length (User.first_name (Patient.user p))
                 + String.length (User.last_name (Patient.user p)))%nat) /\
  (forall (self : Appointment.t) (db : Store.t Appointment.t) (d : Doctor.t),
     Appointment.doctor self = Some d ->
     (Appointment.doctorName_max_length
        < String.length (Appointment.doctorName
                           (self_after (Appointment.save (self, db)))))%nat
     <-> (100 <= String.length (User.first_name (Doctor.user d))
                 + String.length (User.last_name (Doctor.user d)))%nat) /\
  (forall (self : PatientDischargeDetails.t) (db : Store.t PatientDischargeDetails.t)
          (p : Patient.t),
     PatientDischargeDetails.patient self = Some p ->
     (PatientDischargeDetails.patientName_max_length
        < String.length (PatientDischargeDetails.patientName
                           (self_after (PatientDischargeDetails.save (self, db)))))%nat
     <-> (100 <= String.length (User.first_name (Patient.user p))
                 + String.length (User.last_name (Patient.user p)))%nat) /\
  (forall (self : PatientDischargeDetails.t) (db : Store.t PatientDischargeDetails.t)
          (d : Doctor.t),
     PatientDischargeDetails.assigned_doctor self = Some d ->
     (PatientDischargeDetails.assignedDoctorName_max_length
        < String.length (PatientDischargeDetails.assignedDoctorName
                           (self_after (PatientDischargeDetails.save (self, db)))))%nat
     <-> (100 <= String.length (User.first_name (Doctor.user d))
                 + String.length (User.last_name (Doctor.user d)))%nat).
Proof.
  split; [| split; [| split]]; intros self db r Hr.
  - destruct (appointment_after_save_names self db) as [-> _]. rewrite Hr.
    rewrite patient_get_name_length.
    unfold Appointment.patientName_max_length. lia.
  - destruct (appointment_after_save_names self db) as [_ ->]. rewrite Hr.
    rewrite doctor_get_name_length.
    unfold Appointment.doctorName_max_length. lia.
  - destruct (discharge_after_save_mirrors self db) as (Hs & _).
    rewrite Hr in Hs. destruct Hs as (-> & _).
    rewrite patient_get_name_length.
    unfold PatientDischargeDetails.patientName_max_length. lia.
  - destruct (discharge_after_save_mirrors self db) as (_ & -> & _). rewrite Hr.
    rewrite doctor_get_name_length.
    unfold PatientDischargeDetails.assignedDoctorName_max_length. lia.
Qed.

(** X10. The mirrored address and mobile number fit their fields
    whenever the patient's own fit theirs: the declared lengths are the
    same on both sides (200 and 20). *)
Theorem discharge_save_contact_mirrors_fit
    (self : PatientDischargeDetails.t) (db : Store.t PatientDischargeDetails.t)
    (p : Patient.t) :
  PatientDischargeDetails.patient self = Some p ->
  ((String.length (Patient.address p) <= Patient.address_max_length)%nat ->
   (String.length (PatientDischargeDetails.address
                     (self_after (PatientDischargeDetails.save (self, db))))
      <= PatientDischargeDetails.address_max_length)%nat) /\
  ((String.length (Patient.mobile p) <= Patient.mobile_max_length)%nat ->
   (String.length (PatientDischargeDetails.mobile
                     (self_after (PatientDischargeDetails.save (self, db))))
      <= PatientDischargeDetails.mobile_max_length)%nat).
Proof.
  intros Hp.
  destruct (discharge_after_save_mirrors self db) as (Hs & _).
  rewrite Hp in Hs. destruct Hs as (_ & -> & ->).
  unfold PatientDischargeDetails.address_max_length, Patient.address_max_length,
    PatientDischargeDetails.mobile_max_length, Patient.mobile_max_length.
  split; intros H; exact H.
Qed.

Lemma discharge_save_contact_mirrors_fit_witness :
  (String.length (PatientDischargeDetails.address discharge_fractional_saved)
     <= 200)%nat /\
  (String.length (PatientDischargeDetails.mobile discharge_fractional_saved)
     <= 20)%nat.
Proof.
  destruct (discharge_save_contact_mirrors_fit discharge_fractional empty_store patient0)
    as [Ha Hm]; [reflexivity |].
  split; [apply Ha | apply Hm]; vm_compute; lia.
Defined.

(** ** Truncated charges *)

(** [int] of a decimal is negative exactly when the decimal is at most -1. *)
Lemma decimal_int_negative (d : Decimal.t) :
  Decimal.__int__ d < 0 <-> (Decimal.value d <= -1)%Q.
Proof.
  rewrite decimal_int_truncates.
  destruct (truncate_toward_zero (Decimal.value d)) as [Hpos Hneg].
  destruct (Qlt_le_dec (Decimal.value d) 0) as [Hlt | Hge].
  - destruct (Hneg Hlt) as (_ & _ & Hup). split; intros H.
    + apply Qle_trans with (inject_Z (truncate (Decimal.value d))); [exact Hup |].
      change (-1)%Q with (inject_Z (-1)). rewrite <- Zle_Qle. lia.
    + unfold truncate.
      replace (Qle_bool 0 (Decimal.value d)) with false.
      * apply Qceiling_resp_le in H. change (Qceiling (-1)) with (-1) in H. lia.
      * symmetry. destruct (Qle_bool 0 (Decimal.value d)) eqn:Hb; [| reflexivity].
        apply Qle_bool_iff in Hb. exfalso. apply (Qlt_not_le _ _ Hlt Hb).
  - destruct (Hpos Hge) as (H0 & _). split; intros H; [lia |].
    exfalso. apply (Qle_not_lt _ _ (Qle_trans _ _ _ Hge H)). reflexivity.
Qed.

(** X11. The integer the discharge [save] assigns to a legacy charge
    field is negative exactly when the charge is at most -1: the legacy
    fields are [PositiveIntegerField]s, but nothing in [save] keeps a
    negative charge out of them. *)
Theorem discharge_save_negative_legacy_charge
    (self : PatientDischargeDetails.t) (db : Store.t PatientDischargeDetails.t) :
  exists r m f o : Z,
    let self' := self_after (PatientDischargeDetails.save (self, db)) in
    (PatientDischargeDetails.roomCharge self' = Some r /\
     (r < 0 <-> (Decimal.value (PatientDischargeDetails.room_charge self) <= -1)%Q)) /\
    (PatientDischargeDetails.medicineCost self' = Some m /\
     (m < 0 <-> (Decimal.value (PatientDischargeDetails.medicine_cost self) <= -1)%Q)) /\
    (PatientDischargeDetails.doctorFee self' = Some f /\
     (f < 0 <-> (Decimal.value (PatientDischargeDetails.doctor_fee self) <= -1)%Q)) /\
    (PatientDischargeDetails.OtherCharge self' = Some o /\
     (o < 0 <-> (Decimal.value (PatientDischargeDetails.other_charge self) <= -1)%Q)).
Proof.
  destruct (discharge_after_save_mirrors self db) as (_ & _ & Hlr & Hlm & Hlf & Hlo).
  do 4 eexists. cbv zeta.
  repeat split; try eassumption; apply decimal_int_negative.
Qed.

Lemma qfloor_sum_bounds (a b c d : Q) :
  Qfloor a + Qfloor b + Qfloor c + Qfloor d <= Qfloor (a + b + c + d)
  <= Qfloor a + Qfloor b + Qfloor c + Qfloor d + 3.
Proof.
  pose proof (Qfloor_le a) as Ha. pose proof (Qlt_floor a) as Ha'.
  pose proof (Qfloor_le b) as Hb. pose proof (Qlt_floor b) as Hb'.
  pose proof (Qfloor_le c) as Hc. pose proof (Qlt_floor c) as Hc'.
  pose proof (Qfloor_le d) as Hd. pose proof (Qlt_floor d) as Hd'.
  split.
  - rewrite <- (Qfloor_Z (Qfloor a + Qfloor b + Qfloor c + Qfloor d)).
    apply Qfloor_resp_le. rewrite !inject_Z_plus.
    repeat apply Qplus_le_compat; assumption.
  - assert (Hlt : (inject_Z (Qfloor (a + b + c + d))
                   < inject_Z (Qfloor a + Qfloor b + Qfloor c + Qfloor d + 4))%Q).
    { apply Qle_lt_trans with (a + b + c + d)%Q; [apply Qfloor_le |].
      replace (Qfloor a + Qfloor b + Qfloor c + Qfloor d + 4)
        with ((Qfloor a + 1) + (Qfloor b + 1) + (Qfloor c + 1) + (Qfloor d + 1)) by lia.
      rewrite !(inject_Z_plus (_ + _)).
      repeat apply Qplus_lt_le_compat; try assumption; apply Qlt_le_weak; assumption. }
    rewrite <- Zlt_Qlt in Hlt. lia.
Qed.

(** X12. With no negative charge, the four legacy charges that [save]
    assigns add up to at most the truncated exact sum of the charges, and
    fall short of it by at most 3: truncating charge by charge loses up to
    three units against truncating the bill. *)
Theorem discharge_save_legacy_charges_sum
    (self : PatientDischargeDetails.t) (db : Store.t PatientDischargeDetails.t) :
  (0 <= Decimal.value (PatientDischargeDetails.room_charge self))%Q ->
  (0 <= Decimal.value (PatientDischargeDetails.medicine_cost self))%Q ->
  (0 <= Decimal.value (PatientDischargeDetails.doctor_fee self))%Q ->
  (0 <= Decimal.value (PatientDischargeDetails.other_charge self))%Q ->
  exists r m f o : Z,
    let self' := self_after (PatientDischargeDetails.save (self, db)) in
    PatientDischargeDetails.roomCharge self' = Some r /\
    PatientDischargeDetails.medicineCost self' = Some m /\
    PatientDischargeDetails.doctorFee self' = Some f /\
    PatientDischargeDetails.OtherCharge self' = Some o /\
    r + m + f + o
    <= truncate (Decimal.value (PatientDischargeDetails.room_charge self)
                 + Decimal.value (PatientDischargeDetails.medicine_cost self)
                 + Decimal.value (PatientDischargeDetails.doctor_fee self)
                 + Decimal.value (PatientDischargeDetails.other_charge self))
    <= r + m + f + o + 3.
Proof.
  intros H1 H2 H3 H4.
  destruct (discharge_after_save_mirrors self db) as (_ & _ & Hlr & Hlm & Hlf & Hlo).
  do 4 eexists. cbv zeta.
  repeat (split; [eassumption |]).
  rewrite !decimal_int_truncates.
  assert (Htr : forall q, (0 <= q)%Q -> truncate q = Qfloor q).
  { intros q Hq. unfold truncate.
    replace (Qle_bool 0 q) with true; [reflexivity |].
    symmetry. apply Qle_bool_iff. exact Hq. }
  rewrite !Htr; try assumption.
  - apply qfloor_sum_bounds.
  - apply Qle_trans with (0 + 0 + 0 + 0)%Q; [exact (Qle_refl 0) |].
    repeat apply Qplus_le_compat; assumption.
Qed.

Lemma discharge_save_legacy_charges_sum_witness :
  100 + 50 + 200 + 10
  <= truncate (Decimal.value (Decimal.of_cents 10075)
               + Decimal.value (Decimal.of_cents 5050)
               + Decimal.value (Decimal.of_cents 20025)
               + Decimal.value (Decimal.of_cents 1099))
  <= 100 + 50 + 200 + 10 + 3.
Proof.
  assert (H1 : (0 <= Decimal.value (Decimal.of_cents 10075))%Q)
    by (vm_compute; discriminate).
  assert (H2 : (0 <= Decimal.value (Decimal.of_cents 5050))%Q)
    by (vm_compute; discriminate).
  assert (H3 : (0 <= Decimal.value (Decimal.of_cents 20025))%Q)
    by (vm_compute; discriminate).
  assert (H4 : (0 <= Decimal.value (Decimal.of_cents 1099))%Q)
    by (vm_compute; discriminate).
  destruct (discharge_save_legacy_charges_sum discharge_fractional empty_store
              H1 H2 H3 H4)
    as (r & m & f & o & Hr & Hm & Hf & Ho & Hsum).
  vm_compute in Hr, Hm, Hf, Ho.
  injection Hr as <-. injection Hm as <-. injection Hf as <-. injection Ho as <-.
  exact Hsum.
Defined.

Lemma save_legacy_names_exceed_max_length_witness :
  (100 < String.length
           (Appointment.doctorName
              (self_after
                 (Appointment.save
                    (appointment_new (Some patient0) (Some doctor_long_name) (Some epoch),
                     empty_store)))))%nat /\
  ~ (100 < String.length
             (Appointment.patientName
                (self_after
                   (Appointment.save
                      (appointment_new (Some patient0) (Some doctor_long_name)
                         (Some epoch),
                       empty_store)))))%nat.
Proof.
  destruct save_legacy_names_exceed_max_length as (Hp & Hd & _).
  split.
  - apply (Hd _ empty_store doctor_long_name); [reflexivity |].
    vm_compute. lia.
  - intros Hlong.
    apply (Hp _ empty_store patient0) in Hlong; [| reflexivity].
    vm_compute in Hlong. lia.
Defined.

(** ** [PatientDischargeDetails.__str__] *)

(** X13. The patient of a discharge record is nullable, and [__str__]
    reads its name: it raises [AttributeError] exactly when [patient] is
    [None], whether or not a doctor is assigned, and otherwise shows the
    patient's name and the release date. *)
Theorem discharge_str_needs_patient (self : PatientDischargeDetails.t) :
  (PatientDischargeDetails.patient self = None ->
   PatientDischargeDetails.__str__ self = (Raise AttributeError, self)) /\
  (forall p, PatientDischargeDetails.patient self = Some p ->
     PatientDischargeDetails.__str__ self
     = (Ok ("Discharge: " +:+ Patient.get_name p +:+ " on " +:+
            Date.isoformat (PatientDischargeDetails.release_date self)),
        self)).
Proof.
  unfold PatientDischargeDetails.__str__, bind, get, ret, raise.
  destruct (PatientDischargeDetails.patient self) as [p|]; split.
  - discriminate.
  - intros p' [= <-]. reflexivity.
  - reflexivity.
  - discriminate.
Qed.

Lemma discharge_str_needs_patient_witness :
  PatientDischargeDetails.__str__ discharge_no_patient
    = (Raise AttributeError, discharge_no_patient) /\
  PatientDischargeDetails.__str__ discharge_no_doctor
    = (Ok "Discharge: Test Pat on 2024-03-09", discharge_no_doctor).
Proof.
  split.
  - apply (discharge_str_needs_patient discharge_no_patient). reflexivity.
  - destruct (discharge_str_needs_patient discharge_no_doctor) as [_ Hsome].
    rewrite (Hsome patient0 eq_refl). vm_compute. reflexivity.
Defined.

(** ** The checker after [save] *)

(** X14. Before its first save a discharge record has no key and the
    checker shows ['-']; once [save] has inserted it into a store whose
    key sequence is not negative, the checker never shows ['-'] again: it
    reports a match or a mismatch. *)
Theorem calculate_total_after_save
    (self self' : PatientDischargeDetails.t)
    (db db' db2 : Store.t PatientDischargeDetails.t) :
  0 <= Store.seq db ->
  PatientDischargeDetails.pk self = None ->
  PatientDischargeDetails.save (self, db) = (Ok tt, (self', db')) ->
  fst (PatientDischargeDetailsAdmin.calculate_total (self, db))
    = Ok PatientDischargeDetailsAdmin.Dash /\
  exists v,
    fst (PatientDischargeDetailsAdmin.calculate_total (self', db2)) = Ok v /\
    v <> PatientDischargeDetailsAdmin.Dash.
Proof.
  intros Hseq Hnone Hs.
  pose proof (discharge_saved_key_truthy _ _ _ _ Hseq Hnone Hs) as Ht.
  rewrite !calculate_total_eq. cbn [fst]. rewrite Hnone, Ht. cbn [truthy_pk].
  split; [reflexivity |].
  eexists. split; [reflexivity |].
  destruct (Float.eqb _ _); discriminate.
Qed.

Lemma calculate_total_after_save_witness :
  fst (PatientDischargeDetailsAdmin.calculate_total (discharge_fractional, empty_store))
    = Ok PatientDischargeDetailsAdmin.Dash /\
  exists v,
    fst (PatientDischargeDetailsAdmin.calculate_total
           (discharge_fractional_saved, empty_store)) = Ok v /\
    v <> PatientDischargeDetailsAdmin.Dash.
Proof.
  apply (calculate_total_after_save discharge_fractional discharge_fractional_saved
           empty_store
           (store_after (PatientDischargeDetails.save (discharge_fractional, empty_store)))
           empty_store).
  - vm_compute. discriminate.
  - reflexivity.
  - vm_compute. reflexivity.
Defined.

(** ** The phone validator *)

(** The matcher finds exactly the splits of the input into a word of the
    expression and a remainder. *)
Lemma regex_rep_spec (step : list ascii -> list (list ascii))
    (L : list ascii -> Prop) :
  (forall s rest, In rest (step s) <-> exists w, s = w ++ rest /\ L w) ->
  forall hi lo s rest,
    In rest (Regex.rep step lo hi s) <->
    exists ws, s = concat ws ++ rest /\ Forall L ws /\ (lo <= length ws <= hi)%nat.
Proof.
  intros Hstep. induction hi as [| hi IH]; intros lo s rest; cbn [Regex.rep].
  - destruct lo as [| lo]; cbn [In].
    + split.
      * intros [<- | []]. exists []. cbn. auto.
      * intros (ws & -> & _ & Hlen). destruct ws; [left; reflexivity | cbn in Hlen; lia].
    + split; [intros [] |]. intros (ws & _ & _ & Hlen). lia.
  - rewrite in_app_iff, in_flat_map. split.
    + intros [(mid & Hmid & Hrest) | Hhere].
      * apply Hstep in Hmid. destruct Hmid as (w & -> & Hw).
        apply IH in Hrest. destruct Hrest as (ws & -> & Hws & Hlen).
        exists (w :: ws). cbn [concat length]. rewrite <- app_assoc.
        split; [reflexivity |]. split; [constructor; assumption | lia].
      * destruct lo; [| destruct Hhere].
        destruct Hhere as [<- | []]. exists []. cbn. split; [reflexivity |].
        split; [constructor | lia].
    + intros (ws & -> & Hws & Hlen). destruct ws as [| w ws].
      * right. destruct lo; [left; reflexivity | cbn in Hlen; lia].
      * left. inversion Hws as [| ? ? Hw Hws']; subst.
        exists (concat ws ++ rest). split.
        -- apply Hstep. exists w. cbn [concat]. rewrite <- app_assoc. auto.
        -- apply IH. exists ws. cbn [length] in Hlen.
           split; [reflexivity |]. split; [assumption | lia].
Qed.

Lemma regex_run_spec (r : Regex.t) :
  forall s rest,
    In rest (Regex.run r s) <-> exists w, s = w ++ rest /\ Regex.lang r w.
Proof.
  induction r as [c | | r IH | r1 IH1 r2 IH2 | r IH lo hi]; intros s rest;
    cbn [Regex.run Regex.lang].
  - destruct s as [| c' s].
    + split; [intros [] | intros (w & Hs & ->); discriminate].
    + destruct (Ascii.eqb_spec c c') as [<- | Hne]; cbn [In].
      * split.
        -- intros [<- | []]. exists [c]. auto.
        -- intros (w & Hs & ->). injection Hs as <-. auto.
      * split; [intros [] |]. intros (w & Hs & ->). injection Hs as <- _. congruence.
  - destruct s as [| c' s].
    + split; [intros [] | intros (w & Hs & c & -> & _); discriminate].
    + destruct (Regex.is_digit c') eqn:Hd; cbn [In].
      * split.
        -- intros [<- | []]. exists [c']. eauto.
        -- intros (w & Hs & c & -> & _). injection Hs as _ <-. auto.
      * split; [intros [] |]. intros (w & Hs & c & -> & Hc).
        injection Hs as <- _. congruence.
  - rewrite in_app_iff, IH. cbn [In]. split.
    + intros [(w & Hs & Hw) | [<- | []]]; [eauto |]. exists []. auto.
    + intros (w & Hs & [-> | Hw]); [right; left; exact Hs | left; eauto].
  - rewrite in_flat_map. split.
    + intros (mid & Hmid & Hrest).
      apply IH1 in Hmid. destruct Hmid as (w1 & -> & Hw1).
      apply IH2 in Hrest. destruct Hrest as (w2 & -> & Hw2).
      exists (w1 ++ w2). rewrite <- app_assoc. eauto 10.
    + intros (w & -> & w1 & w2 & -> & Hw1 & Hw2).
      exists (w2 ++ rest). split.
      * apply IH1. exists w1. rewrite <- app_assoc. auto.
      * apply IH2. eauto.
  - rewrite (regex_rep_spec (Regex.run r) (Regex.lang r) IH). split.
    + intros (ws & -> & Hws & Hlen). eauto 10.
    + intros (w & -> & ws & -> & Hws & Hlen). eauto 10.
Qed.

(** A run of single digits is a list of digits of the same length. *)
Lemma concat_digits (ws : list (list ascii)) :
  Forall (fun w => exists c, w = [c] /\ Regex.is_digit c = true) ws ->
  Forall (fun c => Regex.is_digit c = true) (concat ws) /\
  length (concat ws) = length ws.
Proof.
  induction 1 as [| w ws (c & -> & Hc) _ [IHd IHl]]; cbn.
  - split; [constructor | reflexivity].
  - split; [constructor; assumption | rewrite IHl; reflexivity].
Qed.

Lemma digits_concat (ds : list ascii) :
  Forall (fun c => Regex.is_digit c = true) ds ->
  exists ws, ds = concat ws /\ length ws = length ds /\
             Forall (fun w => exists c, w = [c] /\ Regex.is_digit c = true) ws.
Proof.
  induction 1 as [| c ds Hc _ (ws & -> & Hlen & Hws)].
  - exists []. split; [reflexivity |]. split; [reflexivity | constructor].
  - exists ([c] :: ws). cbn. split; [reflexivity |].
    split; [rewrite Hlen; reflexivity | constructor; eauto].
Qed.

Lemma at_end_spec (rest : list ascii) :
  Regex.at_end rest = true <-> rest = [] \/ rest = ["010"%char].
Proof.
  destruct rest as [| c [| c' rest]]; cbn.
  - split; auto.
  - destruct (Ascii.eqb_spec c "010"%char) as [-> | Hne].
    + split; auto.
    + split; [discriminate | intros [H | H]; [discriminate | congruence]].
  - split; [discriminate | intros [H | H]; discriminate].
Qed.

(** What the validator accepts, and that it accepts all of it. *)
Lemma phone_validator_sound (value : string) :
  phone_validator value = true ->
  exists plus one digits nl,
    String.list_ascii_of_string value = plus ++ one ++ digits ++ nl /\
    (plus = [] \/ plus = ["+"%char]) /\
    (one = [] \/ one = ["1"%char]) /\
    Forall (fun c => Regex.is_digit c = true) digits /\
    (9 <= length digits <= 15)%nat /\
    (nl = [] \/ nl = ["010"%char]).
Proof.
  unfold phone_validator, Regex.search_anchored.
  rewrite existsb_exists.
  intros (rest & Hin & Hend).
  apply regex_run_spec in Hin. destruct Hin as (w & Hs & Hw).
  apply at_end_spec in Hend.
  destruct Hw as (plus & w2 & -> & Hplus & one & w4 & -> & Hone & ws & -> & Hws & Hlen).
  destruct (concat_digits ws Hws) as [Hds Hl].
  exists plus, one, (concat ws), rest.
  rewrite Hs, <- !app_assoc. rewrite Hl.
  repeat split; try assumption; try lia.
Qed.

Lemma phone_validator_complete (value : string) (plus one digits nl : list ascii) :
  String.list_ascii_of_string value = plus ++ one ++ digits ++ nl ->
  plus = [] \/ plus = ["+"%char] ->
  one = [] \/ one = ["1"%char] ->
  Forall (fun c => Regex.is_digit c = true) digits ->
  (9 <= length digits <= 15)%nat ->
  nl = [] \/ nl = ["010"%char] ->
  phone_validator value = true.
Proof.
  intros Hs Hplus Hone Hds Hlen Hnl.
  unfold phone_validator, Regex.search_anchored.
  rewrite existsb_exists.
  exists nl. split; [| apply at_end_spec; exact Hnl].
  apply regex_run_spec. exists (plus ++ one ++ digits).
  split; [rewrite Hs, <- !app_assoc; reflexivity |].
  destruct (digits_concat digits Hds) as (ws & -> & Hl & Hws).
  exists plus, (one ++ concat ws). split; [reflexivity |].
  split; [destruct Hplus as [-> | ->]; cbn; auto |].
  exists one, (concat ws). split; [reflexivity |].
  split; [destruct Hone as [-> | ->]; cbn; auto |].
  exists ws. split; [reflexivity |]. split; [assumption | lia].
Qed.

(** X15. The validator accepts exactly the values made of an optional
    [+], an optional [1], then 9 to 15 digits, optionally followed by one
    final newline. *)
Theorem phone_validator_accepts (value : string) :
  phone_validator value = true <->
  exists plus one digits nl,
    String.list_ascii_of_string value = plus ++ one ++ digits ++ nl /\
    (plus = [] \/ plus = ["+"%char]) /\
    (one = [] \/ one = ["1"%char]) /\
    Forall (fun c => Regex.is_digit c = true) digits /\
    (9 <= length digits <= 15)%nat /\
    (nl = [] \/ nl = ["010"%char]).
Proof.
  split.
  - apply phone_validator_sound.
  - intros (plus & one & digits & nl & Hs & Hplus & Hone & Hds & Hlen & Hnl).
    exact (phone_validator_complete value plus one digits nl
             Hs Hplus Hone Hds Hlen Hnl).
Qed.

Lemma phone_validator_accepts_witness :
  phone_validator "+1234567890" = true /\ phone_validator "12345678" = false.
Proof.
  split.
  - apply phone_validator_accepts.
    exists ["+"%char], ["1"%char],
           (String.list_ascii_of_string "234567890"), [].
    repeat split; auto; try (cbn; lia).
    repeat constructor.
  - vm_compute. reflexivity.
Defined.

Lemma string_length_list (s : string) :
  String.length s = length (String.list_ascii_of_string s).
Proof. induction s as [| c s IH]; simpl; [reflexivity | f_equal; exact IH]. Qed.

Lemma list_ascii_of_string_app (a b : string) :
  String.list_ascii_of_string (a +:+ b)
  = String.list_ascii_of_string a ++ String.list_ascii_of_string b.
Proof. induction a as [| c a IH]; simpl; [reflexivity | f_equal; exact IH]. Qed.

Lemma filter_digits_all (ds : list ascii) :
  Forall (fun c => Regex.is_digit c = true) ds ->
  List.filter Regex.is_digit ds = ds.
Proof.
  induction 1 as [| c ds Hc _ IH]; simpl; [reflexivity |].
  rewrite Hc, IH. reflexivity.
Qed.

(** An accepted value has at most 18 characters. *)
Lemma phone_validator_length_le (value : string) :
  phone_validator value = true -> (String.length value <= 18)%nat.
Proof.
  intros Hv. apply phone_validator_sound in Hv.
  destruct Hv as (plus & one & digits & nl & Hs & Hplus & Hone & _ & Hlen & Hnl).
  rewrite string_length_list, Hs, !length_app.
  destruct Hplus as [-> | ->], Hone as [-> | ->], Hnl as [-> | ->]; cbn [length]; lia.
Qed.

(** X16. An accepted value has 9 to 18 characters, so it fits the 20
    characters of the [mobile] columns, and it has 9 to 16 digits: one
    more than the 15 the validator's message announces, when a [1] comes
    first. *)
Theorem phone_validator_bounds (value : string) :
  phone_validator value = true ->
  (9 <= String.length value <= 18)%nat /\
  (String.length value <= Patient.mobile_max_length)%nat /\
  (9 <= count_digits value <= 16)%nat.
Proof.
  intros Hv. apply phone_validator_sound in Hv.
  destruct Hv as (plus & one & digits & nl & Hs & Hplus & Hone & Hds & Hlen & Hnl).
  unfold count_digits, Patient.mobile_max_length. rewrite string_length_list, Hs.
  rewrite !List.filter_app, !length_app, (filter_digits_all digits Hds).
  assert (Hp : length (List.filter Regex.is_digit plus) = 0%nat /\ (length plus <= 1)%nat)
    by (destruct Hplus as [-> | ->]; vm_compute; split; lia).
  assert (Ho : length (List.filter Regex.is_digit one) = length one /\
               (length one <= 1)%nat)
    by (destruct Hone as [-> | ->]; vm_compute; split; lia).
  assert (Hn : length (List.filter Regex.is_digit nl) = 0%nat /\ (length nl <= 1)%nat)
    by (destruct Hnl as [-> | ->]; vm_compute; split; lia).
  lia.
Qed.

Lemma phone_validator_bounds_witness :
  phone_validator "1234567890123456" = true /\
  count_digits "1234567890123456" = 16%nat.
Proof.
  assert (Hv : phone_validator "1234567890123456" = true) by (vm_compute; reflexivity).
  destruct (phone_validator_bounds "1234567890123456" Hv) as (_ & _ & Hd).
  split; [exact Hv | vm_compute; reflexivity].
Defined.

(** X17. [$] also matches before a final newline: an accepted value that
    does not end in a newline is still accepted with one appended. *)
Theorem phone_validator_trailing_newline (value : string) :
  phone_validator value = true ->
  (forall pre, String.list_ascii_of_string value <> pre ++ ["010"%char]) ->
  phone_validator (value +:+ String "010"%char "") = true.
Proof.
  intros Hv Hlast. apply phone_validator_sound in Hv.
  destruct Hv as (plus & one & digits & nl & Hs & Hplus & Hone & Hds & Hlen & Hnl).
  destruct Hnl as [-> | ->].
  - apply (phone_validator_complete _ plus one digits ["010"%char]); auto.
    rewrite list_ascii_of_string_app, Hs, app_nil_r, <- !app_assoc. reflexivity.
  - exfalso. apply (Hlast (plus ++ one ++ digits)).
    rewrite Hs, <- !app_assoc. reflexivity.
Qed.

Lemma phone_validator_trailing_newline_witness :
  phone_validator ("1234567890" +:+ String "010"%char "") = true.
Proof.
  apply phone_validator_trailing_newline.
  - vm_compute. reflexivity.
  - intros pre Hpre. vm_compute in Hpre.
    do 10 (destruct pre as [| ? pre]; [discriminate | injection Hpre as _ Hpre]).
    destruct pre; discriminate.
Defined.

(** X18. A patient's mobile number that the validator accepts still fits
    the [mobile] field of a discharge record after [save] has mirrored it
    there. *)
Theorem discharge_save_valid_mobile_fits
    (self : PatientDischargeDetails.t) (db : Store.t PatientDischargeDetails.t)
    (p : Patient.t) :
  PatientDischargeDetails.patient self = Some p ->
  phone_validator (Patient.mobile p) = true ->
  (String.length (PatientDischargeDetails.mobile
                    (self_after (PatientDischargeDetails.save (self, db))))
     <= PatientDischargeDetails.mobile_max_length)%nat.
Proof.
  intros Hp Hv.
  destruct (discharge_after_save_mirrors self db) as (Hs & _).
  rewrite Hp in Hs. destruct Hs as (_ & _ & ->).
  pose proof (phone_validator_length_le _ Hv) as Hl.
  unfold PatientDischargeDetails.mobile_max_length. lia.
Qed.

Lemma discharge_save_valid_mobile_fits_witness :
  (String.length (PatientDischargeDetails.mobile discharge_fractional_saved) <= 20)%nat.
Proof.
  apply (discharge_save_valid_mobile_fits discharge_fractional empty_store patient0).
  - reflexivity.
  - vm_compute. reflexivity.
Defined.
(** ** The verification script *)

Lemma sbind_done {A B} (c : verify_fixes.Script A) (k : A -> verify_fixes.Script B)
    (w w' : World.t) (a : A) :
  c w = (verify_fixes.Done a, w') -> verify_fixes.sbind c k w = k a w'.
Proof. intros Hc. unfold verify_fixes.sbind. rewrite Hc. reflexivity. Qed.

Lemma sbind_failed {A B} (c : verify_fixes.Script A) (k : A -> verify_fixes.Script B)
    (w w' : World.t) (e : Error) :
  c w = (verify_fixes.Failed e, w') ->
  verify_fixes.sbind c k w = (verify_fixes.Failed e, w').
Proof. intros Hc. unfold verify_fixes.sbind. rewrite Hc. reflexivity. Qed.

Lemma objects_create_done {T} (table : World.t -> Table.t T)
    (set_table : Table.t T -> World.t -> World.t)
    (save : M (T * Store.t T) unit) (constraints : T -> World.t -> bool)
    (self self' : T) (db' : Store.t T) (w : World.t) :
  save (self, Store.mk (Table.rows (table (World.tick w)))
                       (Table.seq (table (World.tick w)))
                       (World.clock w (World.ticks w)).2) = (Ok tt, (self', db')) ->
  constraints self' (World.tick w) = true ->
  verify_fixes.objects_create table set_table save constraints self w =
    (verify_fixes.Done self',
     set_table (Table.mk (Store.rows db') (Store.seq db')) (World.tick w)).
Proof.
  intros Hsave Hc. unfold verify_fixes.objects_create, verify_fixes.sbind,
    verify_fixes.date_today.
  rewrite Hsave, Hc. reflexivity.
Qed.

Lemma one_to_one_true {T} (user_of : T -> User.t) (pk : option Z) (u : User.t)
    (users : gmap string Z) (tb : Table.t T) (name : string) :
  users !! name = Some (User.id u) ->
  map_Forall (fun _ row => User.id (user_of row) <> User.id u) (Table.rows tb) ->
  one_to_one user_of pk u users tb = true.
Proof.
  intros Hname Hrows. unfold one_to_one. apply andb_true_intro. split.
  - apply bool_decide_eq_true. exists name, (User.id u). split; [exact Hname | reflexivity].
  - apply bool_decide_eq_true. intros k row Hrow. right. exact (Hrows k row Hrow).
Qed.

Lemma fk_valid_true {T} (pk_of : T -> option Z) (x : T) (tb : Table.t T) (k : Z) :
  pk_of x = Some k -> is_Some (Table.rows tb !! k) ->
  fk_valid pk_of (Some x) tb = true.
Proof.
  intros Hpk Hrow. unfold fk_valid. rewrite Hpk. apply bool_decide_eq_true. exact Hrow.
Qed.

(** Creating a doctor for an existing user who has no doctor profile yet
    inserts a row under the next key. *)
Lemma Doctor_objects_create_done (user : User.t) (address mobile department : string)
    (status : bool) (w : World.t) (name : string) :
  World.users w !! name = Some (User.id user) ->
  map_Forall (fun _ row => User.id (Doctor.user row) <> User.id user)
             (Table.rows (World.doctors w)) ->
  let k := Table.seq (World.doctors w) + 1 in
  exists d,
    verify_fixes.Doctor_objects_create user address mobile department status w =
      (verify_fixes.Done d,
       World.set_doctors (Table.mk (<[k := d]> (Table.rows (World.doctors w))) k)
                         (World.tick (World.tick (World.tick w)))) /\
    Doctor.pk d = Some k /\ Doctor.user d = user.
Proof.
  intros Hname Hrows k. eexists. split; [| split].
  - unfold verify_fixes.Doctor_objects_create.
    erewrite sbind_done by reflexivity.
    erewrite objects_create_done; cycle 1.
    { apply Model_save_insert; reflexivity. }
    { eapply one_to_one_true; [exact Hname | exact Hrows]. }
    reflexivity.
  - reflexivity.
  - reflexivity.
Qed.

Lemma fk_valid_saved {T} (pk_of : T -> option Z) (r : option T) (tb : Table.t T) :
  fk_valid pk_of r tb = true -> saved pk_of r.
Proof.
  destruct r as [x|]; [| intros _; exact I].
  unfold fk_valid, saved. destruct (pk_of x); [eauto | discriminate].
Qed.

(** Creating a patient for an existing user who has no patient profile
    yet, assigned to a doctor of the table or to none, inserts a row under
    the next key, with the legacy id in step. *)
Lemma Patient_objects_create_done (user : User.t) (address mobile symptoms : string)
    (assigned_doctor : option Doctor.t) (status : bool) (w : World.t) (name : string) :
  World.users w !! name = Some (User.id user) ->
  map_Forall (fun _ row => User.id (Patient.user row) <> User.id user)
             (Table.rows (World.patients w)) ->
  fk_valid Doctor.pk assigned_doctor (World.doctors w) = true ->
  let k := Table.seq (World.patients w) + 1 in
  exists p,
    verify_fixes.Patient_objects_create user address mobile symptoms assigned_doctor
        status w =
      (verify_fixes.Done p,
       World.set_patients (Table.mk (<[k := p]> (Table.rows (World.patients w))) k)
                          (World.tick (World.tick (World.tick w)))) /\
    Patient.pk p = Some k /\ Patient.user p = user /\
    Patient.assigned_doctor p = assigned_doctor /\
    Patient.assignedDoctorId p =
      match assigned_doctor with
      | Some d => Some (User.id (Doctor.user d))
      | None => None
      end.
Proof.
  intros Hname Hrows Hfk k. pose proof (fk_valid_saved _ _ _ Hfk) as Hsaved.
  eexists. split; [| split; [| split; [| split]]].
  - unfold verify_fixes.Patient_objects_create.
    erewrite sbind_done by reflexivity.
    erewrite objects_create_done; cycle 1.
    { rewrite patient_save_eq. apply Model_save_insert.
      - destruct assigned_doctor as [d|]; [| reflexivity].
        destruct Hsaved as [kd Hkd]. cbn. rewrite Hkd. reflexivity.
      - destruct assigned_doctor; reflexivity.
      - destruct assigned_doctor; reflexivity. }
    { apply andb_true_intro. split.
      - eapply one_to_one_true; [| destruct assigned_doctor; exact Hrows].
        destruct assigned_doctor; exact Hname.
      - destruct assigned_doctor; exact Hfk. }
    reflexivity.
  - destruct assigned_doctor; reflexivity.
  - destruct assigned_doctor; reflexivity.
  - destruct assigned_doctor; reflexivity.
  - destruct assigned_doctor; reflexivity.
Qed.

(** Creating an appointment between a patient and a doctor of the tables
    inserts a row under the next key, with the legacy ids in step. *)
Lemma Appointment_objects_create_done (d : Doctor.t) (p : Patient.t)
    (description : string) (status : bool) (w : World.t) :
  fk_valid Patient.pk (Some p) (World.patients w) = true ->
  fk_valid Doctor.pk (Some d) (World.doctors w) = true ->
  let k := Table.seq (World.appointments w) + 1 in
  exists a,
    verify_fixes.Appointment_objects_create (Some d) (Some p) description status w =
      (verify_fixes.Done a,
       World.set_appointments
         (Table.mk (<[k := a]> (Table.rows (World.appointments w))) k)
         (World.tick (World.tick (World.tick (World.tick w))))) /\
    Appointment.pk a = Some k /\
    Appointment.patient a = Some p /\ Appointment.doctor a = Some d /\
    Appointment.patientId a = Some (User.id (Patient.user p)) /\
    Appointment.doctorId a = Some (User.id (Doctor.user d)).
Proof.
  intros Hp Hd k.
  destruct (fk_valid_saved _ _ _ Hp) as [kp Hkp].
  destruct (fk_valid_saved _ _ _ Hd) as [kd Hkd].
  eexists. split.
  { unfold verify_fixes.Appointment_objects_create.
    erewrite sbind_done by reflexivity.
    erewrite sbind_done by reflexivity.
    erewrite objects_create_done; cycle 1.
    { rewrite appointment_save_eq. apply Model_save_insert.
      - cbn. rewrite Hkp, Hkd. reflexivity.
      - reflexivity.
      - reflexivity. }
    { apply andb_true_intro. split; [exact Hp | exact Hd]. }
    reflexivity. }
  repeat split.
Qed.

(** Creating a discharge record for a patient and a doctor of the tables
    inserts a row under the next key, with the legacy fields in step. *)
Lemma PatientDischargeDetails_objects_create_done (p : Patient.t) (d : Doctor.t)
    (admit_date release_date : Date.t) (day_spent : Z)
    (room_charge medicine_cost doctor_fee other_charge total : Decimal.t) (w : World.t) :
  fk_valid Patient.pk (Some p) (World.patients w) = true ->
  fk_valid Doctor.pk (Some d) (World.doctors w) = true ->
  let k := Table.seq (World.discharges w) + 1 in
  exists x,
    verify_fixes.PatientDischargeDetails_objects_create (Some p) (Some d)
        admit_date release_date day_spent room_charge medicine_cost doctor_fee
        other_charge total w =
      (verify_fixes.Done x,
       World.set_discharges
         (Table.mk (<[k := x]> (Table.rows (World.discharges w))) k)
         (World.tick (World.tick (World.tick w)))) /\
    PatientDischargeDetails.pk x = Some k /\
    PatientDischargeDetails.patient x = Some p /\
    PatientDischargeDetails.patientId x = Some (User.id (Patient.user p)) /\
    PatientDischargeDetails.assignedDoctorName x = Doctor.get_name d.
Proof.
  intros Hp Hd k.
  destruct (fk_valid_saved _ _ _ Hp) as [kp Hkp].
  destruct (fk_valid_saved _ _ _ Hd) as [kd Hkd].
  eexists. split.
  { unfold verify_fixes.PatientDischargeDetails_objects_create.
    erewrite sbind_done by reflexivity.
    erewrite objects_create_done; cycle 1.
    { rewrite discharge_save_eq. apply Model_save_insert.
      - cbn. rewrite Hkp, Hkd. reflexivity.
      - reflexivity.
      - reflexivity. }
    { apply andb_true_intro. split; [exact Hp | exact Hd]. }
    reflexivity. }
  repeat split.
Qed.

Lemma str_of_appointment_done (a : Appointment.t) (p : Patient.t) (d : Doctor.t)
    (w : World.t) :
  Appointment.patient a = Some p -> Appointment.doctor a = Some d ->
  exists s, verify_fixes.str_of Appointment.__str__ a w = (verify_fixes.Done s, w).
Proof.
  intros Hp Hd. eexists. unfold verify_fixes.str_of, Appointment.__str__, bind, get, ret.
  rewrite Hp, Hd. reflexivity.
Qed.

Lemma str_of_discharge_done (x : PatientDischargeDetails.t) (p : Patient.t)
    (w : World.t) :
  PatientDischargeDetails.patient x = Some p ->
  exists s, verify_fixes.str_of PatientDischargeDetails.__str__ x w =
              (verify_fixes.Done s, w).
Proof.
  intros Hp. eexists.
  unfold verify_fixes.str_of, PatientDischargeDetails.__str__, bind, get, ret.
  rewrite Hp. reflexivity.
Qed.

Lemma create_user_done (username : string) (w : World.t) :
  World.users w !! username = None ->
  let id := World.user_seq w + 1 in
  verify_fixes.create_user username w =
    (verify_fixes.Done {| User.id := id; User.first_name := ""; User.last_name := "" |},
     World.set_users (<[username := id]> (World.users w)) id w).
Proof. intros Hfree id. unfold verify_fixes.create_user. rewrite Hfree. reflexivity. Qed.

Lemma create_user_taken (username : string) (w : World.t) :
  is_Some (World.users w !! username) ->
  verify_fixes.create_user username w =
    (verify_fixes.Failed (Raised IntegrityError), w).
Proof.
  intros [id Hid]. unfold verify_fixes.create_user. rewrite Hid. reflexivity.
Qed.

Lemma table_with_rows_id {T} (f : gmap Z T -> gmap Z T) (tb : Table.t T) :
  f (Table.rows tb) = Table.rows tb -> Table.with_rows f tb = tb.
Proof. intros Hf. unfold Table.with_rows. rewrite Hf. destruct tb; reflexivity. Qed.

(** Deleting a patient that no appointment and no discharge record refers
    to removes its row and nothing else. *)
Lemma delete_patient_row_unreferenced (k : Z) (w : World.t) :
  map_Forall (fun _ a => refers Patient.pk (Appointment.patient a) k = false)
             (Table.rows (World.appointments w)) ->
  map_Forall (fun _ x => refers Patient.pk (PatientDischargeDetails.patient x) k = false)
             (Table.rows (World.discharges w)) ->
  verify_fixes.delete_patient_row k w =
    World.set_patients (Table.with_rows (delete k) (World.patients w)) w.
Proof.
  intros Ha Hx. unfold verify_fixes.delete_patient_row.
  rewrite (table_with_rows_id _ (World.appointments w))
    by (apply map_filter_id; intros i a Hi; exact (Ha i a Hi)).
  destruct w as [u us cl t d p a x out].
  cbn [World.set_appointments World.users World.user_seq World.clock World.ticks
       World.doctors World.patients World.appointments World.discharges World.stdout] in *.
  rewrite (table_with_rows_id _ x)
    by (apply map_filter_id; intros i r Hi; exact (Hx i r Hi)).
  reflexivity.
Qed.

(** Deleting a doctor that no row refers to removes its row and nothing
    else. *)
Lemma delete_doctor_row_unreferenced (k : Z) (w : World.t) :
  map_Forall (fun _ a => refers Doctor.pk (Appointment.doctor a) k = false)
             (Table.rows (World.appointments w)) ->
  map_Forall (fun _ p => refers Doctor.pk (Patient.assigned_doctor p) k = false)
             (Table.rows (World.patients w)) ->
  map_Forall (fun _ x => refers Doctor.pk (PatientDischargeDetails.assigned_doctor x) k
                         = false)
             (Table.rows (World.discharges w)) ->
  verify_fixes.delete_doctor_row k w =
    World.set_doctors (Table.with_rows (delete k) (World.doctors w)) w.
Proof.
  intros Ha Hp Hx. unfold verify_fixes.delete_doctor_row.
  rewrite (table_with_rows_id _ (World.appointments w))
    by (apply map_filter_id; intros i a Hi; exact (Ha i a Hi)).
  destruct w as [u us cl t d p a x out].
  cbn [World.set_appointments World.set_patients World.users World.user_seq World.clock
       World.ticks World.doctors World.patients World.appointments World.discharges
       World.stdout] in *.
  rewrite (table_with_rows_id _ p).
  2: { rewrite <- (map_fmap_id (Table.rows p)) at 2. apply map_fmap_ext.
       intros i r Hi. rewrite (Hp i r Hi). reflexivity. }
  rewrite (table_with_rows_id _ x).
  2: { rewrite <- (map_fmap_id (Table.rows x)) at 2. apply map_fmap_ext.
       intros i r Hi. rewrite (Hx i r Hi). reflexivity. }
  reflexivity.
Qed.

(** Deleting a user without doctor or patient profile removes the user and
    nothing else. *)
Lemma delete_user_rows_no_profile (id : Z) (w : World.t) :
  map_Forall (fun _ d => User.id (Doctor.user d) <> id) (Table.rows (World.doctors w)) ->
  map_Forall (fun _ p => User.id (Patient.user p) <> id) (Table.rows (World.patients w)) ->
  verify_fixes.delete_user_rows id w =
    World.set_users (filter (fun kv => kv.2 <> id) (World.users w)) (World.user_seq w) w.
Proof.
  intros Hd Hp. unfold verify_fixes.delete_user_rows.
  assert (Hd' : filter (fun kv : Z * Doctor.t => User.id (Doctor.user kv.2) = id)
                       (Table.rows (World.doctors w)) = ∅).
  { apply map_empty_filter_2. intros i d Hi. exact (Hd i d Hi). }
  rewrite Hd', map_to_list_empty. cbn [fmap list_fmap foldr].
  assert (Hp' : filter (fun kv : Z * Patient.t => User.id (Patient.user kv.2) = id)
                       (Table.rows (World.patients w)) = ∅).
  { apply map_empty_filter_2. intros i p Hi. exact (Hp i p Hi). }
  rewrite Hp', map_to_list_empty. reflexivity.
Qed.

Lemma refers_fresh {T} (pk_of : T -> option Z) (r : option T) (n k : Z) :
  key_le pk_of r n -> n < k -> refers pk_of r k = false.
Proof.
  intros Hle Hlt. unfold refers, key_le in *. destruct r as [x|]; [| reflexivity].
  apply bool_decide_eq_false. intros Hk. rewrite Hk in Hle. lia.
Qed.

Lemma fresh_key_free {T} (P : Z -> T -> Prop) (m : gmap Z T) (n : Z) :
  map_Forall (fun k x => k <= n /\ P k x) m -> m !! (n + 1) = None.
Proof.
  intros Hm. destruct (m !! (n + 1)) as [x|] eqn:Hx; [| reflexivity].
  destruct (Hm _ _ Hx) as [Hle _]. lia.
Qed.

Ltac world_simpl :=
  cbv [World.users World.user_seq World.clock World.ticks World.doctors World.patients
       World.appointments World.discharges World.stdout World.set_users World.tick
       World.set_doctors World.set_patients World.set_appointments
       World.set_discharges World.set_stdout Table.rows Table.seq Table.with_rows] in *.

Ltac script_step H :=
  erewrite sbind_done in H by reflexivity; cbv beta in H; world_simpl.

Lemma verify_relationships_run (w : World.t) :
  World.users w !! "testdoc" = None ->
  World.users w !! "testpat" = None ->
  sequences_ahead w ->
  exists n out,
    verify_fixes.verify_relationships w =
      (verify_fixes.Done tt,
       {| World.users := World.users w;
          World.user_seq := World.user_seq w + 2;
          World.clock := World.clock w;
          World.ticks := n;
          World.doctors :=
            Table.mk (Table.rows (World.doctors w)) (Table.seq (World.doctors w) + 1);
          World.patients :=
            Table.mk (Table.rows (World.patients w)) (Table.seq (World.patients w) + 1);
          World.appointments :=
            Table.mk (Table.rows (World.appointments w))
                     (Table.seq (World.appointments w) + 1);
          World.discharges :=
            Table.mk (Table.rows (World.discharges w))
                     (Table.seq (World.discharges w) + 1);
          World.stdout := World.stdout w ++ out |}).
Proof.
  intros Hdoc Hpat (Hu & Hd & Hp & Ha & Hx).
  destruct w as [u us cl t [rd sd] [rp sp] [ra sa] [rx sx] out].
  world_simpl.
  remember (verify_fixes.verify_relationships _) as r eqn:Hr.
  unfold verify_fixes.verify_relationships in Hr.
  script_step Hr. script_step Hr.
  erewrite sbind_done in Hr by (apply create_user_done; exact Hdoc).
  cbv beta in Hr. world_simpl.
  match type of Hr with
  | context [verify_fixes.sbind (verify_fixes.Doctor_objects_create ?u0 ?a ?m ?dep ?s) _ ?w0] =>
      destruct (Doctor_objects_create_done u0 a m dep s w0 "testdoc")
        as (d & Hrun & Hdpk & Hduser)
  end.
  { apply lookup_insert_eq. }
  { intros k row Hrow. destruct (Hd k row Hrow) as [_ Hle]. cbn [User.id]. lia. }
  rewrite (sbind_done _ _ _ _ _ Hrun) in Hr. clear Hrun. world_simpl.
  script_step Hr. script_step Hr.
  erewrite sbind_done in Hr
    by (apply create_user_done; world_simpl; rewrite lookup_insert_ne by discriminate;
        exact Hpat).
  cbv beta in Hr. world_simpl.
  match type of Hr with
  | context [verify_fixes.sbind
               (verify_fixes.Patient_objects_create ?u0 ?a ?m ?sy ?ad ?s) _ ?w0] =>
      destruct (Patient_objects_create_done u0 a m sy ad s w0 "testpat")
        as (p & Hrun & Hppk & Hpuser & Hpad & Hpid)
  end.
  { apply lookup_insert_eq. }
  { intros k row Hrow. destruct (Hp k row Hrow) as (_ & Hle & _). cbn [User.id]. lia. }
  { eapply fk_valid_true; [exact Hdpk |]. world_simpl. rewrite lookup_insert_eq. eauto. }
  rewrite (sbind_done _ _ _ _ _ Hrun) in Hr. clear Hrun. world_simpl.
  script_step Hr. script_step Hr. script_step Hr.
  rewrite bool_decide_eq_true_2 in Hr by (rewrite Hpid, Hduser; reflexivity).
  script_step Hr. script_step Hr. script_step Hr.
  match type of Hr with
  | context [verify_fixes.sbind
               (verify_fixes.Appointment_objects_create (Some ?d0) (Some ?p0) ?de ?s) _ ?w0] =>
      destruct (Appointment_objects_create_done d0 p0 de s w0)
        as (a & Hrun & Hapk & Hap & Had & Hapid & Hadid)
  end.
  { eapply fk_valid_true; [exact Hppk |]. world_simpl. rewrite lookup_insert_eq. eauto. }
  { eapply fk_valid_true; [exact Hdpk |]. world_simpl. rewrite lookup_insert_eq. eauto. }
  rewrite (sbind_done _ _ _ _ _ Hrun) in Hr. clear Hrun. world_simpl.
  match type of Hr with
  | context [verify_fixes.sbind (verify_fixes.str_of Appointment.__str__ a) _ ?w0] =>
      destruct (str_of_appointment_done a p d w0 Hap Had) as (s & Hs)
  end.
  rewrite (sbind_done _ _ _ _ _ Hs) in Hr. clear Hs.
  script_step Hr. script_step Hr. script_step Hr.
  rewrite bool_decide_eq_true_2 in Hr by (rewrite Hadid, Hduser; reflexivity).
  script_step Hr.
  rewrite bool_decide_eq_true_2 in Hr by (rewrite Hapid, Hpuser; reflexivity).
  script_step Hr. script_step Hr. script_step Hr.
  script_step Hr. script_step Hr.
  match type of Hr with
  | context [verify_fixes.sbind
               (verify_fixes.PatientDischargeDetails_objects_create
                  (Some ?p0) (Some ?d0) ?ad ?rd0 ?ds ?c1 ?c2 ?c3 ?c4 ?c5) _ ?w0] =>
      destruct (PatientDischargeDetails_objects_create_done p0 d0 ad rd0 ds c1 c2 c3 c4 c5 w0)
        as (x & Hrun & Hxpk & Hxp & Hxpid & Hxname)
  end.
  { eapply fk_valid_true; [exact Hppk |]. world_simpl. rewrite lookup_insert_eq. eauto. }
  { eapply fk_valid_true; [exact Hdpk |]. world_simpl. rewrite lookup_insert_eq. eauto. }
  rewrite (sbind_done _ _ _ _ _ Hrun) in Hr. clear Hrun. world_simpl.
  match type of Hr with
  | context [verify_fixes.sbind
               (verify_fixes.str_of PatientDischargeDetails.__str__ x) _ ?w0] =>
      destruct (str_of_discharge_done x p w0 Hxp) as (s' & Hs)
  end.
  rewrite (sbind_done _ _ _ _ _ Hs) in Hr. clear Hs.
  script_step Hr. script_step Hr. script_step Hr.
  rewrite bool_decide_eq_true_2 in Hr by (rewrite Hxpid, Hpuser; reflexivity).
  script_step Hr.
  rewrite bool_decide_eq_true_2 in Hr by exact Hxname.
  script_step Hr. script_step Hr.
  rewrite Hxpk, Hapk, Hppk, Hdpk in Hr.
  script_step Hr. unfold verify_fixes.delete_discharge_row in Hr. world_simpl.
  rewrite delete_insert_id in Hr by exact (fresh_key_free _ _ _ Hx).
  script_step Hr. unfold verify_fixes.delete_appointment_row in Hr. world_simpl.
  rewrite delete_insert_id in Hr by exact (fresh_key_free _ _ _ Ha).
  script_step Hr.
  rewrite delete_patient_row_unreferenced in Hr; cycle 1.
  { intros k r0 Hk. destruct (Ha k r0 Hk) as (_ & Hle & _).
    apply (refers_fresh _ _ sp); [exact Hle | lia]. }
  { intros k r0 Hk. destruct (Hx k r0 Hk) as (_ & Hle & _).
    apply (refers_fresh _ _ sp); [exact Hle | lia]. }
  world_simpl. rewrite delete_insert_id in Hr by exact (fresh_key_free _ _ _ Hp).
  script_step Hr.
  rewrite delete_doctor_row_unreferenced in Hr; cycle 1.
  { intros k r0 Hk. destruct (Ha k r0 Hk) as (_ & _ & Hle).
    apply (refers_fresh _ _ sd); [exact Hle | lia]. }
  { intros k r0 Hk. destruct (Hp k r0 Hk) as (_ & _ & Hle).
    apply (refers_fresh _ _ sd); [exact Hle | lia]. }
  { intros k r0 Hk. destruct (Hx k r0 Hk) as (_ & _ & Hle).
    apply (refers_fresh _ _ sd); [exact Hle | lia]. }
  world_simpl. rewrite delete_insert_id in Hr by exact (fresh_key_free _ _ _ Hd).
  script_step Hr.
  rewrite delete_user_rows_no_profile in Hr; cycle 1.
  { intros k r0 Hk. destruct (Hd k r0 Hk) as (_ & Hle). cbn [User.id]. lia. }
  { intros k r0 Hk. destruct (Hp k r0 Hk) as (_ & Hle & _). cbn [User.id]. lia. }
  world_simpl.
  rewrite map_filter_insert_False in Hr by (cbn; intros Hne; apply Hne; reflexivity).
  rewrite delete_insert_ne, (delete_id _ _ Hpat) in Hr by discriminate.
  rewrite map_filter_insert_True in Hr by (cbn; lia).
  rewrite map_filter_id in Hr
    by (intros name id Hid; pose proof (Hu name id Hid) as Hle; cbn in Hle |- *; lia).
  script_step Hr.
  rewrite delete_user_rows_no_profile in Hr; cycle 1.
  { intros k r0 Hk. destruct (Hd k r0 Hk) as (_ & Hle). cbn [User.id]. lia. }
  { intros k r0 Hk. destruct (Hp k r0 Hk) as (_ & Hle & _). cbn [User.id]. lia. }
  world_simpl.
  rewrite map_filter_insert_False in Hr by (cbn; intros Hne; apply Hne; reflexivity).
  rewrite (delete_id _ _ Hdoc) in Hr.
  rewrite map_filter_id in Hr
    by (intros name id Hid; pose proof (Hu name id Hid) as Hle; cbn in Hle |- *; lia).
  unfold verify_fixes.print in Hr. world_simpl.
  subst r. eexists _, _. repeat rewrite <- app_assoc.
  replace (us + 1 + 1) with (us + 2) by lia. reflexivity.
Qed.

(** With the name [testdoc] taken the script stops at its first statement
    against the database, which it leaves as it is. *)
Lemma verify_relationships_doctor_name_taken (w : World.t) :
  is_Some (World.users w !! "testdoc") ->
  verify_fixes.verify_relationships w =
    (verify_fixes.Failed (Raised IntegrityError),
     World.set_stdout
       (World.stdout w ++ [Line "Verifying relationships..."; Line "Creating Doctor..."])
       w).
Proof.
  intros Htaken. unfold verify_fixes.verify_relationships.
  erewrite sbind_done by reflexivity. erewrite sbind_done by reflexivity.
  erewrite sbind_failed by (apply create_user_taken; exact Htaken).
  destruct w. unfold verify_fixes.print. world_simpl.
  rewrite <- app_assoc. reflexivity.
Qed.

(** With [testdoc] free and [testpat] taken the script stops at the second
    user, after the first user and the doctor have been committed. *)
Lemma verify_relationships_patient_name_taken (w : World.t) :
  World.users w !! "testdoc" = None ->
  is_Some (World.users w !! "testpat") ->
  sequences_ahead w ->
  exists d n out,
    Doctor.user d =
      {| User.id := World.user_seq w + 1; User.first_name := ""; User.last_name := "" |} /\
    verify_fixes.verify_relationships w =
      (verify_fixes.Failed (Raised IntegrityError),
       {| World.users := <["testdoc" := World.user_seq w + 1]> (World.users w);
          World.user_seq := World.user_seq w + 1;
          World.clock := World.clock w;
          World.ticks := n;
          World.doctors :=
            Table.mk (<[Table.seq (World.doctors w) + 1 := d]>
                        (Table.rows (World.doctors w)))
                     (Table.seq (World.doctors w) + 1);
          World.patients := World.patients w;
          World.appointments := World.appointments w;
          World.discharges := World.discharges w;
          World.stdout := World.stdout w ++ out |}).
Proof.
  intros Hdoc Hpat (Hu & Hd & Hp & Ha & Hx).
  destruct w as [u us cl t [rd sd] [rp sp] [ra sa] [rx sx] out].
  world_simpl.
  remember (verify_fixes.verify_relationships _) as r eqn:Hr.
  unfold verify_fixes.verify_relationships in Hr.
  script_step Hr. script_step Hr.
  erewrite sbind_done in Hr by (apply create_user_done; exact Hdoc).
  cbv beta in Hr. world_simpl.
  match type of Hr with
  | context [verify_fixes.sbind (verify_fixes.Doctor_objects_create ?u0 ?a ?m ?dep ?s) _ ?w0] =>
      destruct (Doctor_objects_create_done u0 a m dep s w0 "testdoc")
        as (d & Hrun & Hdpk & Hduser)
  end.
  { apply lookup_insert_eq. }
  { intros k row Hrow. destruct (Hd k row Hrow) as [_ Hle]. cbn [User.id]. lia. }
  rewrite (sbind_done _ _ _ _ _ Hrun) in Hr. clear Hrun. world_simpl.
  script_step Hr. script_step Hr.
  erewrite sbind_failed in Hr
    by (apply create_user_taken; world_simpl; rewrite lookup_insert_ne by discriminate;
        exact Hpat).
  subst r. exists d. eexists _, _. split; [exact Hduser |].
  repeat rewrite <- app_assoc. reflexivity.
Qed.

Lemma sequences_ahead_after_run (w : World.t) (n : nat) (out : list (Output Error)) :
  sequences_ahead w ->
  sequences_ahead
    {| World.users := World.users w;
       World.user_seq := World.user_seq w + 2;
       World.clock := World.clock w;
       World.ticks := n;
       World.doctors :=
         Table.mk (Table.rows (World.doctors w)) (Table.seq (World.doctors w) + 1);
       World.patients :=
         Table.mk (Table.rows (World.patients w)) (Table.seq (World.patients w) + 1);
       World.appointments :=
         Table.mk (Table.rows (World.appointments w))
                  (Table.seq (World.appointments w) + 1);
       World.discharges :=
         Table.mk (Table.rows (World.discharges w))
                  (Table.seq (World.discharges w) + 1);
       World.stdout := out |}.
Proof.
  assert (Hkey : forall {T} (pk_of : T -> option Z) r a b,
             a <= b -> key_le pk_of r a -> key_le pk_of r b).
  { intros T pk_of [x|] a b Hab; [| trivial]. unfold key_le.
    destruct (pk_of x); [lia | trivial]. }
  intros (Hu & Hd & Hp & Ha & Hx). unfold sequences_ahead. world_simpl.
  split; [| split; [| split; [| split]]].
  - intros name id Hid. pose proof (Hu name id Hid) as Hle. cbn in Hle. lia.
  - intros k r Hk. destruct (Hd k r Hk) as (Hk1 & Hk2). split; lia.
  - intros k r Hk. destruct (Hp k r Hk) as (Hk1 & Hk2 & Hk3).
    split; [lia | split; [lia |]]. eapply Hkey; [| exact Hk3]. lia.
  - intros k r Hk. destruct (Ha k r Hk) as (Hk1 & Hk2 & Hk3).
    split; [lia | split]; (eapply Hkey; [| eassumption]); lia.
  - intros k r Hk. destruct (Hx k r Hk) as (Hk1 & Hk2 & Hk3).
    split; [lia | split]; (eapply Hkey; [| eassumption]); lia.
Qed.

(** The [__main__] block after a run that reaches the end. *)
Lemma main_after_run (w : World.t) :
  World.users w !! "testdoc" = None ->
  World.users w !! "testpat" = None ->
  sequences_ahead w ->
  exists n out,
    verify_fixes.main w =
      (0,
       {| World.users := World.users w;
          World.user_seq := World.user_seq w + 2;
          World.clock := World.clock w;
          World.ticks := n;
          World.doctors :=
            Table.mk (Table.rows (World.doctors w)) (Table.seq (World.doctors w) + 1);
          World.patients :=
            Table.mk (Table.rows (World.patients w)) (Table.seq (World.patients w) + 1);
          World.appointments :=
            Table.mk (Table.rows (World.appointments w))
                     (Table.seq (World.appointments w) + 1);
          World.discharges :=
            Table.mk (Table.rows (World.discharges w))
                     (Table.seq (World.discharges w) + 1);
          World.stdout := (World.stdout w ++ out) ++ [Line "ALL TESTS PASSED"] |}).
Proof.
  intros Hdoc Hpat Hseq.
  destruct (verify_relationships_run w Hdoc Hpat Hseq) as (n & out & Hrun).
  exists n, out. unfold verify_fixes.main. rewrite Hrun. reflexivity.
Qed.

(** X19. On a database where the user names [testdoc] and [testpat] are
    free (and whose sequences are ahead of the keys in use), the script
    passes: every statement succeeds, none of the five assertions fails,
    the last line written is [ALL TESTS PASSED] and the exit status
    is 0. *)
Theorem verify_fixes_passes (w : World.t) :
  World.users w !! "testdoc" = None ->
  World.users w !! "testpat" = None ->
  sequences_ahead w ->
  (verify_fixes.main w).1 = 0 /\
  last (World.stdout (verify_fixes.main w).2) = Some (Line "ALL TESTS PASSED").
Proof.
  intros Hdoc Hpat Hseq.
  destruct (main_after_run w Hdoc Hpat Hseq) as (n & out & Hmain).
  rewrite Hmain. split; [reflexivity |].
  cbn [snd World.stdout]. apply last_snoc.
Qed.

Lemma verify_fixes_passes_witness :
  (verify_fixes.main world_empty).1 = 0 /\
  last (World.stdout (verify_fixes.main world_empty).2) = Some (Line "ALL TESTS PASSED").
Proof.
  apply (verify_fixes_passes world_empty); [reflexivity | reflexivity |].
  split; [| split; [| split; [| split]]]; apply map_Forall_empty.
Defined.

(** X20. A passing run leaves no row behind: the users and the rows of
    the four tables are afterwards what they were before, and only the
    sequences have moved on, by two users and one row per table. *)
Theorem verify_fixes_cleans_up (w : World.t) :
  World.users w !! "testdoc" = None ->
  World.users w !! "testpat" = None ->
  sequences_ahead w ->
  let w' := (verify_fixes.main w).2 in
  (World.users w' = World.users w /\
   Table.rows (World.doctors w') = Table.rows (World.doctors w) /\
   Table.rows (World.patients w') = Table.rows (World.patients w) /\
   Table.rows (World.appointments w') = Table.rows (World.appointments w) /\
   Table.rows (World.discharges w') = Table.rows (World.discharges w)) /\
  (World.user_seq w' = World.user_seq w + 2 /\
   Table.seq (World.doctors w') = Table.seq (World.doctors w) + 1 /\
   Table.seq (World.patients w') = Table.seq (World.patients w) + 1 /\
   Table.seq (World.appointments w') = Table.seq (World.appointments w) + 1 /\
   Table.seq (World.discharges w') = Table.seq (World.discharges w) + 1).
Proof.
  intros Hdoc Hpat Hseq w'. subst w'.
  destruct (main_after_run w Hdoc Hpat Hseq) as (n & out & Hmain).
  rewrite Hmain. repeat split.
Qed.

Lemma verify_fixes_cleans_up_witness :
  World.users (verify_fixes.main world_empty).2 = ∅ /\
  World.user_seq (verify_fixes.main world_empty).2 = 2.
Proof.
  destruct (verify_fixes_cleans_up world_empty) as ((Hu & _) & (Hs & _)).
  - reflexivity.
  - reflexivity.
  - split; [| split; [| split; [| split]]]; apply map_Forall_empty.
  - split; [exact Hu | exact Hs].
Defined.

(** X21. The script can be run again and again: after any number of
    passing runs the two names are free again, and the next run passes. *)
Theorem verify_fixes_rerunnable (w : World.t) (n : nat) :
  World.users w !! "testdoc" = None ->
  World.users w !! "testpat" = None ->
  sequences_ahead w ->
  (verify_fixes.main (Nat.iter n (fun w => (verify_fixes.main w).2) w)).1 = 0.
Proof.
  intros Hdoc Hpat Hseq.
  assert (Hinv : World.users (Nat.iter n (fun w => (verify_fixes.main w).2) w)
                   = World.users w /\
                 sequences_ahead (Nat.iter n (fun w => (verify_fixes.main w).2) w)).
  { induction n as [|n [IHu IHs]]; [split; [reflexivity | exact Hseq] |].
    rewrite Nat.iter_succ.
    destruct (main_after_run (Nat.iter n (fun w => (verify_fixes.main w).2) w))
      as (m & out & Hmain); [rewrite IHu; exact Hdoc | rewrite IHu; exact Hpat | exact IHs |].
    rewrite Hmain. cbn [snd]. split; [exact IHu |].
    apply sequences_ahead_after_run. exact IHs. }
  destruct Hinv as [Hu Hs].
  destruct (main_after_run (Nat.iter n (fun w => (verify_fixes.main w).2) w))
    as (m & out & Hmain); [rewrite Hu; exact Hdoc | rewrite Hu; exact Hpat | exact Hs |].
  rewrite Hmain. reflexivity.
Qed.

Lemma verify_fixes_rerunnable_witness :
  (verify_fixes.main (Nat.iter 3 (fun w => (verify_fixes.main w).2) world_empty)).1 = 0.
Proof.
  apply (verify_fixes_rerunnable world_empty 3); [reflexivity | reflexivity |].
  split; [| split; [| split; [| split]]]; apply map_Forall_empty.
Defined.

(** X22. The cleanup is not reached when a statement fails. A run that
    finds [testdoc] free and [testpat] taken stops at the second user with
    exit status 1, and leaves the user [testdoc] and the doctor row behind;
    the next run then fails at its first statement and removes
    nothing. *)
Theorem verify_fixes_failure_leaves_rows (w : World.t) :
  World.users w !! "testdoc" = None ->
  is_Some (World.users w !! "testpat") ->
  sequences_ahead w ->
  let w' := (verify_fixes.main w).2 in
  (verify_fixes.main w).1 = 1 /\
  last (World.stdout w') = Some (TestFailed (Raised IntegrityError)) /\
  World.users w' !! "testdoc" = Some (World.user_seq w + 1) /\
  (exists d, Table.rows (World.doctors w') !! (Table.seq (World.doctors w) + 1) = Some d /\
             User.id (Doctor.user d) = World.user_seq w + 1) /\
  (verify_fixes.main w').1 = 1 /\
  World.users (verify_fixes.main w').2 = World.users w' /\
  World.doctors (verify_fixes.main w').2 = World.doctors w'.
Proof.
  intros Hdoc Hpat Hseq w'.
  destruct (verify_relationships_patient_name_taken w Hdoc Hpat Hseq)
    as (d & n & out & Hduser & Hrun).
  assert (Hw' : w' = World.set_stdout
                       ((World.stdout w ++ out) ++ [TestFailed (Raised IntegrityError)])
                       {| World.users := <["testdoc" := World.user_seq w + 1]> (World.users w);
                          World.user_seq := World.user_seq w + 1;
                          World.clock := World.clock w;
                          World.ticks := n;
                          World.doctors :=
                            Table.mk (<[Table.seq (World.doctors w) + 1 := d]>
                                        (Table.rows (World.doctors w)))
                                     (Table.seq (World.doctors w) + 1);
                          World.patients := World.patients w;
                          World.appointments := World.appointments w;
                          World.discharges := World.discharges w;
                          World.stdout := World.stdout w ++ out |}).
  { subst w'. unfold verify_fixes.main. rewrite Hrun. reflexivity. }
  assert (Htaken : is_Some (World.users w' !! "testdoc")).
  { rewrite Hw'. cbn [World.users World.set_stdout]. rewrite lookup_insert_eq. eauto. }
  split; [| split; [| split; [| split; [| split; [| split]]]]].
  - unfold verify_fixes.main. rewrite Hrun. reflexivity.
  - rewrite Hw'. cbn [World.stdout World.set_stdout]. apply last_snoc.
  - rewrite Hw'. cbn [World.users World.set_stdout]. apply lookup_insert_eq.
  - exists d. rewrite Hw'. cbn [World.doctors World.set_stdout Table.rows].
    rewrite lookup_insert_eq, Hduser. split; reflexivity.
  - unfold verify_fixes.main.
    rewrite (verify_relationships_doctor_name_taken w' Htaken). reflexivity.
  - unfold verify_fixes.main.
    rewrite (verify_relationships_doctor_name_taken w' Htaken). reflexivity.
  - unfold verify_fixes.main.
    rewrite (verify_relationships_doctor_name_taken w' Htaken). reflexivity.
Qed.

Lemma verify_fixes_failure_leaves_rows_witness :
  (verify_fixes.main world_testpat_taken).1 = 1 /\
  World.users (verify_fixes.main world_testpat_taken).2 !! "testdoc" = Some 2.
Proof.
  destruct (verify_fixes_failure_leaves_rows world_testpat_taken) as (H1 & _ & H2 & _).
  - reflexivity.
  - exists 1. reflexivity.
  - split; [| split; [| split; [| split]]]; try apply map_Forall_empty.
    apply map_Forall_singleton. cbn. lia.
  - split; [exact H1 | exact H2].
Defined.

(** X23. [Patient.assigned_doctor] is declared [SET_NULL], which empties
    the reference without running [save]: when a doctor is deleted, the
    rows of the patients assigned to that doctor lose the reference but
    keep their [assignedDoctorId], and no later [save] of such a patient
    changes it, since [save] only writes the legacy id when a doctor is
    assigned. *)
Theorem delete_doctor_keeps_legacy_doctor_id (w : World.t) (k kp : Z)
    (p : Patient.t) (d : Doctor.t) :
  Table.rows (World.patients w) !! kp = Some p ->
  Patient.assigned_doctor p = Some d ->
  Doctor.pk d = Some k ->
  exists p',
    Table.rows (World.patients (verify_fixes.delete_doctor_row k w)) !! kp = Some p' /\
    Patient.assigned_doctor p' = None /\
    Patient.assignedDoctorId p' = Patient.assignedDoctorId p /\
    forall db : Store.t Patient.t,
      Patient.assignedDoctorId (self_after (Patient.save (p', db)))
      = Patient.assignedDoctorId p.
Proof.
  intros Hrow Hd Hk. exists (Patient.set_assigned_doctor None p).
  split; [| split; [reflexivity | split; [reflexivity |]]].
  - unfold verify_fixes.delete_doctor_row.
    cbn [World.patients World.set_doctors World.set_discharges World.set_patients
         World.set_appointments Table.with_rows Table.rows].
    rewrite lookup_fmap, Hrow. cbn [fmap option_fmap option_map].
    unfold refers. rewrite Hd, bool_decide_eq_true_2 by exact Hk. reflexivity.
  - intros db.
    destruct (patient_self_after (Patient.set_assigned_doctor None p) db) as (v & b & Hs).
    rewrite Hs. destruct b; reflexivity.
Qed.

Lemma delete_doctor_keeps_legacy_doctor_id_witness :
  exists p',
    Table.rows (World.patients (verify_fixes.delete_doctor_row 1 world_assigned)) !! 1
      = Some p' /\
    Patient.assigned_doctor p' = None /\
    Patient.assignedDoctorId p' = Some 7.
Proof.
  destruct (delete_doctor_keeps_legacy_doctor_id world_assigned 1 1 patient0 doctor0)
    as (p' & Hrow & Hnone & Hid & _).
  - reflexivity.
  - reflexivity.
  - reflexivity.
  - exists p'. split; [exact Hrow | split; [exact Hnone | exact Hid]].
Defined.

(** *** What a statement of the script can stop on *)

Lemma sbind_inv {A B} (c : verify_fixes.Script A) (k : A -> verify_fixes.Script B)
    (w : World.t) (r : verify_fixes.Outcome B * World.t) :
  verify_fixes.sbind c k w = r ->
  (exists a w1, c w = (verify_fixes.Done a, w1) /\ k a w1 = r) \/
  (exists e w1, c w = (verify_fixes.Failed e, w1) /\ r = (verify_fixes.Failed e, w1)).
Proof.
  unfold verify_fixes.sbind. destruct (c w) as [[a|e] w1]; intros <-; eauto.
Qed.

Lemma create_user_failed (username : string) (w w1 : World.t) (e : Error) :
  verify_fixes.create_user username w = (verify_fixes.Failed e, w1) ->
  exists x, e = Raised x.
Proof.
  unfold verify_fixes.create_user. destruct (World.users w !! username); intros He.
  - inversion He. eauto.
  - discriminate.
Qed.

Lemma str_of_failed {T} (__str__ : M T string) (self : T) (w w1 : World.t) (e : Error) :
  verify_fixes.str_of __str__ self w = (verify_fixes.Failed e, w1) ->
  exists x, e = Raised x.
Proof.
  unfold verify_fixes.str_of. destruct (__str__ self) as [[s|x] self']; intros He.
  - discriminate.
  - inversion He. eauto.
Qed.

Lemma delete_failed (pk : option Z) (delete_row : Z -> World.t -> World.t)
    (w w1 : World.t) (e : Error) :
  verify_fixes.delete pk delete_row w = (verify_fixes.Failed e, w1) ->
  exists x, e = Raised x.
Proof.
  unfold verify_fixes.delete. destruct pk; intros He.
  - discriminate.
  - inversion He. eauto.
Qed.

Lemma objects_create_failed {T} (table : World.t -> Table.t T)
    (set_table : Table.t T -> World.t -> World.t)
    (save : M (T * Store.t T) unit) (constraints : T -> World.t -> bool)
    (self : T) (w w1 : World.t) (e : Error) :
  verify_fixes.objects_create table set_table save constraints self w
    = (verify_fixes.Failed e, w1) ->
  exists x, e = Raised x.
Proof.
  unfold verify_fixes.objects_create, verify_fixes.sbind, verify_fixes.date_today.
  destruct (save _) as [[u|x] [self' db']].
  - destruct (constraints self' _); intros He; [discriminate | inversion He; eauto].
  - intros He. inversion He. eauto.
Qed.

(** The object [objects.create] returns is [self] as [save] left it. *)
Lemma objects_create_inv {T} (table : World.t -> Table.t T)
    (set_table : Table.t T -> World.t -> World.t)
    (save : M (T * Store.t T) unit) (constraints : T -> World.t -> bool)
    (self self' : T) (w w1 : World.t) :
  verify_fixes.objects_create table set_table save constraints self w
    = (verify_fixes.Done self', w1) ->
  exists db, self' = self_after (save (self, db)).
Proof.
  unfold verify_fixes.objects_create, verify_fixes.sbind, verify_fixes.date_today.
  intros He.
  match type of He with
  | context [save (self, ?db)] =>
      exists db; destruct (save (self, db)) as [[u|x] [self'' db']]
  end.
  - destruct (constraints self'' _); [| discriminate].
    inversion He. reflexivity.
  - discriminate.
Qed.

Lemma Doctor_objects_create_failed (user : User.t) (address mobile department : string)
    (status : bool) (w w1 : World.t) (e : Error) :
  verify_fixes.Doctor_objects_create user address mobile department status w
    = (verify_fixes.Failed e, w1) ->
  exists x, e = Raised x.
Proof.
  unfold verify_fixes.Doctor_objects_create.
  erewrite sbind_done by reflexivity. apply objects_create_failed.
Qed.

Lemma Doctor_objects_create_inv (user : User.t) (address mobile department : string)
    (status : bool) (w w1 : World.t) (d : Doctor.t) :
  verify_fixes.Doctor_objects_create user address mobile department status w
    = (verify_fixes.Done d, w1) ->
  Doctor.user d = user.
Proof.
  unfold verify_fixes.Doctor_objects_create.
  erewrite sbind_done by reflexivity. intros Hc.
  apply objects_create_inv in Hc. destruct Hc as [db ->].
  destruct (Model_save_self_after
              {| Doctor.pk := None;
                 Doctor.base :=
                   {| BaseModel.created_at := (World.clock w (World.ticks w)).1;
                      BaseModel.updated_at :=
                        (World.clock (World.tick w) (World.ticks (World.tick w))).1;
                      BaseModel.is_active := true |};
                 Doctor.user := user; Doctor.profile_pic := None;
                 Doctor.address := address; Doctor.mobile := mobile;
                 Doctor.department := department; Doctor.status := status;
                 Doctor.qualifications := None; Doctor.experience_years := 0;
                 Doctor.consultation_fee := verify_fixes.decimal_of_int 0 |} db)
    as [Hs | [Hs | Hs]]; rewrite Hs; reflexivity.
Qed.

Lemma Patient_objects_create_failed (user : User.t) (address mobile symptoms : string)
    (assigned_doctor : option Doctor.t) (status : bool) (w w1 : World.t) (e : Error) :
  verify_fixes.Patient_objects_create user address mobile symptoms assigned_doctor
      status w = (verify_fixes.Failed e, w1) ->
  exists x, e = Raised x.
Proof.
  unfold verify_fixes.Patient_objects_create.
  erewrite sbind_done by reflexivity. apply objects_create_failed.
Qed.

Lemma Patient_objects_create_inv (user : User.t) (address mobile symptoms : string)
    (d : Doctor.t) (status : bool) (w w1 : World.t) (p : Patient.t) :
  verify_fixes.Patient_objects_create user address mobile symptoms (Some d) status w
    = (verify_fixes.Done p, w1) ->
  Patient.user p = user /\ Patient.assignedDoctorId p = Some (User.id (Doctor.user d)).
Proof.
  unfold verify_fixes.Patient_objects_create.
  erewrite sbind_done by reflexivity. intros Hc.
  apply objects_create_inv in Hc. destruct Hc as [db ->].
  match goal with
  | |- context [Patient.save (?self, db)] =>
      destruct (patient_self_after self db) as (v & b & Hs)
  end.
  rewrite Hs. destruct b; split; reflexivity.
Qed.

Lemma Appointment_objects_create_failed (doctor : option Doctor.t)
    (patient : option Patient.t) (description : string) (status : bool)
    (w w1 : World.t) (e : Error) :
  verify_fixes.Appointment_objects_create doctor patient description status w
    = (verify_fixes.Failed e, w1) ->
  exists x, e = Raised x.
Proof.
  unfold verify_fixes.Appointment_objects_create.
  erewrite sbind_done by reflexivity. erewrite sbind_done by reflexivity.
  apply objects_create_failed.
Qed.

Lemma Appointment_objects_create_inv (d : Doctor.t) (p : Patient.t)
    (description : string) (status : bool) (w w1 : World.t) (a : Appointment.t) :
  verify_fixes.Appointment_objects_create (Some d) (Some p) description status w
    = (verify_fixes.Done a, w1) ->
  Appointment.doctorId a = Some (User.id (Doctor.user d)) /\
  Appointment.patientId a = Some (User.id (Patient.user p)).
Proof.
  unfold verify_fixes.Appointment_objects_create.
  erewrite sbind_done by reflexivity. erewrite sbind_done by reflexivity. intros Hc.
  apply objects_create_inv in Hc. destruct Hc as [db ->].
  match goal with
  | |- context [Appointment.save (?self, db)] =>
      destruct (appointment_self_after self db) as (v & Hs)
  end.
  rewrite Hs. split; reflexivity.
Qed.

Lemma PatientDischargeDetails_objects_create_failed (patient : option Patient.t)
    (assigned_doctor : option Doctor.t) (admit_date release_date : Date.t)
    (day_spent : Z) (room_charge medicine_cost doctor_fee other_charge total : Decimal.t)
    (w w1 : World.t) (e : Error) :
  verify_fixes.PatientDischargeDetails_objects_create patient assigned_doctor
      admit_date release_date day_spent room_charge medicine_cost doctor_fee
      other_charge total w = (verify_fixes.Failed e, w1) ->
  exists x, e = Raised x.
Proof.
  unfold verify_fixes.PatientDischargeDetails_objects_create.
  erewrite sbind_done by reflexivity. apply objects_create_failed.
Qed.

Lemma PatientDischargeDetails_objects_create_inv (p : Patient.t) (d : Doctor.t)
    (admit_date release_date : Date.t) (day_spent : Z)
    (room_charge medicine_cost doctor_fee other_charge total : Decimal.t)
    (w w1 : World.t) (x : PatientDischargeDetails.t) :
  verify_fixes.PatientDischargeDetails_objects_create (Some p) (Some d)
      admit_date release_date day_spent room_charge medicine_cost doctor_fee
      other_charge total w = (verify_fixes.Done x, w1) ->
  PatientDischargeDetails.patientId x = Some (User.id (Patient.user p)) /\
  PatientDischargeDetails.assignedDoctorName x = Doctor.get_name d.
Proof.
  unfold verify_fixes.PatientDischargeDetails_objects_create.
  erewrite sbind_done by reflexivity. intros Hc.
  apply objects_create_inv in Hc. destruct Hc as [db ->].
  match goal with
  | |- context [PatientDischargeDetails.save (?self, db)] =>
      destruct (discharge_self_after self db) as (v & Hs)
  end.
  rewrite Hs. split; reflexivity.
Qed.

Ltac script_pure H :=
  erewrite sbind_done in H by reflexivity; cbv beta in H.

Tactic Notation "script_case" hyp(H) constr(failed) ident(a) ident(w1) ident(Hc) :=
  apply sbind_inv in H;
  destruct H as [(a & w1 & Hc & H) | (?e & ?w1 & Hc & H)];
  [ | apply failed in Hc; destruct Hc as [?x ->]; discriminate H ].

(** X24. Whatever the database holds, the script never stops on one of its
    five assertions: once the objects have been created, the legacy fields
    the assertions compare are in step. The script can only stop on an
    exception of the database or of the models. *)
Theorem verify_fixes_assertions_never_fail (w w' : World.t) (msg : string) :
  verify_fixes.verify_relationships w <> (verify_fixes.Failed (AssertionError msg), w').
Proof.
  intros Hr. unfold verify_fixes.verify_relationships in Hr.
  script_pure Hr. script_pure Hr.
  script_case Hr create_user_failed du w1 Hc. clear Hc.
  script_case Hr Doctor_objects_create_failed d w2 Hc.
  apply Doctor_objects_create_inv in Hc. rename Hc into Hduser.
  script_pure Hr. script_pure Hr.
  script_case Hr create_user_failed pu w3 Hc. clear Hc.
  script_case Hr Patient_objects_create_failed p w4 Hc.
  apply Patient_objects_create_inv in Hc. destruct Hc as [Hpuser Hpid].
  script_pure Hr. script_pure Hr. script_pure Hr.
  rewrite bool_decide_eq_true_2 in Hr by (rewrite Hpid, Hduser; reflexivity).
  script_pure Hr. script_pure Hr. script_pure Hr.
  script_case Hr Appointment_objects_create_failed a w5 Hc.
  apply Appointment_objects_create_inv in Hc. destruct Hc as [Hadid Hapid].
  script_case Hr (@str_of_failed Appointment.t) s w6 Hc. clear Hc.
  script_pure Hr. script_pure Hr. script_pure Hr.
  rewrite bool_decide_eq_true_2 in Hr by (rewrite Hadid, Hduser; reflexivity).
  script_pure Hr.
  rewrite bool_decide_eq_true_2 in Hr by (rewrite Hapid, Hpuser; reflexivity).
  script_pure Hr. script_pure Hr. script_pure Hr.
  script_pure Hr. script_pure Hr.
  script_case Hr PatientDischargeDetails_objects_create_failed x w7 Hc.
  apply PatientDischargeDetails_objects_create_inv in Hc. destruct Hc as [Hxpid Hxname].
  script_case Hr (@str_of_failed PatientDischargeDetails.t) s' w8 Hc. clear Hc.
  script_pure Hr. script_pure Hr. script_pure Hr.
  rewrite bool_decide_eq_true_2 in Hr by (rewrite Hxpid, Hpuser; reflexivity).
  script_pure Hr.
  rewrite bool_decide_eq_true_2 in Hr by exact Hxname.
  script_pure Hr. script_pure Hr.
  script_case Hr delete_failed u1 w9 Hc. clear Hc.
  script_case Hr delete_failed u2 w10 Hc. clear Hc.
  script_case Hr delete_failed u3 w11 Hc. clear Hc.
  script_case Hr delete_failed u4 w12 Hc. clear Hc.
  script_case Hr delete_failed u5 w13 Hc. clear Hc.
  script_case Hr delete_failed u6 w14 Hc. clear Hc.
  discriminate Hr.
Qed.
